(** * gemini/core.py: response decoding and the conversation session

    A shallow embedding of [Gemini.generate_content] and of the class
    [GeminiSession] of [src/gemini/core.py], with the statements of the
    specification proved, or refuted, against it.

    Layout: the Python run time the code relies on (values, truth value,
    indexing, exceptions), the records of [gemini.models], the session
    object, the decoder and the extractor, the turn itself, then the
    theorems. *)

From Stdlib Require Import ZArith String Ascii Lia DecimalString.
From stdpp Require Import base list.

Local Open Scope string_scope.
Local Open Scope Z_scope.

(** ** Python values and exceptions *)

Module Py.

(** What [json.loads] can return, which is also all a metadata slot or a
    record field ever holds here.  A [float] is kept as a dyadic
    [m * 2^e]; only whether it is zero matters to the code.  One
    character of a [string] stands for one character of a Python [str]. *)
#[warnings="-register-all"]
Inductive pyval : Type :=
| VNone
| VBool (b : bool)
| VInt (z : Z)
| VFloat (m e : Z)
| VStr (s : string)
| VList (l : list pyval)
| VDict (kv : list (string * pyval)).

(** The exception classes that occur; [PyException] is [Exception]
    itself.  Modelled from the spec: [APIError], [GeminiError] and
    [TimeoutError] are imported from [gemini.models.exceptions], which is
    not among the source files; section 7 of the specification makes them
    kinds of their own, so none is taken to derive from another class
    listed here. *)
Inductive exn_class : Type :=
| IndexError | KeyError | TypeError | ValueError | JSONDecodeError
| APIError | GeminiError | TimeoutError | PyException.

(** A raised exception: its class and its message.  Exceptions raised by
    the interpreter itself carry the empty message here. *)
Record exn : Type := Raised { exn_cls : exn_class; exn_msg : string }.

Inductive result (A : Type) : Type :=
| Ok (a : A)
| Err (e : exn).
Arguments Ok {A} a.
Arguments Err {A} e.

Definition bind {A B} (m : result A) (k : A -> result B) : result B :=
  match m with
  | Ok a => k a
  | Err e => Err e
  end.

Definition raise {A} (c : exn_class) (msg : string) : result A :=
  Err (Raised c msg).

(** The class [c] named by an [except c:] clause catches [e]. *)
Definition exn_class_eqb (c d : exn_class) : bool :=
  match c, d with
  | IndexError, IndexError | KeyError, KeyError | TypeError, TypeError
  | ValueError, ValueError | JSONDecodeError, JSONDecodeError
  | APIError, APIError | GeminiError, GeminiError
  | TimeoutError, TimeoutError | PyException, PyException => true
  | _, _ => false
  end.

Definition catches (c : exn_class) (e : exn) : bool :=
  match c with
  | PyException => true
  | ValueError =>
      exn_class_eqb (exn_cls e) ValueError
      || exn_class_eqb (exn_cls e) JSONDecodeError
  | _ => exn_class_eqb c (exn_cls e)
  end.

(** [try: m  except c: h] *)
Definition try_except {A} (m : result A) (c : exn_class)
    (h : exn -> result A) : result A :=
  match m with
  | Ok a => Ok a
  | Err e => if catches c e then h e else Err e
  end.

(** [bool(v)] *)
Definition truthy (v : pyval) : bool :=
  match v with
  | VNone => false
  | VBool b => b
  | VInt z => negb (z =? 0)
  | VFloat m _ => negb (m =? 0)
  | VStr s => negb (String.eqb s "")
  | VList l => negb (Nat.eqb (length l) 0)
  | VDict kv => negb (Nat.eqb (length kv) 0)
  end.

Definition chars (s : string) : list pyval :=
  map (fun c => VStr (String c EmptyString)) (list_ascii_of_string s).

(** [l[i]] on a sequence of length [length l]: a negative [i] counts from
    the end, anything outside [-len, len) has no element. *)
Definition seq_index {A} (l : list A) (i : Z) : option A :=
  let j := if i <? 0 then i + Z.of_nat (length l) else i in
  if (0 <=? j) && (j <? Z.of_nat (length l)) then l !! Z.to_nat j else None.

(** [v[i]] for an [int] index. A [dict] from JSON has [str] keys only. *)
Definition getitem (v : pyval) (i : Z) : result pyval :=
  match v with
  | VList l =>
      match seq_index l i with
      | Some x => Ok x
      | None => raise IndexError ""
      end
  | VStr s =>
      match seq_index (chars s) i with
      | Some x => Ok x
      | None => raise IndexError ""
      end
  | VDict _ => raise KeyError ""
  | _ => raise TypeError ""
  end.

(** [v[k]] for a [str] key. *)
Fixpoint dict_get (kv : list (string * pyval)) (k : string) : option pyval :=
  match kv with
  | [] => None
  | (k', x) :: rest => if String.eqb k k' then Some x else dict_get rest k
  end.

Definition getitem_str (v : pyval) (k : string) : result pyval :=
  match v with
  | VDict kv =>
      match dict_get kv k with
      | Some x => Ok x
      | None => raise KeyError ""
      end
  | _ => raise TypeError ""
  end.

(** [iter(v)], run to the end. *)
Definition iter (v : pyval) : result (list pyval) :=
  match v with
  | VList l => Ok l
  | VStr s => Ok (chars s)
  | VDict kv => Ok (map (fun p => VStr (fst p)) kv)
  | _ => raise TypeError ""
  end.

(** [len(v)] *)
Definition len (v : pyval) : result nat :=
  match v with
  | VList l => Ok (length l)
  | VStr s => Ok (length (chars s))
  | VDict kv => Ok (length kv)
  | _ => raise TypeError ""
  end.

(** [s.split("\n")] *)
Definition newline : ascii := "010"%char.

Fixpoint split_newline (s : string) : list string :=
  match s with
  | EmptyString => [EmptyString]
  | String c rest =>
      if Ascii.eqb c newline then EmptyString :: split_newline rest
      else
        match split_newline rest with
        | line :: lines => String c line :: lines
        | [] => [String c EmptyString]
        end
  end.

(** [for x in xs: f(x)], collecting the results, stopping at the first
    exception. *)
Fixpoint for_each {A B} (f : A -> result B) (xs : list A) : result (list B) :=
  match xs with
  | [] => Ok []
  | x :: rest =>
      bind (f x) (fun y => bind (for_each f rest) (fun ys => Ok (y :: ys)))
  end.

(** [enumerate(xs)] *)
Fixpoint enumerate_from {A} (i : Z) (xs : list A) : list (Z * A) :=
  match xs with
  | [] => []
  | x :: rest => (i, x) :: enumerate_from (i + 1) rest
  end.

Definition enumerate {A} (xs : list A) : list (Z * A) := enumerate_from 0 xs.

End Py.
Import Py.

#[global] Instance result_bind : MBind result := fun _ _ k m => bind m k.
#[global] Instance result_ret : MRet result := fun _ a => Ok a.

(** ** The records of gemini.models *)

(** Modelled from the spec: [WebImage], [GeneratedImage], [Candidate] and
    [GeminiOutput] are imported from [gemini.models.base], which is not
    among the source files.  Section 3 of the specification gives their
    fields; the constructors store what they are given.  The field names
    are the keyword arguments [core.py] passes. *)
Record WebImage : Type := mkWebImage {
  wi_url : pyval;
  wi_title : pyval;
  wi_alt : pyval
}.

Record GeneratedImage : Type := mkGeneratedImage {
  gi_url : pyval;
  gi_title : string;
  gi_alt : pyval;
  gi_cookies : pyval
}.

Record Candidate : Type := mkCandidate {
  rcid : pyval;
  text : pyval;
  web_images : list WebImage;
  generated_images : list GeneratedImage
}.

Record GeminiOutput : Type := mkGeminiOutput {
  metadata : pyval;
  candidates : list Candidate;
  chosen : Z
}.

(** Modelled from the spec: the property [GeminiOutput.rcid], read by
    [GeminiSession]; section 4.3 calls it
    [output.chosenCandidate.replyCandidateId], that is
    [self.candidates[self.chosen].rcid]. *)
Definition GeminiOutput_rcid (o : GeminiOutput) : result pyval :=
  match seq_index (candidates o) (chosen o) with
  | Some c => Ok (rcid c)
  | None => raise IndexError ""
  end.

(** [o.chosen = index] *)
Definition set_chosen (o : GeminiOutput) (index : Z) : GeminiOutput :=
  {| metadata := metadata o; candidates := candidates o; chosen := index |}.

(** ** What the code takes from outside *)

(** Library functions and declarations that [core.py] uses and that are
    not part of it. *)
Class Runtime : Type := {
  (** [json.loads] on a [str]; [None] when it raises [JSONDecodeError]. *)
  json_loads : string -> option pyval;
  (** [format(v)], what an f-string puts in place of [{v}]. *)
  py_format : pyval -> string;
  (** [bool(o)] for an instance of [GeminiOutput], whose class is not
      among the source files. *)
  output_truthy : GeminiOutput -> bool;
  (** [gemini.constants.ALLOWED_LANGUAGES] *)
  ALLOWED_LANGUAGES : list string;
  (** [GoogleTranslator(source="auto", target="en").translate] *)
  deep_translate : pyval -> result pyval;
  (** [translate.Client(api_key=key)], which returns a client or raises *)
  translate_Client : string -> result unit;
  (** [client.translate(prompt, target_language="en")] for the client
      made with [key] *)
  google_translate : string -> pyval -> result pyval
}.

(** ** GeminiSession *)

(** The slots of a [GeminiSession]: [__metadata] and [gemini_output].  The
    third slot, [gemini], is the client of the program state below.  The
    stored output is kept by value; the Python object is shared with
    whoever received it from [choose_candidate]. *)
Record GeminiSession : Type := mkSession {
  _metadata : list pyval;
  gemini_output : option GeminiOutput
}.

(** A method of the session: the session after the call, and what the
    call returned or raised.  An exception does not undo the assignments
    made before it. *)
Definition method (A : Type) : Type := GeminiSession -> GeminiSession * result A.

Definition method_ret {A} (a : A) : method A := fun s => (s, Ok a).

Definition method_raise {A} (c : exn_class) (msg : string) : method A :=
  fun s => (s, raise c msg).

Definition method_bind {A B} (m : method A) (k : A -> method B) : method B :=
  fun s =>
    match m s with
    | (s', Ok a) => k a s'
    | (s', Err e) => (s', Err e)
    end.

Definition lift {A} (r : result A) : method A := fun s => (s, r).

(** A plain assignment to a slot of [self]. *)
Definition modify (f : GeminiSession -> GeminiSession) : method unit :=
  fun s => (f s, Ok tt).

#[global] Instance method_mbind : MBind method := fun _ _ k m => method_bind m k.
#[global] Instance method_mret : MRet method := fun _ a => method_ret a.

Section Session.

Context {RT : Runtime}.

(** [self.__metadata[i] = value] *)
Definition set_slot (i : nat) (value : pyval) : method unit :=
  fun s =>
    if (i <? length (_metadata s))%nat
    then (mkSession (<[i := value]> (_metadata s)) (gemini_output s), Ok tt)
    else (s, raise IndexError "").

(** [self.__metadata[i]] *)
Definition get_slot (i : nat) (s : GeminiSession) : result pyval :=
  match _metadata s !! i with
  | Some v => Ok v
  | None => raise IndexError ""
  end.

(** The getter of the property [metadata] returns the list itself. *)
Definition metadata_get (s : GeminiSession) : list pyval := _metadata s.

(** The setter of [metadata]:
    [if len(value) > 3: raise ValueError(...)] then
    [self.__metadata[: len(value)] = value]. *)
Definition metadata_set (value : pyval) : method unit :=
  n ← lift (len value);
  if (3 <? n)%nat then method_raise ValueError "metadata cannot exceed 3 elements"
  else
    items ← lift (iter value);
    modify (fun s => mkSession (items ++ drop n (_metadata s)) (gemini_output s)).

Definition cid (s : GeminiSession) : result pyval := get_slot 0 s.
Definition rid (s : GeminiSession) : result pyval := get_slot 1 s.
Definition rcid_get (s : GeminiSession) : result pyval := get_slot 2 s.

Definition cid_set (value : pyval) : method unit := set_slot 0 value.
Definition rid_set (value : pyval) : method unit := set_slot 1 value.
Definition rcid_set (value : pyval) : method unit := set_slot 2 value.

(** [GeminiSession.__setattr__] for [name == "gemini_output"]: the value
    is stored first, then, when it is a [GeminiOutput],
    [self.metadata = value.metadata] and [self.rcid = value.rcid]. *)
Definition setattr_gemini_output (value : option GeminiOutput) : method unit :=
  modify (fun s => mkSession (_metadata s) value);;
  match value with
  | None => method_ret tt
  | Some o =>
      metadata_set (metadata o);;
      r ← lift (GeminiOutput_rcid o);
      rcid_set r
  end.

(** [GeminiSession.__init__]; [VNone] for an argument left out. *)
Definition GeminiSession_init (metadata0 cid0 rid0 rcid0 : pyval)
    : GeminiSession * result unit :=
  (modify (fun _ => mkSession [VNone; VNone; VNone] None);;
   setattr_gemini_output None;;
   (if truthy metadata0 then metadata_set metadata0 else method_ret tt);;
   (if truthy cid0 then cid_set cid0 else method_ret tt);;
   (if truthy rid0 then rid_set rid0 else method_ret tt);;
   if truthy rcid0 then rcid_set rcid0 else method_ret tt)
  (mkSession [] None).

(** The session [GeminiSession(gemini)] makes. *)
Definition fresh_session : GeminiSession := mkSession [VNone; VNone; VNone] None.

Definition no_previous_output : string :=
  "No previous gemini_output data found in this chat session.".

Definition index_exceeds (index : Z) : string :=
  "Index " ++ py_format (VInt index)
  ++ " exceeds the number of candidates in last model gemini_output.".

(** [GeminiSession.choose_candidate] *)
Definition choose_candidate (index : Z) : method GeminiOutput :=
  fun s =>
    match gemini_output s with
    | None => (s, raise ValueError no_previous_output)
    | Some o =>
        if negb (output_truthy o) then (s, raise ValueError no_previous_output)
        else if index >=? Z.of_nat (length (candidates o))
        then (s, raise ValueError (index_exceeds index))
        else
          let o' := set_chosen o index in
          (modify (fun s0 => mkSession (_metadata s0) (Some o'));;
           r ← lift (GeminiOutput_rcid o');
           rcid_set r;;
           method_ret o') s
    end.

End Session.

(** ** The client and the world around it *)

(** A [requests.Session], as far as the code sets it up: the cookies put
    into its jar, in order, and its proxies. *)
Record HttpSession : Type := mkHttpSession {
  jar : list (string * pyval);
  hs_proxies : pyval
}.

(** The attributes of a [Gemini] that [generate_content] and its helpers
    read or assign.  [SNlM0e] is read at line 248 and assigned nowhere in
    the source files. *)
Record Gemini : Type := mkGemini {
  session : HttpSession;
  cookies : pyval;
  proxies : pyval;
  language : option string;
  google_translator_api_key : option string;
  SNlM0e : pyval
}.

(** The form data of one POST: [at], and the prompt and the metadata
    inside [f.req]; [None] for the metadata when no session is given. *)
Record Request : Type := mkRequest {
  req_at : pyval;
  req_prompt : pyval;
  req_metadata : option (list pyval)
}.

(** What [self.session.post(...)] does: it raises, or it returns a
    response with a status code and a body. *)
Inductive Response : Type :=
| PostRaises
| HttpResponse (status_code : Z) (text : string).

(** Everything outside the process: the answers the server will give, in
    order, the requests made so far (latest first), the environment
    variable [GEMINI_COOKIES_DICT], and what
    [extract_cookies_from_brwoser()] finds. *)
Record World : Type := mkWorld {
  pending : list Response;
  sent : list (HttpSession * Request);
  env_cookies : option string;
  browser_cookies : result pyval
}.

(** One POST: the request is recorded and the next pending answer is
    consumed; with no answer left the call raises. *)
Definition post (via : HttpSession) (data : Request) (w : World)
    : World * Response :=
  match pending w with
  | [] =>
      (mkWorld [] ((via, data) :: sent w) (env_cookies w) (browser_cookies w),
       PostRaises)
  | r :: rest =>
      (mkWorld rest ((via, data) :: sent w) (env_cookies w) (browser_cookies w),
       r)
  end.

Definition with_cookies (g : Gemini) (c : pyval) : Gemini :=
  mkGemini (session g) c (proxies g) (language g)
           (google_translator_api_key g) (SNlM0e g).

Definition with_session (g : Gemini) (hs : HttpSession) : Gemini :=
  mkGemini hs (cookies g) (proxies g) (language g)
           (google_translator_api_key g) (SNlM0e g).

(** [jar.set(k, v)] and [jar.update(d)] *)
Fixpoint jar_set (j : list (string * pyval)) (k : string) (v : pyval)
    : list (string * pyval) :=
  match j with
  | [] => [(k, v)]
  | (k', v') :: rest =>
      if String.eqb k k' then (k, v) :: rest else (k', v') :: jar_set rest k v
  end.

Definition jar_update (j kv : list (string * pyval)) : list (string * pyval) :=
  fold_left (fun acc p => jar_set acc (fst p) (snd p)) kv j.

(** [Gemini._get_auto_cookies] *)
Definition _get_auto_cookies (auto_cookies : bool) (g : Gemini) (w : World)
    : Gemini * result pyval :=
  let no_cookies :=
    raise PyException
      "Gemini cookies must be provided as the 'cookies' argument or extracted from the browser." in
  let from_browser :=
    if auto_cookies then
      match browser_cookies w with
      | Err x => (g, Err x)
      | Ok extracted =>
          if truthy extracted then (with_cookies g extracted, Ok extracted)
          else (with_cookies g extracted, no_cookies)
      end
    else (g, no_cookies) in
  match env_cookies w with
  | Some e => if truthy (VStr e) then (g, Ok (VStr e)) else from_browser
  | None => from_browser
  end.

(** [Gemini._get_session] *)
Definition _get_session (given : option HttpSession) (g : Gemini)
    : result HttpSession :=
  match given with
  | Some hs => Ok hs
  | None =>
      if negb (truthy (cookies g))
      then raise ValueError "'cookies' dictionary is empty."
      else
        psid ← getitem_str (cookies g) "__Secure-1PSID";
        let j := jar_set [] "__Secure-1PSID" psid in
        match cookies g with
        | VDict kv => Ok (mkHttpSession (jar_update j kv) (proxies g))
        | _ => Ok (mkHttpSession j (proxies g))
        end
  end.

(** ** Decoding and extraction *)

Section Core.

Context {RT : Runtime}.

(** [json.loads(v)] *)
Definition loads (v : pyval) : result pyval :=
  match v with
  | VStr s =>
      match json_loads s with
      | Some j => Ok j
      | None => raise JSONDecodeError ""
      end
  | _ => raise TypeError ""
  end.

(** [v[i1][i2]...] *)
Fixpoint getpath (v : pyval) (path : list Z) : result pyval :=
  match path with
  | [] => Ok v
  | i :: rest => x ← getitem v i; getpath x rest
  end.

(** [json.loads(json.loads(response.text.split("\n")[2])[i][2])] *)
Definition framed_json (text : string) (i : Z) : result pyval :=
  line ← match seq_index (split_newline text) 2 with
         | Some l => Ok (VStr l)
         | None => raise IndexError ""
         end;
  outer ← loads line;
  inner ← getpath outer [i; 2];
  loads inner.

Definition failed_to_parse_body : string :=
  "Failed to parse body. The response body is unstructured. Please try again.".

Definition failed_to_parse_candidates : string :=
  "Failed to parse candidates. Unexpected structured response returned. Please try again.".

Definition data_structure_invalid : string :=
  "Failed to parse response body. Data structure is invalid.".

Definition no_data_returned : string :=
  "Failed to generate candidates. No data of any kind returned.".

(** Lines 271-281: the body of the first [try]. *)
Definition decode_attempt (text : string) : result pyval :=
  body ← framed_json text 0;
  b4 ← getitem body 4;
  body ← (if negb (truthy b4) then framed_json text 4 else Ok body);
  b4 ← getitem body 4;
  if negb (truthy b4) then raise APIError failed_to_parse_body else Ok body.

(** Lines 270-285: the first [try] with its [except Exception]. *)
Definition decode_body (text : string) : result pyval :=
  try_except (decode_attempt text) PyException
    (fun _ => raise APIError failed_to_parse_candidates).

(** [WebImage(url=image[0][0][0], title=image[2], alt=image[0][4])] *)
Definition web_image (image : pyval) : result WebImage :=
  u ← getpath image [0; 0; 0];
  t ← getpath image [2];
  a ← getpath image [0; 4];
  Ok (mkWebImage u t a).

(** [GeneratedImage(url=image[0][3][3],
    title=f"[Generated image {image[3][6]}]", alt=image[3][5][i],
    cookies=self.cookies)] *)
Definition generated_image (cookies0 : pyval) (p : Z * pyval)
    : result GeneratedImage :=
  u ← getpath (snd p) [0; 3; 3];
  n ← getpath (snd p) [3; 6];
  a ← getpath (snd p) [3; 5; fst p];
  Ok (mkGeneratedImage u ("[Generated image " ++ py_format n ++ "]") a cookies0).

(** Lines 290-299: [candidate[4] and [...] or []]. *)
Definition web_part (candidate : pyval) : result (list WebImage) :=
  c4 ← getpath candidate [4];
  if truthy c4 then
    images ← (x ← getpath candidate [4]; iter x);
    for_each web_image images
  else Ok [].

(** Lines 300-314:
    [candidate[12] and candidate[12][7] and candidate[12][7][0] and [...]
    or []]. *)
Definition generated_part (cookies0 : pyval) (candidate : pyval)
    : result (list GeneratedImage) :=
  c12 ← getpath candidate [12];
  if truthy c12 then
    c127 ← getpath candidate [12; 7];
    if truthy c127 then
      c1270 ← getpath candidate [12; 7; 0];
      if truthy c1270 then
        images ← (x ← getpath candidate [12; 7; 0]; iter x);
        for_each (generated_image cookies0) (enumerate images)
      else Ok []
    else Ok []
  else Ok [].

(** Lines 290-322: the body of the loop over [body[4]]. *)
Definition extract_candidate (cookies0 : pyval) (candidate : pyval)
    : result Candidate :=
  web ← web_part candidate;
  generated ← generated_part cookies0 candidate;
  r ← getpath candidate [0];
  t ← getpath candidate [1; 0];
  Ok (mkCandidate r t web generated).

(** Lines 288-329: the body of the second [try]. *)
Definition build_attempt (cookies0 : pyval) (body : pyval) : result GeminiOutput :=
  entries ← (x ← getitem body 4; iter x);
  found ← for_each (extract_candidate cookies0) entries;
  match found with
  | [] => raise GeminiError no_data_returned
  | _ :: _ =>
      m ← getitem body 1;
      Ok (mkGeminiOutput m found 0)
  end.

(** Lines 287-333: the second [try] with its [except IndexError]. *)
Definition build_output (cookies0 : pyval) (body : pyval) : result GeminiOutput :=
  try_except (build_attempt cookies0 body) IndexError
    (fun _ => raise APIError data_structure_invalid).

(** ** One turn *)

(** What a call of [generate_content] leaves behind: the client, the
    world, and the value returned or the exception raised. *)
Definition outcome : Type := Gemini * World * result GeminiOutput.

(** Lines 228-246: the optional translation of the prompt. *)
Definition translated (g : Gemini) (prompt : pyval) : result pyval :=
  _ ← match google_translator_api_key g with
      | Some key => translate_Client key
      | None => Ok tt
      end;
  match language g with
  | None => Ok prompt
  | Some lang =>
      if existsb (String.eqb lang) ALLOWED_LANGUAGES then Ok prompt
      else
        match google_translator_api_key g with
        | None => deep_translate prompt
        | Some key => google_translate key prompt
        end
  end.

(** Lines 337-348: [for _ in range(n): ... else: raise APIError(...)],
    where [again] is the recursive call. *)
Fixpoint retry (again : Gemini -> World -> option outcome) (n : nat)
    (g : Gemini) (w : World) : option outcome :=
  match n with
  | O =>
      Some (g, w,
            raise APIError "Failed to establish session connection after retrying.")
  | S n' =>
      match _get_auto_cookies true g w with
      | (g1, Err e) => Some (g1, w, Err e)
      | (g1, Ok c) =>
          let g2 := with_cookies g1 c in
          match _get_session None g2 with
          | Err e => Some (g2, w, Err e)
          | Ok hs =>
              match again (with_session g2 hs) w with
              | None => None
              | Some (g3, w3, Ok generated_content) =>
                  Some (g3, w3, Ok generated_content)
              | Some (g3, w3, Err _) => retry again n' g3 w3
              end
          end
      end
  end.

Definition request_timed_out : string :=
  "Request timed out. If errors persist, increase the timeout parameter in the Gemini class to a higher number of seconds.".

(** [Gemini.generate_content(prompt, session)].  The arguments [image] and
    [tool] are only handed on to the recursive call.  [fuel] bounds the
    depth of the recursion through the retry loop; [None] is reported
    when it runs out. *)
Fixpoint generate_content (fuel : nat) (prompt : pyval)
    (chat : option GeminiSession) (g : Gemini) (w : World) : option outcome :=
  match fuel with
  | O => None
  | S fuel' =>
      match translated g prompt with
      | Err e => Some (g, w, Err e)
      | Ok prompt =>
          let data := mkRequest (SNlM0e g) prompt (metadata_get <$> chat) in
          match post (session g) data w with
          | (w1, PostRaises) => Some (g, w1, raise TimeoutError request_timed_out)
          | (w1, HttpResponse status_code text) =>
              if negb (status_code =? 200) then
                Some (g, w1,
                      raise APIError
                        ("Request failed with status code "
                         ++ py_format (VInt status_code)))
              else
                match body ← decode_body text; build_output (cookies g) body with
                | Err e => Some (g, w1, Err e)
                | Ok generated_content =>
                    if negb (output_truthy generated_content) then
                      retry (generate_content fuel' prompt chat) 2 g w1
                    else Some (g, w1, Ok generated_content)
                end
          end
      end
  end.

End Core.

(** ** The conversation: one client, one session *)

Record Program : Type := mkProgram {
  gemini : Gemini;
  world : World;
  chat : GeminiSession
}.

Section Conversation.

Context {RT : Runtime}.

(** [GeminiSession.send_message]:
    [return self.gemini.generate_content(prompt, self)] *)
Definition send_message (fuel : nat) (prompt : pyval) (p : Program)
    : option (Program * result GeminiOutput) :=
  match generate_content fuel prompt (Some (chat p)) (gemini p) (world p) with
  | None => None
  | Some (g, w, r) => Some (mkProgram g w (chat p), r)
  end.

(** A method of the session, run inside the program. *)
Definition on_chat {A} (m : method A) (p : Program) : Program * result A :=
  let '(s, r) := m (chat p) in (mkProgram (gemini p) (world p) s, r).

End Conversation.

(** ** Concrete data for the examples *)

Module Fixture.

Definition dq : string := String "034"%char EmptyString.
Definition nl : string := String newline EmptyString.

(** The text of a JSON string literal with content [s] (for the
    characters used here: only the quote and the backslash are escaped). *)
Fixpoint escaped (s : string) : string :=
  match s with
  | EmptyString => EmptyString
  | String c rest =>
      if Ascii.eqb c "034"%char || Ascii.eqb c "092"%char
      then String "092"%char (String c (escaped rest))
      else String c (escaped rest)
  end.

Definition quoted (s : string) : string := dq ++ escaped s ++ dq.

Definition nulls (n : nat) : list pyval := replicate n VNone.

(** The framing of a response: the guard line, an empty line, then the
    envelope whose element [[0][2]] is the body as a JSON string. *)
Definition envelope (inner : string) : string :=
  "[[" ++ quoted "wrb.fr" ++ ",null," ++ quoted inner ++ "]]".

Definition framed (inner : string) : string :=
  ")]}'" ++ nl ++ nl ++ envelope inner.

Definition envelope_value (inner : string) : pyval :=
  VList [VList [VStr "wrb.fr"; VNone; VStr inner]].

(** An envelope with both locations, [[0][2]] and [[4][2]]. *)
Definition envelope_both (first second : string) : string :=
  "[[" ++ quoted "wrb.fr" ++ ",null," ++ quoted first
  ++ "],null,null,null,[null,null," ++ quoted second ++ "]]".

Definition envelope_both_value (first second : string) : pyval :=
  VList [VList [VStr "wrb.fr"; VNone; VStr first]; VNone; VNone; VNone;
         VList [VNone; VNone; VStr second]].

(** A body with two plain candidates, [rc_0] and [rc_1]. *)
Definition entry_text (id txt : string) : string :=
  "[" ++ quoted id ++ ",[" ++ quoted txt ++ "]"
  ++ ",null,null,null,null,null,null,null,null,null,null,null]".

Definition entry_value (id txt : string) : pyval :=
  VList (VStr id :: VList [VStr txt] :: nulls 11).

Definition two_text : string :=
  "[null,[" ++ quoted "c_1" ++ "," ++ quoted "r_1" ++ "],null,null,["
  ++ entry_text "rc_0" "first" ++ "," ++ entry_text "rc_1" "second" ++ "]]".

Definition two_value : pyval :=
  VList [VNone; VList [VStr "c_1"; VStr "r_1"]; VNone; VNone;
         VList [entry_value "rc_0" "first"; entry_value "rc_1" "second"]].

(** A body whose candidate list is empty. *)
Definition empty_text : string := "[null,null,null,null,[]]".
Definition empty_value : pyval :=
  VList [VNone; VNone; VNone; VNone; VList []].

(** A body whose only candidate entry is the number 5. *)
Definition scalar_text : string := "[null,null,null,null,[5]]".
Definition scalar_value : pyval :=
  VList [VNone; VNone; VNone; VNone; VList [VInt 5]].

(** A body whose candidate entry has two elements only. *)
Definition short_text : string :=
  "[null,null,null,null,[[" ++ quoted "rc_0" ++ ",[" ++ quoted "first" ++ "]]]]".
Definition short_value : pyval :=
  VList [VNone; VNone; VNone; VNone;
         VList [VList [VStr "rc_0"; VList [VStr "first"]]]].

(** [json.loads] on the texts above. *)
Definition parses : list (string * pyval) :=
  [ (two_text, two_value);
    (empty_text, empty_value);
    (scalar_text, scalar_value);
    (short_text, short_value);
    (envelope two_text, envelope_value two_text);
    (envelope empty_text, envelope_value empty_text);
    (envelope scalar_text, envelope_value scalar_text);
    (envelope short_text, envelope_value short_text);
    (envelope_both empty_text empty_text,
     envelope_both_value empty_text empty_text) ].

Definition format_value (v : pyval) : string :=
  match v with
  | VInt z => NilZero.string_of_int (Z.to_int z)
  | VStr s => s
  | VNone => "None"
  | VBool true => "True"
  | VBool false => "False"
  | _ => EmptyString
  end.

(** A run time for the examples: [json.loads] restricted to the texts
    above, [format] on scalars, every output true, no translation. *)
#[local] Instance runtime : Runtime := {|
  json_loads := fun s => dict_get parses s;
  py_format := format_value;
  output_truthy := fun _ => true;
  ALLOWED_LANGUAGES := ["en"];
  deep_translate := fun p => Ok p;
  translate_Client := fun _ => Ok tt;
  google_translate := fun _ p => Ok p
|}.

Definition client_cookies : pyval :=
  VDict [("__Secure-1PSID", VStr "psid")].

Definition client : Gemini :=
  mkGemini (mkHttpSession [("__Secure-1PSID", VStr "psid")] VNone)
           client_cookies VNone None None (VStr "token").

Definition serving (answers : list Response) : World :=
  mkWorld answers [] None (Ok client_cookies).

Definition start (answers : list Response) : Program :=
  mkProgram client (serving answers) fresh_session.

(** A candidate entry with one web image and one generated image. *)
Definition web_entry : pyval :=
  VList [VList [VList [VStr "http://w"]; VNone; VNone; VNone; VStr "alt w"];
         VNone; VStr "title w"].

Definition generated_entry : pyval :=
  VList [VList [VNone; VNone; VNone;
                VList [VNone; VNone; VNone; VStr "http://g"]];
         VNone; VNone;
         VList [VNone; VNone; VNone; VNone; VNone; VList [VStr "alt g"]; VInt 7]].

Definition rich_entry : pyval :=
  VList ([VStr "rc_0"; VList [VStr "first"]; VNone; VNone; VList [web_entry]]
         ++ nulls 7
         ++ [VList (nulls 7 ++ [VList [VList [generated_entry]]])])%list.

Definition rich_candidate : Candidate :=
  mkCandidate (VStr "rc_0") (VStr "first")
    [mkWebImage (VStr "http://w") (VStr "title w") (VStr "alt w")]
    [mkGeneratedImage (VStr "http://g") "[Generated image 7]" (VStr "alt g")
       client_cookies].

(** A candidate entry with two generated images; each lists the two
    alternative texts at [[3][5]], one per image. *)
Definition gallery_image (url : string) (n : Z) : pyval :=
  VList [VList [VNone; VNone; VNone;
                VList [VNone; VNone; VNone; VStr url]];
         VNone; VNone;
         VList [VNone; VNone; VNone; VNone; VNone;
                VList [VStr "alt 0"; VStr "alt 1"]; VInt n]].

Definition gallery_entry : pyval :=
  VList ([VStr "rc_0"; VList [VStr "first"]; VNone; VNone; VNone]
         ++ nulls 7
         ++ [VList (nulls 7
                    ++ [VList [VList [gallery_image "http://g0" 7;
                                      gallery_image "http://g1" 8]]])])%list.

Definition gallery_candidate : Candidate :=
  mkCandidate (VStr "rc_0") (VStr "first") []
    [mkGeneratedImage (VStr "http://g0") "[Generated image 7]" (VStr "alt 0")
       client_cookies;
     mkGeneratedImage (VStr "http://g1") "[Generated image 8]" (VStr "alt 1")
       client_cookies].

(** A candidate entry with its two first elements only, and one that
    stops after index 4. *)
Definition two_element_entry : pyval :=
  VList [VStr "rc_0"; VList [VStr "first"]].

Definition five_element_entry : pyval :=
  VList [VStr "rc_0"; VList [VStr "first"]; VNone; VNone; VNone].

(** The run time of the examples with an output class whose instances
    all count as false. *)
Definition falsy_runtime : Runtime := {|
  json_loads := fun s => dict_get parses s;
  py_format := format_value;
  output_truthy := fun _ => false;
  ALLOWED_LANGUAGES := ["en"];
  deep_translate := fun p => Ok p;
  translate_Client := fun _ => Ok tt;
  google_translate := fun _ p => Ok p
|}.

(** The response whose two bodies both have an empty candidate list. *)
Definition both_empty : string :=
  ")]}'" ++ nl ++ nl ++ envelope_both empty_text empty_text.

(** A response whose third line is not JSON. *)
Definition not_json : string := ")]}'" ++ nl ++ nl ++ "not json".

(** A response with a fourth line: line 2 frames the two candidates,
    line 3 frames the scalar body. *)
Definition four_lines : string :=
  framed two_text ++ nl ++ envelope scalar_text.

Definition two_candidates : list Candidate :=
  [mkCandidate (VStr "rc_0") (VStr "first") [] [];
   mkCandidate (VStr "rc_1") (VStr "second") [] []].

Definition two_output : GeminiOutput :=
  mkGeminiOutput (VList [VStr "c_1"; VStr "r_1"]) two_candidates 0.

(** A session on which [two_output] has been recorded. *)
Definition recorded : GeminiSession :=
  mkSession [VStr "c_1"; VStr "r_1"; VStr "rc_0"] (Some two_output).

End Fixture.

(** ** Predicates used in the statements *)

(** The metadata list has its three slots. *)
Definition three_slots (s : GeminiSession) : Prop := length (_metadata s) = 3%nat.

(** Raised by the interpreter while indexing or iterating. *)
Definition interpreter_raised (e : exn) : Prop :=
  exn_cls e = IndexError \/ exn_cls e = KeyError \/ exn_cls e = TypeError.

(** ** The decoder as the specification words it *)

Section DecoderSpec.

Context {RT : Runtime}.

(** Element [[i][2]] of the envelope is a JSON text for [body]. *)
Definition from_envelope (outer : pyval) (i : Z) (body : pyval) : Prop :=
  exists inner, getpath outer [i; 2] = Ok (VStr inner) /\ json_loads inner = Some body.

(** Index 4 of [body] exists and is true, respectively false. *)
Definition candidate_bearing (body : pyval) : Prop :=
  exists b4, getitem body 4 = Ok b4 /\ truthy b4 = true.

Definition empty_at_4 (body : pyval) : Prop :=
  exists b4, getitem body 4 = Ok b4 /\ truthy b4 = false.

(** Section 4.1 with the line index left open: line [k] of the text,
    split on newlines, is a JSON text for the envelope; [body] is its
    element [[0][2]] decoded again, or, when that has nothing at index 4,
    its element [[4][2]] decoded again; and [body] has candidate data at
    index 4. *)
Definition decodes_line (k : nat) (text : string) (body : pyval) : Prop :=
  exists line outer,
    split_newline text !! k = Some line
    /\ json_loads line = Some outer
    /\ candidate_bearing body
    /\ (from_envelope outer 0 body
        \/ exists first,
             from_envelope outer 0 first /\ empty_at_4 first
             /\ from_envelope outer 4 body).


End DecoderSpec.

(** ** The extractor as the specification words it *)

Section ExtractorSpec.

Context {RT : Runtime}.

(** [WebImage{url: image[0][0][0], title: image[2], altText: image[0][4]}] *)
Definition web_image_of (image : pyval) (w : WebImage) : Prop :=
  getpath image [0; 0; 0] = Ok (wi_url w)
  /\ getpath image [2] = Ok (wi_title w)
  /\ getpath image [0; 4] = Ok (wi_alt w).

(** [GeneratedImage{url: image[0][3][3],
    title: "[Generated image {image[3][6]}]", altText: image[3][5][i],
    authCookies: <session cookies>}] for the image at position [i]. *)
Definition generated_image_of (cookies0 : pyval) (i : Z) (image : pyval)
    (g : GeneratedImage) : Prop :=
  getpath image [0; 3; 3] = Ok (gi_url g)
  /\ (exists n, getpath image [3; 6] = Ok n
               /\ gi_title g = "[Generated image " ++ py_format n ++ "]")
  /\ getpath image [3; 5; i] = Ok (gi_alt g)
  /\ gi_cookies g = cookies0.

(** What is found at a place of an entry.  The place exists and holds a
    true value: [present].  It exists and holds [None], an empty
    sequence, zero or [False]: [empty].  It does not exist, the lookup
    raises: [missing].  A place is [absent] when it is not present, for
    either reason. *)
Definition present (r : result pyval) : Prop :=
  exists v, r = Ok v /\ truthy v = true.

Definition empty (r : result pyval) : Prop :=
  exists v, r = Ok v /\ truthy v = false.

Definition missing (r : result pyval) : Prop :=
  exists e, r = Err e.

Definition absent (r : result pyval) : Prop :=
  missing r \/ empty r.

(** The web images of an entry: one per element of [entry[4]], in order,
    when [entry[4]] is present, none when it is empty. *)
Definition web_images_of (entry : pyval) (ws : list WebImage) : Prop :=
  (empty (getpath entry [4]) /\ ws = [])
  \/ (present (getpath entry [4])
      /\ exists images,
           (x ← getpath entry [4]; iter x) = Ok images
           /\ Forall2 web_image_of images ws).

(** The generated images for a sequence of image entries: as many as
    there are entries, and the one at position [i], counted from 0, is
    built from the entry at position [i] with the number [i]. *)
Definition numbered_from_0 (cookies0 : pyval) (images : list pyval)
    (gs : list GeneratedImage) : Prop :=
  length gs = length images
  /\ forall (i : nat) (image : pyval),
       images !! i = Some image ->
       exists g, gs !! i = Some g
                 /\ generated_image_of cookies0 (Z.of_nat i) image g.

(** The generated images of an entry: those of the elements of
    [entry[12][7][0]] when [entry[12]], [entry[12][7]] and
    [entry[12][7][0]] are all present, none as soon as one of them, in
    this order, is empty. *)
Definition generated_images_of (cookies0 : pyval) (entry : pyval)
    (gs : list GeneratedImage) : Prop :=
  (empty (getpath entry [12]) /\ gs = [])
  \/ (present (getpath entry [12]) /\ empty (getpath entry [12; 7]) /\ gs = [])
  \/ (present (getpath entry [12]) /\ present (getpath entry [12; 7])
      /\ empty (getpath entry [12; 7; 0]) /\ gs = [])
  \/ (present (getpath entry [12]) /\ present (getpath entry [12; 7])
      /\ present (getpath entry [12; 7; 0])
      /\ exists images,
           (x ← getpath entry [12; 7; 0]; iter x) = Ok images
           /\ numbered_from_0 cookies0 images gs).

Definition candidate_of (cookies0 : pyval) (entry : pyval) (c : Candidate)
    : Prop :=
  getpath entry [0] = Ok (rcid c)
  /\ getpath entry [1; 0] = Ok (text c)
  /\ web_images_of entry (web_images c)
  /\ generated_images_of cookies0 entry (generated_images c).

End ExtractorSpec.

(** ** The retry policy as the specification words it *)



(** ** Links inside nested data *)

(** [p in s] for two [str] *)
Fixpoint contains (p s : string) : bool :=
  String.prefix p s
  || match s with
     | EmptyString => false
     | String _ rest => contains p rest
     end.

(** The test of lines 557-561 on an item that is a [str]:
    [item.startswith("http") and "favicon" not in item]. *)
Definition is_link (s : string) : bool :=
  String.prefix "http" s && negb (contains "favicon" s).

(** [Gemini._extract_links] *)
Fixpoint _extract_links (data : pyval) : list string :=
  match data with
  | VList items =>
      (fix over (items : list pyval) : list string :=
         match items with
         | [] => []
         | item :: rest =>
             match item with
             | VList _ => (_extract_links item ++ over rest)%list
             | VStr s => if is_link s then s :: over rest else over rest
             | _ => over rest
             end
         end) items
  | _ => []
  end.

(** [s] is an item of a list that is reached from [data] through lists
    only. *)
Inductive item_of (s : string) : pyval -> Prop :=
| item_here (items : list pyval) :
    In (VStr s) items -> item_of s (VList items)
| item_deeper (items inner : list pyval) :
    In (VList inner) items -> item_of s (VList inner) -> item_of s (VList items).

(** ** More concrete data *)

Module Sample.

(** A response in the second shape: element [[0][2]] of the envelope is
    a body with nothing at index 4, element [[4][2]] is the body with the
    two candidates. *)
Definition second_shape : string :=
  ")]}'" ++ Fixture.nl ++ Fixture.nl
  ++ Fixture.envelope_both Fixture.empty_text Fixture.two_text.

(** The same response with other text on the lines around line 2. *)
Definition other_framing : string :=
  "12" ++ Fixture.nl ++ "x" ++ Fixture.nl
  ++ Fixture.envelope Fixture.two_text ++ Fixture.nl ++ "trailer".

Definition parses : list (string * pyval) :=
  [ (Fixture.two_text, Fixture.two_value);
    (Fixture.empty_text, Fixture.empty_value);
    (Fixture.envelope Fixture.two_text, Fixture.envelope_value Fixture.two_text);
    (Fixture.envelope_both Fixture.empty_text Fixture.two_text,
     Fixture.envelope_both_value Fixture.empty_text Fixture.two_text) ].

#[local] Instance runtime : Runtime := {|
  json_loads := fun s => dict_get parses s;
  py_format := Fixture.format_value;
  output_truthy := fun _ => true;
  ALLOWED_LANGUAGES := ["en"];
  deep_translate := fun p => Ok p;
  translate_Client := fun _ => Ok tt;
  google_translate := fun _ p => Ok p
|}.

End Sample.

(** ** Tokens in a page *)

Definition quote : ascii := "034"%char.

(** What is left of [s] after [p], when [s] starts with [p]. *)
Fixpoint strip_prefix (p s : string) : option string :=
  match p, s with
  | EmptyString, _ => Some s
  | String a p', String b s' =>
      if Ascii.eqb a b then strip_prefix p' s' else None
  | String _ _, EmptyString => None
  end.

(** What the lazy group [(.*?)], followed in the pattern by a double
    quote, matches at the start of [s]: the characters before the first
    double quote, when no newline comes before it (a dot matches any
    character but the newline). *)
Fixpoint lazy_until_quote (s : string) : option string :=
  match s with
  | EmptyString => None
  | String c rest =>
      if Ascii.eqb c quote then Some EmptyString
      else if Ascii.eqb c newline then None
      else option_map (String c) (lazy_until_quote rest)
  end.

(** What a group of one or more characters other than the double quote,
    followed in the pattern by a double quote, matches at the start of
    [s]: the characters before the first double quote, when there is at
    least one. *)
Fixpoint run_until_quote (s : string) : option string :=
  match s with
  | EmptyString => None
  | String c rest =>
      if Ascii.eqb c quote then Some EmptyString
      else option_map (String c) (run_until_quote rest)
  end.

Definition some_until_quote (s : string) : option string :=
  match run_until_quote s with
  | Some EmptyString => None
  | found => found
  end.

(** [re.search(p + group, text).group(1)] for a literal [p]: the group at
    the leftmost position of [text] where [p] and then the group match;
    [None] when [re.search] returns [None]. *)
Fixpoint search_group (p : string) (group : string -> option string)
    (text : string) : option string :=
  match
    match strip_prefix p text with
    | Some rest => group rest
    | None => None
    end
  with
  | Some found => Some found
  | None =>
      match text with
      | EmptyString => None
      | String _ rest => search_group p group rest
      end
  end.

(** The literal text the two patterns begin with: [SNlM0e], a double
    quote, a colon and a double quote in [_get_snim0e]; [nonce=] and a
    double quote in [get_nonce_value]. *)
Definition snim0e_literal : string :=
  "SNlM0e" ++ String quote (":" ++ String quote EmptyString).

Definition nonce_literal : string := "nonce=" ++ String quote EmptyString.

Section Tokens.

Context {RT : Runtime}.

(** [Gemini._get_snim0e], from the response of
    [self.session.get("https://gemini.google.com/app", ...)] on. *)
Definition _get_snim0e (status_code : Z) (text : string) : result string :=
  if negb (status_code =? 200) then
    raise PyException
      ("Response status code is not 200. Response Status is "
       ++ py_format (VInt status_code))
  else
    match search_group snim0e_literal lazy_until_quote text with
    | None =>
        raise PyException
          "SNlM0e value not found. Double-check cookies dict value or pass it as Gemini(cookies=Dict())"
    | Some found => Ok found
    end.

(** [GeminiClient.get_nonce_value], from the response of
    [session.get(HOST, ...)] on. *)
Definition get_nonce_value (status_code : Z) (text : string) : result string :=
  let error_message :=
    "Nonce token value not found or response status is not 200." in
  if status_code =? 200 then
    match search_group nonce_literal some_until_quote text with
    | Some found => Ok found
    | None => raise PyException error_message
    end
  else raise PyException error_message.

End Tokens.

(** No character of [s] is [c]. *)
Definition free_of (c : ascii) (s : string) : Prop :=
  ~ In c (list_ascii_of_string s).

(** ** GeminiClient: its cookies *)

(** The slots of a [GeminiClient] that the cookie methods of
    [client.py] read or assign: [cookies], [None] while the slot is not
    set; [auto_cookies]; and the cookie jar of [session], [None] when
    [session] is [None]. *)
Record GeminiClient : Type := mkGeminiClient {
  gc_cookies : option pyval;
  gc_auto_cookies : bool;
  gc_session : option (list (string * pyval))
}.

(** [{name: value for (name, value) in pairs}]: a later pair with the
    same name replaces the value and keeps the place. *)
Definition dict_of_pairs (pairs : list (string * pyval)) : list (string * pyval) :=
  fold_left (fun d p => jar_set d (fst p) (snd p)) pairs [].

(** What one function of [SUPPORTED_BROWSERS] does when it is called and
    its result iterated: it raises, or it yields cookies, each with a
    name and a value. *)
Definition browser : Type := result (list (string * pyval)).

(** Lines 255-274: the first browser whose cookies have at least five
    different names; a browser that raises is passed over. *)
Fixpoint first_browser_with_cookies (browsers : list browser)
    : option (list (string * pyval)) :=
  match browsers with
  | [] => None
  | Err _ :: rest => first_browser_with_cookies rest
  | Ok cj :: rest =>
      let found_cookies := dict_of_pairs cj in
      if (5 <=? length found_cookies)%nat then Some found_cookies
      else first_browser_with_cookies rest
  end.

Definition failed_to_get_cookies : string :=
  "Failed to get cookies. Set 'cookies' argument or 'auto_cookies' as True.".

(** [GeminiClient._get_cookies_from_browser], called with the slot
    [cookies] set to [cookies0]: the new content of the slot, and whether
    the call returns or raises. *)
Definition _get_cookies_from_browser (browsers : list browser)
    (cookies0 : pyval) : pyval * result unit :=
  let cookies1 :=
    match first_browser_with_cookies browsers with
    | Some found_cookies => VDict found_cookies
    | None => cookies0
    end in
  if negb (truthy cookies1) then (cookies1, raise ValueError failed_to_get_cookies)
  else (cookies1, Ok tt).

Definition failed_to_extract : string :=
  "Failed to extract cookies from browser.".

Definition cookies_must_be_provided : string :=
  "Gemini cookies must be provided through environment variables or extracted from the browser with auto_cookies enabled.".

(** [GeminiClient._get_cookies] *)
Definition _get_cookies (auto_cookies : bool) (browsers : list browser)
    (c : GeminiClient) : GeminiClient * result unit :=
  let cookies0 := default (VDict []) (gc_cookies c) in
  if truthy cookies0 then
    (mkGeminiClient (Some cookies0) (gc_auto_cookies c) (gc_session c), Ok tt)
  else if auto_cookies then
    match _get_cookies_from_browser browsers cookies0 with
    | (cookies1, Err _) =>
        (mkGeminiClient (Some cookies1) (gc_auto_cookies c) (gc_session c),
         raise PyException failed_to_extract)
    | (cookies1, Ok _) =>
        if negb (truthy cookies1) then
          (mkGeminiClient (Some cookies1) (gc_auto_cookies c) (gc_session c),
           raise PyException cookies_must_be_provided)
        else
          (mkGeminiClient (Some cookies1) (gc_auto_cookies c) (gc_session c),
           Ok tt)
    end
  else
    let cookies1 := fst (_get_cookies_from_browser browsers cookies0) in
    if negb (truthy cookies1) then
      (mkGeminiClient (Some cookies1) true (gc_session c),
       raise PyException cookies_must_be_provided)
    else (mkGeminiClient (Some cookies1) true (gc_session c), Ok tt).

(** Lines 292-296: [{k: self.cookies[k] for k in update_cookie_list}], or
    [self.cookies] when no list is given. *)
Definition cookies_to_update (update_cookie_list : option (list string))
    (cookies0 : pyval) : result pyval :=
  match update_cookie_list with
  | Some names =>
      pairs ← for_each (fun k => v ← getitem_str cookies0 k; Ok (k, v)) names;
      Ok (VDict (dict_of_pairs pairs))
  | None => Ok cookies0
  end.

(** Lines 299-306: every cookie with a true value is set in the jar. *)
Definition set_true_values (jar kv : list (string * pyval))
    : list (string * pyval) :=
  fold_left (fun j p => if truthy (snd p) then jar_set j (fst p) (snd p) else j)
    kv jar.

(** [GeminiClient._update_cookies].  The loop stands in a [try] whose
    handler only prints: when [session] is [None], or when what is to be
    updated has no [items], nothing is set and the call returns. *)
Definition _update_cookies (update_cookie_list : option (list string))
    (browsers : list browser) (c : GeminiClient) : GeminiClient * result unit :=
  match _get_cookies true browsers c with
  | (c1, Err e) => (c1, Err e)
  | (c1, Ok _) =>
      match cookies_to_update update_cookie_list
              (default VNone (gc_cookies c1)) with
      | Err e => (c1, Err e)
      | Ok (VDict kv) =>
          (mkGeminiClient (gc_cookies c1) (gc_auto_cookies c1)
             (option_map (fun jar => set_true_values jar kv) (gc_session c1)),
           Ok tt)
      | Ok _ => (c1, Ok tt)
      end
  end.

(** * Properties *)

(** ** The metadata list *)

Section MetadataFacts.

Lemma metadata_set_list (l : list pyval) (s : GeminiSession) :
  metadata_set (VList l) s =
    if (3 <? length l)%nat
    then (s, raise ValueError "metadata cannot exceed 3 elements")
    else (mkSession (l ++ drop (length l) (_metadata s)) (gemini_output s), Ok tt).
Proof.
  unfold metadata_set, mbind, method_mbind, method_bind, lift; simpl.
  destruct (3 <? length l)%nat; reflexivity.
Qed.

Lemma set_slot_in_range (i : nat) (v : pyval) (s : GeminiSession) :
  (i < length (_metadata s))%nat ->
  set_slot i v s = (mkSession (<[i := v]> (_metadata s)) (gemini_output s), Ok tt).
Proof.
  intros Hi. unfold set_slot.
  destruct (Nat.ltb_spec i (length (_metadata s))) as [_ | Hge]; [reflexivity | lia].
Qed.

Lemma get_slot_some (i : nat) (s : GeminiSession) (v : pyval) :
  _metadata s !! i = Some v -> get_slot i s = Ok v.
Proof. intros H. unfold get_slot. rewrite H. reflexivity. Qed.

(** Overwriting a prefix of the right length keeps the length. *)
Lemma prefix_overwrite_length (l old : list pyval) :
  (length l <= length old)%nat ->
  length (l ++ drop (length l) old) = length old.
Proof. intros H. rewrite length_app, length_drop. lia. Qed.

Lemma prefix_overwrite_lookup_l (l old : list pyval) (i : nat) (x : pyval) :
  l !! i = Some x -> (l ++ drop (length l) old)%list !! i = Some x.
Proof. intros H. apply lookup_app_l_Some. exact H. Qed.

Lemma prefix_overwrite_lookup_r (l old : list pyval) (i : nat) :
  (length l <= i)%nat -> (l ++ drop (length l) old)%list !! i = old !! i.
Proof.
  intros H. rewrite lookup_app_r by exact H.
  rewrite lookup_drop. f_equal. lia.
Qed.

Lemma three_slots_fresh : three_slots fresh_session.
Proof. reflexivity. Qed.

Lemma set_slot_three_slots (i : nat) (v : pyval) (s : GeminiSession) :
  three_slots s -> three_slots (set_slot i v s).1.
Proof.
  unfold three_slots, set_slot. intros H.
  destruct (i <? length (_metadata s))%nat; simpl; [| exact H].
  rewrite length_insert. exact H.
Qed.

Lemma metadata_set_three_slots (v : pyval) (s : GeminiSession) :
  three_slots s -> three_slots (metadata_set v s).1.
Proof.
  unfold three_slots, metadata_set, mbind, method_mbind, method_bind, lift.
  intros H.
  destruct (len v) as [n | e] eqn:Hlen; simpl; [| exact H].
  destruct (Nat.ltb_spec 3 n) as [Hgt | Hle]; simpl; [exact H |].
  assert (Hit : exists items, iter v = Ok items /\ length items = n).
  { destruct v; simpl in Hlen; try discriminate; simpl;
      inversion Hlen; subst; eexists; split; try reflexivity.
    rewrite length_map. reflexivity. }
  destruct Hit as (items & -> & Hn). simpl.
  rewrite length_app, length_drop. lia.
Qed.

End MetadataFacts.

(** C6. For a list of at most three strings, [metadata = values] succeeds
    and overwrites exactly the first [len(values)] slots: each of them
    then reads as the string supplied, every later slot reads as before,
    and the stored output is not touched.  A slot never assigned since
    [GeminiSession(gemini)] reads as [None], so on a new session the
    slots after the prefix read as [None]. *)
Theorem metadata_set_prefix (s : GeminiSession) (values : list string) :
  three_slots s ->
  (length values <= 3)%nat ->
  exists s',
    metadata_set (VList (VStr <$> values)) s = (s', Ok tt)
    /\ three_slots s'
    /\ gemini_output s' = gemini_output s
    /\ (forall i x, values !! i = Some x -> get_slot i s' = Ok (VStr x))
    /\ (forall i, (length values <= i)%nat -> get_slot i s' = get_slot i s)
    /\ GeminiSession_init VNone VNone VNone VNone = (fresh_session, Ok tt)
    /\ (forall i, (i < 3)%nat -> get_slot i fresh_session = Ok VNone)
    /\ (s = fresh_session ->
        forall i, (length values <= i < 3)%nat -> get_slot i s' = Ok VNone).
Proof.
  intros Hs Hlen.
  set (l := VStr <$> values).
  assert (Hl : length l = length values) by (unfold l; apply length_fmap).
  assert (Hfresh : forall i, (i < 3)%nat -> get_slot i fresh_session = Ok VNone).
  { intros i Hi. destruct i as [| [| [| i]]]; try reflexivity; lia. }
  exists (mkSession (l ++ drop (length l) (_metadata s)) (gemini_output s)).
  repeat split.
  - rewrite metadata_set_list.
    destruct (Nat.ltb_spec 3 (length l)) as [Hgt | _]; [lia | reflexivity].
  - unfold three_slots in *. simpl.
    rewrite prefix_overwrite_length; [exact Hs | lia].
  - intros i x Hx. apply get_slot_some. simpl.
    apply prefix_overwrite_lookup_l. unfold l.
    rewrite list_lookup_fmap, Hx. reflexivity.
  - intros i Hi. unfold get_slot. simpl.
    rewrite prefix_overwrite_lookup_r by lia. reflexivity.
  - exact Hfresh.
  - intros -> i [Hi1 Hi2]. unfold get_slot at 1. simpl.
    rewrite prefix_overwrite_lookup_r by lia.
    specialize (Hfresh i Hi2). unfold get_slot in Hfresh. exact Hfresh.
Qed.

Lemma metadata_set_prefix_witness :
  exists s',
    metadata_set (VList (VStr <$> ["c_1"; "r_1"])) fresh_session = (s', Ok tt)
    /\ get_slot 0 s' = Ok (VStr "c_1")
    /\ get_slot 1 s' = Ok (VStr "r_1")
    /\ get_slot 2 s' = Ok VNone.
Proof.
  destruct (metadata_set_prefix fresh_session ["c_1"; "r_1"])
    as (s' & Hrun & _ & _ & Hset & _ & _ & _ & Hunset).
  - reflexivity.
  - simpl. lia.
  - exists s'. split; [exact Hrun |].
    split; [apply Hset; reflexivity |].
    split; [apply Hset; reflexivity |].
    apply Hunset; [reflexivity | simpl; lia].
Defined.

(** C7. When [len(value)] exceeds 3 the setter raises
    [ValueError("metadata cannot exceed 3 elements")] and leaves the
    session as it was: the metadata list and the stored output are those
    from before the call. *)
Theorem metadata_set_too_long (s : GeminiSession) (value : pyval) (n : nat) :
  len value = Ok n ->
  (3 < n)%nat ->
  metadata_set value s
  = (s, Err (Raised ValueError "metadata cannot exceed 3 elements")).
Proof.
  intros Hlen Hn.
  unfold metadata_set, mbind, method_mbind, method_bind, lift.
  rewrite Hlen.
  destruct (Nat.ltb_spec 3 n) as [_ | Hle]; [reflexivity | lia].
Qed.

Lemma metadata_set_too_long_witness :
  metadata_set (VList [VStr "a"; VStr "b"; VStr "c"; VStr "d"]) fresh_session
  = (fresh_session, Err (Raised ValueError "metadata cannot exceed 3 elements")).
Proof.
  apply (metadata_set_too_long fresh_session
           (VList [VStr "a"; VStr "b"; VStr "c"; VStr "d"]) 4).
  - reflexivity.
  - lia.
Defined.

(** ** Recording an output, choosing a candidate *)

Section SessionFacts.

Context {RT : Runtime}.

Lemma seq_index_nonneg {A} (l : list A) (i : nat) (x : A) :
  l !! i = Some x -> seq_index l (Z.of_nat i) = Some x.
Proof.
  intros H. pose proof (lookup_lt_Some _ _ _ H) as Hlt.
  unfold seq_index.
  destruct (Z.ltb_spec (Z.of_nat i) 0) as [Hneg | _]; [lia |].
  destruct (Z.leb_spec 0 (Z.of_nat i)) as [_ | Hneg]; [| lia].
  destruct (Z.ltb_spec (Z.of_nat i) (Z.of_nat (length l))) as [_ | Hge]; [| lia].
  simpl. rewrite Nat2Z.id. exact H.
Qed.

Lemma seq_index_negative {A} (l : list A) (i : Z) :
  - Z.of_nat (length l) <= i < 0 ->
  seq_index l i = l !! Z.to_nat (Z.of_nat (length l) + i)
  /\ is_Some (l !! Z.to_nat (Z.of_nat (length l) + i)).
Proof.
  intros [Hlo Hhi]. unfold seq_index.
  destruct (Z.ltb_spec i 0) as [_ | Hge]; [| lia].
  destruct (Z.leb_spec 0 (i + Z.of_nat (length l))) as [_ | Hneg]; [| lia].
  destruct (Z.ltb_spec (i + Z.of_nat (length l)) (Z.of_nat (length l)))
    as [_ | Hge]; [| lia].
  simpl. replace (i + Z.of_nat (length l)) with (Z.of_nat (length l) + i) by lia.
  split; [reflexivity |]. apply lookup_lt_is_Some. lia.
Qed.

(** What [choose_candidate] does once both guards are passed and the
    chosen index denotes a candidate. *)
Lemma choose_candidate_accepted (s : GeminiSession) (o : GeminiOutput)
    (index : Z) (c : Candidate) :
  gemini_output s = Some o ->
  output_truthy o = true ->
  index < Z.of_nat (length (candidates o)) ->
  seq_index (candidates o) index = Some c ->
  three_slots s ->
  choose_candidate index s
  = (mkSession (<[2%nat := rcid c]> (_metadata s)) (Some (set_chosen o index)),
     Ok (set_chosen o index)).
Proof.
  intros Hout Htrue Hlt Hc Hs. unfold choose_candidate.
  rewrite Hout, Htrue. simpl negb. cbv iota.
  destruct (Z.geb_spec index (Z.of_nat (length (candidates o)))) as [Hge | _];
    [lia |].
  unfold mbind, method_mbind, method_bind, modify, lift, GeminiOutput_rcid.
  simpl. rewrite Hc. unfold rcid_set.
  rewrite set_slot_in_range by (simpl; rewrite Hs; lia).
  reflexivity.
Qed.

(** The three slots survive every method of the session, whether it
    returns or raises, and [__init__] sets them up. *)
Lemma setattr_gemini_output_three_slots (value : option GeminiOutput)
    (s : GeminiSession) :
  three_slots s -> three_slots (setattr_gemini_output value s).1.
Proof.
  intros Hs. unfold setattr_gemini_output, mbind, method_mbind, method_bind, modify.
  destruct value as [o |]; [| exact Hs].
  pose proof (metadata_set_three_slots (metadata o)
                (mkSession (_metadata s) (Some o)) Hs) as H1.
  destruct (metadata_set (metadata o) (mkSession (_metadata s) (Some o)))
    as [s1 [[] | e]]; simpl in H1 |- *; [| exact H1].
  unfold lift. destruct (GeminiOutput_rcid o) as [r | e]; [| exact H1].
  apply set_slot_three_slots. exact H1.
Qed.

Lemma choose_candidate_three_slots (index : Z) (s : GeminiSession) :
  three_slots s -> three_slots (choose_candidate index s).1.
Proof.
  intros Hs. unfold choose_candidate.
  destruct (gemini_output s) as [o |]; [| exact Hs].
  destruct (negb (output_truthy o)); [exact Hs |].
  destruct (index >=? Z.of_nat (length (candidates o))); [exact Hs |].
  unfold mbind, method_mbind, method_bind, modify, lift. simpl.
  destruct (GeminiOutput_rcid (set_chosen o index)) as [r | e]; [| exact Hs].
  pose proof (set_slot_three_slots 2 r
                (mkSession (_metadata s) (Some (set_chosen o index))) Hs) as H2.
  unfold rcid_set.
  destruct (set_slot 2 r (mkSession (_metadata s) (Some (set_chosen o index))))
    as [s2 [[] | e]]; exact H2.
Qed.

Lemma GeminiSession_init_three_slots (metadata0 cid0 rid0 rcid0 : pyval) :
  three_slots (GeminiSession_init metadata0 cid0 rid0 rcid0).1.
Proof.
  unfold GeminiSession_init, mbind, method_mbind, method_bind, modify.
  simpl.
  set (s0 := mkSession [VNone; VNone; VNone] None).
  assert (H0 : three_slots s0) by reflexivity.
  assert (Hstep : forall (b : bool) (m : method unit) (s : GeminiSession),
             (forall s', three_slots s' -> three_slots (m s').1) ->
             three_slots s ->
             three_slots ((if b then m else method_ret tt) s).1).
  { intros b m s Hm Hs. destruct b; [apply Hm; exact Hs | exact Hs]. }
  pose proof (Hstep (truthy metadata0) (metadata_set metadata0) s0
                (metadata_set_three_slots metadata0) H0) as H1.
  destruct ((if truthy metadata0 then metadata_set metadata0 else method_ret tt) s0)
    as [s1 [[] | e]]; simpl in H1 |- *; [| exact H1].
  pose proof (Hstep (truthy cid0) (cid_set cid0) s1
                (set_slot_three_slots 0 cid0) H1) as H2.
  destruct ((if truthy cid0 then cid_set cid0 else method_ret tt) s1)
    as [s2 [[] | e]]; simpl in H2 |- *; [| exact H2].
  pose proof (Hstep (truthy rid0) (rid_set rid0) s2
                (set_slot_three_slots 1 rid0) H2) as H3.
  destruct ((if truthy rid0 then rid_set rid0 else method_ret tt) s2)
    as [s3 [[] | e]]; simpl in H3 |- *; [| exact H3].
  apply Hstep; [apply set_slot_three_slots | exact H3].
Qed.

End SessionFacts.

(** C4. Assigning a [GeminiOutput] to [gemini_output] stores it and then
    runs the metadata setter on [output.metadata] followed by the [rcid]
    setter on the chosen candidate's id, in that order: the session ends
    with the output stored, the first [len(output.metadata)] slots taken
    from the output's metadata, and, last, slot 2 holding the chosen
    candidate's id, also when the output's metadata has three elements. *)
Theorem setattr_gemini_output_updates_metadata (s : GeminiSession)
    (o : GeminiOutput) (md : list pyval) (c : Candidate) :
  three_slots s ->
  metadata o = VList md ->
  (length md <= 3)%nat ->
  seq_index (candidates o) (chosen o) = Some c ->
  exists s1 s2,
    metadata_set (metadata o) (mkSession (_metadata s) (Some o)) = (s1, Ok tt)
    /\ rcid_set (rcid c) s1 = (s2, Ok tt)
    /\ setattr_gemini_output (Some o) s = (s2, Ok tt)
    /\ gemini_output s2 = Some o
    /\ _metadata s2 = <[2%nat := rcid c]> (md ++ drop (length md) (_metadata s))%list
    /\ rcid_get s2 = Ok (rcid c)
    /\ (forall i x, (i < 2)%nat -> md !! i = Some x -> get_slot i s2 = Ok x)
    /\ (forall i, (i < 2)%nat -> (length md <= i)%nat ->
          get_slot i s2 = get_slot i s).
Proof.
  intros Hs Hmd Hlen Hc.
  set (stored := mkSession (_metadata s) (Some o)).
  set (s1 := mkSession (md ++ drop (length md) (_metadata s)) (Some o)).
  assert (H1 : metadata_set (metadata o) stored = (s1, Ok tt)).
  { rewrite Hmd, metadata_set_list.
    destruct (Nat.ltb_spec 3 (length md)) as [Hgt | _]; [lia | reflexivity]. }
  assert (Hs1 : three_slots s1).
  { unfold three_slots, s1. simpl. unfold three_slots in Hs.
    rewrite prefix_overwrite_length; [exact Hs | lia]. }
  set (s2 := mkSession (<[2%nat := rcid c]> (_metadata s1)) (Some o)).
  assert (H2 : rcid_set (rcid c) s1 = (s2, Ok tt)).
  { unfold rcid_set. rewrite set_slot_in_range by (rewrite Hs1; lia).
    reflexivity. }
  exists s1, s2. repeat split.
  - exact H1.
  - exact H2.
  - unfold setattr_gemini_output, mbind, method_mbind, method_bind, modify, lift.
    fold stored. rewrite H1. unfold GeminiOutput_rcid. rewrite Hc. exact H2.
  - unfold rcid_get. apply get_slot_some. simpl.
    apply list_lookup_insert_eq. unfold three_slots in Hs.
    rewrite prefix_overwrite_length; lia.
  - intros i x Hi Hx. apply get_slot_some. simpl.
    rewrite list_lookup_insert_ne by lia.
    apply prefix_overwrite_lookup_l. exact Hx.
  - intros i Hi Hge. unfold get_slot. simpl.
    rewrite list_lookup_insert_ne by lia.
    rewrite prefix_overwrite_lookup_r by exact Hge. reflexivity.
Qed.

Lemma setattr_gemini_output_updates_metadata_witness :
  exists s2,
    setattr_gemini_output
      (Some (mkGeminiOutput (VList [VStr "c_1"; VStr "r_1"; VStr "stale"])
               [mkCandidate (VStr "rc_0") (VStr "first") [] []] 0))
      fresh_session = (s2, Ok tt)
    /\ _metadata s2 = [VStr "c_1"; VStr "r_1"; VStr "rc_0"].
Proof.
  destruct (setattr_gemini_output_updates_metadata fresh_session
              (mkGeminiOutput (VList [VStr "c_1"; VStr "r_1"; VStr "stale"])
                 [mkCandidate (VStr "rc_0") (VStr "first") [] []] 0)
              [VStr "c_1"; VStr "r_1"; VStr "stale"]
              (mkCandidate (VStr "rc_0") (VStr "first") [] []))
    as (s1 & s2 & _ & _ & Hrun & _ & Hmeta & _).
  - reflexivity.
  - reflexivity.
  - simpl. lia.
  - reflexivity.
  - exists s2. split; [exact Hrun | exact Hmeta].
Defined.

(** C5. [choose_candidate(index)] raises [ValueError] with the message
    "No previous gemini_output data found in this chat session." when the
    session has no output stored, and [ValueError] with the message
    "Index ... exceeds the number of candidates ..." when [index] is at
    least the number of candidates, in particular when it is equal to it;
    in both cases the session is left as it was.  For the index of the
    last candidate it returns the stored output with [chosen] set to the
    index, keeps that output on the session and puts that candidate's id
    into slot 2 of the metadata. *)
Theorem choose_candidate_guards `{RT : Runtime} (s : GeminiSession) :
  (gemini_output s = None ->
   forall index,
     choose_candidate index s = (s, Err (Raised ValueError no_previous_output)))
  /\ (forall o index,
        gemini_output s = Some o ->
        output_truthy o = true ->
        Z.of_nat (length (candidates o)) <= index ->
        choose_candidate index s
        = (s, Err (Raised ValueError (index_exceeds index))))
  /\ (forall o (last : nat) c,
        gemini_output s = Some o ->
        output_truthy o = true ->
        three_slots s ->
        length (candidates o) = S last ->
        candidates o !! last = Some c ->
        exists s',
          choose_candidate (Z.of_nat (length (candidates o)) - 1) s
          = (s', Ok (set_chosen o (Z.of_nat last)))
          /\ gemini_output s' = Some (set_chosen o (Z.of_nat last))
          /\ chosen (set_chosen o (Z.of_nat last)) = Z.of_nat last
          /\ rcid_get s' = Ok (rcid c)
          /\ cid s' = cid s
          /\ rid s' = rid s).
Proof.
  split; [| split].
  - intros Hnone index. unfold choose_candidate. rewrite Hnone. reflexivity.
  - intros o index Hout Htrue Hge. unfold choose_candidate.
    rewrite Hout, Htrue. simpl negb. cbv iota.
    destruct (Z.geb_spec index (Z.of_nat (length (candidates o)))) as [_ | Hlt];
      [reflexivity | lia].
  - intros o last c Hout Htrue Hs Hlen Hc.
    replace (Z.of_nat (length (candidates o)) - 1) with (Z.of_nat last) by lia.
    eexists. split.
    + apply (choose_candidate_accepted s o (Z.of_nat last) c); try assumption.
      * lia.
      * apply seq_index_nonneg. exact Hc.
    + simpl. repeat split.
      * unfold rcid_get. apply get_slot_some. simpl.
        apply list_lookup_insert_eq. rewrite Hs. lia.
      * unfold cid, get_slot. simpl. rewrite list_lookup_insert_ne by lia.
        reflexivity.
      * unfold rid, get_slot. simpl. rewrite list_lookup_insert_ne by lia.
        reflexivity.
Qed.

(** C10. With [n >= 1] candidates stored and [-n <= index < 0], the guard
    [index >= len(candidates)] does not fire: [choose_candidate] returns
    the stored output with [chosen = index], and slot 2 of the metadata
    receives the id of candidate [n + index], the one Python's negative
    indexing selects ([-1] the last). *)
Theorem choose_candidate_negative_index `{RT : Runtime} (s : GeminiSession)
    (o : GeminiOutput) (index : Z) :
  gemini_output s = Some o ->
  output_truthy o = true ->
  three_slots s ->
  (1 <= length (candidates o))%nat ->
  - Z.of_nat (length (candidates o)) <= index < 0 ->
  exists c,
    candidates o !! Z.to_nat (Z.of_nat (length (candidates o)) + index) = Some c
    /\ choose_candidate index s
       = (mkSession (<[2%nat := rcid c]> (_metadata s)) (Some (set_chosen o index)),
          Ok (set_chosen o index))
    /\ chosen (set_chosen o index) = index
    /\ rcid_get (choose_candidate index s).1 = Ok (rcid c).
Proof.
  intros Hout Htrue Hs Hn Hrange.
  destruct (seq_index_negative (candidates o) index Hrange) as [Hidx [c Hc]].
  exists c. split; [exact Hc |].
  assert (Hrun : choose_candidate index s
                 = (mkSession (<[2%nat := rcid c]> (_metadata s))
                      (Some (set_chosen o index)), Ok (set_chosen o index))).
  { apply choose_candidate_accepted; try assumption; [lia |].
    rewrite Hidx. exact Hc. }
  split; [exact Hrun |]. split; [reflexivity |].
  rewrite Hrun. unfold rcid_get. apply get_slot_some. simpl.
  apply list_lookup_insert_eq. rewrite Hs. lia.
Qed.

Lemma choose_candidate_guards_witness :
  exists s',
    choose_candidate (RT := Fixture.runtime) 1 Fixture.recorded
    = (s', Ok (set_chosen Fixture.two_output 1))
    /\ rcid_get s' = Ok (VStr "rc_1").
Proof.
  destruct (choose_candidate_guards (RT := Fixture.runtime) Fixture.recorded)
    as (_ & _ & Hlast).
  destruct (Hlast Fixture.two_output 1%nat
              (mkCandidate (VStr "rc_1") (VStr "second") [] []))
    as (s' & Hrun & _ & _ & Hrcid & _); try reflexivity.
  exists s'. split; [exact Hrun | exact Hrcid].
Defined.

Lemma choose_candidate_negative_index_witness :
  exists c,
    rcid c = VStr "rc_1"
    /\ choose_candidate (RT := Fixture.runtime) (-1) Fixture.recorded
       = (mkSession (<[2%nat := rcid c]> (_metadata Fixture.recorded))
            (Some (set_chosen Fixture.two_output (-1))),
          Ok (set_chosen Fixture.two_output (-1))).
Proof.
  destruct (choose_candidate_negative_index (RT := Fixture.runtime)
              Fixture.recorded Fixture.two_output (-1))
    as (c & Hc & Hrun & _); try reflexivity.
  - simpl. lia.
  - simpl. lia.
  - exists c. split; [| exact Hrun].
    simpl in Hc. inversion Hc. reflexivity.
Defined.

(** ** The decoder *)

Section DecoderFacts.

Context {RT : Runtime}.

Lemma seq_index_nat {A} (l : list A) (i : nat) :
  seq_index l (Z.of_nat i) = l !! i.
Proof.
  unfold seq_index.
  destruct (Z.ltb_spec (Z.of_nat i) 0) as [Hneg | _]; [lia |].
  destruct (Z.leb_spec 0 (Z.of_nat i)) as [_ | Hneg]; [| lia].
  destruct (Z.ltb_spec (Z.of_nat i) (Z.of_nat (length l))) as [Hlt | Hge]; simpl.
  - rewrite Nat2Z.id. reflexivity.
  - symmetry. apply lookup_ge_None. lia.
Qed.

Lemma bind_Ok {A B} (m : result A) (k : A -> result B) (b : B) :
  (x ← m; k x) = Ok b <-> exists a, m = Ok a /\ k a = Ok b.
Proof.
  unfold mbind, result_bind, bind. destruct m as [a | e]; split.
  - intros H. exists a. split; [reflexivity | exact H].
  - intros (a' & Ha & Hk). inversion Ha. subst. exact Hk.
  - discriminate.
  - intros (a' & Ha & _). discriminate.
Qed.

Lemma loads_Ok (v body : pyval) :
  loads v = Ok body <-> exists s, v = VStr s /\ json_loads s = Some body.
Proof.
  unfold loads. split.
  - destruct v; try discriminate.
    destruct (json_loads s) as [j |] eqn:Hj; [| discriminate].
    intros H. inversion H. subst. exists s. split; [reflexivity | exact Hj].
  - intros (s & -> & Hs). rewrite Hs. reflexivity.
Qed.

(** The double decoding of element [[i][2]] of line 2. *)
Lemma framed_json_Ok (text : string) (i : Z) (body : pyval) :
  framed_json text i = Ok body
  <-> exists line outer,
        split_newline text !! 2%nat = Some line
        /\ json_loads line = Some outer
        /\ from_envelope outer i body.
Proof.
  unfold framed_json, from_envelope.
  change 2 with (Z.of_nat 2). rewrite seq_index_nat.
  rewrite bind_Ok. split.
  - intros (v & Hline & Hrest).
    destruct (split_newline text !! 2%nat) as [line |] eqn:Hl; [| discriminate].
    inversion Hline. subst v. clear Hline.
    apply bind_Ok in Hrest. destruct Hrest as (outer & Houter & Hrest).
    apply loads_Ok in Houter. destruct Houter as (s & Hs & Houter).
    inversion Hs. subst s. clear Hs.
    apply bind_Ok in Hrest. destruct Hrest as (inner & Hpath & Hinner).
    apply loads_Ok in Hinner. destruct Hinner as (s & -> & Hbody).
    exists line, outer. split; [reflexivity |]. split; [exact Houter |].
    exists s. split; assumption.
  - intros (line & outer & Hl & Houter & inner & Hpath & Hbody).
    rewrite Hl. exists (VStr line). split; [reflexivity |].
    apply bind_Ok. exists outer. split.
    + apply loads_Ok. exists line. split; [reflexivity | exact Houter].
    + apply bind_Ok. exists (VStr inner). split; [exact Hpath |].
      apply loads_Ok. exists inner. split; [reflexivity | exact Hbody].
Qed.

Lemma decode_body_unfold (text : string) :
  decode_body text
  = match decode_attempt text with
    | Ok body => Ok body
    | Err _ => Err (Raised APIError failed_to_parse_candidates)
    end.
Proof.
  unfold decode_body, try_except.
  destruct (decode_attempt text); reflexivity.
Qed.

Lemma decode_attempt_Ok (text : string) (body : pyval) :
  decode_attempt text = Ok body <-> decodes_line 2 text body.
Proof.
  unfold decode_attempt, decodes_line, candidate_bearing, empty_at_4. split.
  - intros H.
    apply bind_Ok in H. destruct H as (first & Hfirst & H).
    apply bind_Ok in H. destruct H as (f4 & Hf4 & H).
    apply bind_Ok in H. destruct H as (body' & Hbody' & H).
    apply bind_Ok in H. destruct H as (b4 & Hb4 & H).
    destruct (truthy b4) eqn:Ht4; simpl in H; [| discriminate].
    inversion H. subst body'. clear H.
    apply framed_json_Ok in Hfirst.
    destruct Hfirst as (line & outer & Hl & Houter & Hprimary).
    exists line, outer. split; [exact Hl |]. split; [exact Houter |].
    split; [exists b4; split; assumption |].
    destruct (truthy f4) eqn:Htf; simpl in Hbody'.
    + inversion Hbody'. subst body. left. exact Hprimary.
    + right. exists first. split; [exact Hprimary |].
      split; [exists f4; split; assumption |].
      apply framed_json_Ok in Hbody'.
      destruct Hbody' as (line' & outer' & Hl' & Houter' & Hsecondary).
      rewrite Hl in Hl'. inversion Hl'. subst line'.
      rewrite Houter in Houter'. inversion Houter'. subst outer'.
      exact Hsecondary.
  - intros (line & outer & Hl & Houter & (b4 & Hb4 & Ht4) & Hsel).
    destruct Hsel as [Hprimary | (first & Hprimary & (f4 & Hf4 & Htf) & Hsecondary)].
    + apply bind_Ok. exists body. split.
      { apply framed_json_Ok. exists line, outer. auto. }
      apply bind_Ok. exists b4. split; [exact Hb4 |].
      rewrite Ht4. cbn [negb].
      apply bind_Ok. exists body. split; [reflexivity |].
      apply bind_Ok. exists b4. split; [exact Hb4 |].
      rewrite Ht4. reflexivity.
    + apply bind_Ok. exists first. split.
      { apply framed_json_Ok. exists line, outer. auto. }
      apply bind_Ok. exists f4. split; [exact Hf4 |].
      rewrite Htf. cbn [negb].
      apply bind_Ok. exists body. split.
      { apply framed_json_Ok. exists line, outer. auto. }
      apply bind_Ok. exists b4. split; [exact Hb4 |].
      rewrite Ht4. reflexivity.
Qed.

End DecoderFacts.

(** C2, as the code has it.  The decoder splits the text on newlines and
    takes the line at index 2, parses it as JSON, takes element [[0][2]]
    and parses that again; when index 4 of the result is false it takes
    element [[4][2]] of the same envelope instead; it returns a body
    exactly when one of the two has candidate data at index 4.  In every
    other case, so also when both are empty at index 4, it returns no
    value and raises [APIError]. *)
Theorem decode_body_reads_line_2 `{RT : Runtime} (text : string) :
  (forall body, decode_body text = Ok body <-> decodes_line 2 text body)
  /\ (forall e, decode_body text = Err e ->
        e = Raised APIError failed_to_parse_candidates)
  /\ (forall line outer first second,
        split_newline text !! 2%nat = Some line ->
        json_loads line = Some outer ->
        from_envelope outer 0 first -> empty_at_4 first ->
        from_envelope outer 4 second -> empty_at_4 second ->
        decode_body text = Err (Raised APIError failed_to_parse_candidates)).
Proof.
  split; [| split].
  - intros body. rewrite decode_body_unfold. rewrite <- decode_attempt_Ok.
    destruct (decode_attempt text) as [b | e]; split; intros H;
      try discriminate; inversion H; reflexivity.
  - intros e. rewrite decode_body_unfold.
    destruct (decode_attempt text); [discriminate |].
    intros H. inversion H. reflexivity.
  - intros line outer first second Hl Houter Hfirst (f4 & Hf4 & Htf)
           Hsecond (s4 & Hs4 & Hts).
    rewrite decode_body_unfold.
    assert (Hattempt : decode_attempt text = Err (Raised APIError failed_to_parse_body)).
    { unfold decode_attempt.
      assert (H0 : framed_json text 0 = Ok first)
        by (apply framed_json_Ok; exists line, outer; auto).
      assert (H4 : framed_json text 4 = Ok second)
        by (apply framed_json_Ok; exists line, outer; auto).
      rewrite H0. simpl. rewrite Hf4. simpl. rewrite Htf. simpl.
      rewrite H4. simpl. rewrite Hs4. simpl. rewrite Hts. reflexivity. }
    rewrite Hattempt. reflexivity.
Qed.

Lemma decode_body_reads_line_2_witness :
  decode_body (RT := Fixture.runtime) (Fixture.framed Fixture.two_text)
  = Ok Fixture.two_value.
Proof.
  apply (decode_body_reads_line_2 (RT := Fixture.runtime)
           (Fixture.framed Fixture.two_text)).
  exists (Fixture.envelope Fixture.two_text),
         (Fixture.envelope_value Fixture.two_text).
  split; [reflexivity |]. split; [vm_compute; reflexivity |].
  split.
  - eexists. split; [reflexivity | reflexivity].
  - left. exists Fixture.two_text. split; [reflexivity | vm_compute; reflexivity].
Defined.

(** C2 as stated reads line 3.  On a response whose line 2 frames the
    two candidates and whose line 3 frames another body, the decoder
    returns the body of line 2: the body it returns is not one that line
    3 decodes to, and the body that line 3 decodes to is not returned. *)
Lemma decode_body_does_not_read_line_3 :
  decode_body (RT := Fixture.runtime) Fixture.four_lines = Ok Fixture.two_value
  /\ ~ decodes_line (RT := Fixture.runtime) 3 Fixture.four_lines Fixture.two_value
  /\ decodes_line (RT := Fixture.runtime) 3 Fixture.four_lines Fixture.scalar_value
  /\ decode_body (RT := Fixture.runtime) Fixture.four_lines
     <> Ok Fixture.scalar_value.
Proof.
  assert (Hrun : decode_body (RT := Fixture.runtime) Fixture.four_lines
                 = Ok Fixture.two_value) by (vm_compute; reflexivity).
  split; [exact Hrun |]. split; [| split].
  - intros (line & outer & Hl & Houter & _ & Hsel).
    vm_compute in Hl. inversion Hl. subst line. clear Hl.
    vm_compute in Houter. inversion Houter. subst outer. clear Houter.
    destruct Hsel as [(inner & Hp & Hb) | (first & _ & _ & inner & Hp & _)].
    + vm_compute in Hp. inversion Hp. subst inner.
      vm_compute in Hb. discriminate.
    + vm_compute in Hp. discriminate.
  - exists (Fixture.envelope Fixture.scalar_text),
           (Fixture.envelope_value Fixture.scalar_text).
    split; [vm_compute; reflexivity |]. split; [vm_compute; reflexivity |].
    split.
    + eexists. split; reflexivity.
    + left. exists Fixture.scalar_text.
      split; [reflexivity | vm_compute; reflexivity].
  - rewrite Hrun. discriminate.
Qed.

(** ** The extractor *)

Section ExtractorFacts.

Context {RT : Runtime}.

Lemma for_each_Ok {A B} (f : A -> result B) (xs : list A) (ys : list B) :
  for_each f xs = Ok ys <-> Forall2 (fun x y => f x = Ok y) xs ys.
Proof.
  revert ys. induction xs as [| x xs IH]; intros ys; simpl.
  - split.
    + intros H. inversion H. constructor.
    + intros H. inversion H. reflexivity.
  - unfold bind. split.
    + destruct (f x) as [y |] eqn:Hy; [| discriminate].
      destruct (for_each f xs) as [ys' |] eqn:Hys; [| discriminate].
      intros H. inversion H. subst ys. constructor; [exact Hy |].
      apply IH. reflexivity.
    + intros H. inversion H as [| ? y ? ys' Hy Hrest]. subst.
      rewrite Hy. apply IH in Hrest. rewrite Hrest. reflexivity.
  Qed.

Lemma for_each_Ok_rel {A B} (f : A -> result B) (R : A -> B -> Prop)
    (xs : list A) (ys : list B) :
  (forall x y, f x = Ok y <-> R x y) ->
  for_each f xs = Ok ys <-> Forall2 R xs ys.
Proof.
  intros HR. rewrite for_each_Ok. split; intros H.
  - eapply Forall2_impl; [exact H |]. intros x y. apply HR.
  - eapply Forall2_impl; [exact H |]. intros x y. apply HR.
Qed.

Lemma web_image_Ok (image : pyval) (w : WebImage) :
  web_image image = Ok w <-> web_image_of image w.
Proof.
  unfold web_image, web_image_of. destruct w as [u t a]. simpl wi_url.
  simpl wi_title. simpl wi_alt. split.
  - intros H.
    apply bind_Ok in H. destruct H as (u' & Hu & H).
    apply bind_Ok in H. destruct H as (t' & Ht & H).
    apply bind_Ok in H. destruct H as (a' & Ha & H).
    inversion H. subst. auto.
  - intros (Hu & Ht & Ha).
    apply bind_Ok. exists u. split; [exact Hu |].
    apply bind_Ok. exists t. split; [exact Ht |].
    apply bind_Ok. exists a. split; [exact Ha | reflexivity].
Qed.

Lemma generated_image_Ok (cookies0 : pyval) (i : Z) (image : pyval)
    (g : GeneratedImage) :
  generated_image cookies0 (i, image) = Ok g
  <-> generated_image_of cookies0 i image g.
Proof.
  unfold generated_image, generated_image_of. destruct g as [u t a k].
  simpl gi_url. simpl gi_title. simpl gi_alt. simpl gi_cookies.
  cbn [fst snd]. split.
  - intros H.
    apply bind_Ok in H. destruct H as (u' & Hu & H).
    apply bind_Ok in H. destruct H as (n & Hn & H).
    apply bind_Ok in H. destruct H as (a' & Ha & H).
    inversion H. subst. repeat split; try assumption.
    exists n. split; [exact Hn | reflexivity].
  - intros (Hu & (n & Hn & Ht) & Ha & Hk). subst.
    apply bind_Ok. exists u. split; [exact Hu |].
    apply bind_Ok. exists n. split; [exact Hn |].
    apply bind_Ok. exists a. split; [exact Ha | reflexivity].
Qed.

(** The loop over [enumerate(xs)] started at [k]: it returns [ys] exactly
    when [ys] is as long as [xs] and its element at position [i] is what
    the body returns for the pair of [k + i] and the element of [xs] at
    position [i]. *)
Lemma for_each_enumerate_from {A B} (f : Z * A -> result B) (xs : list A) :
  forall (k : Z) (ys : list B),
    for_each f (enumerate_from k xs) = Ok ys
    <-> length ys = length xs
        /\ forall (i : nat) (x : A),
             xs !! i = Some x ->
             exists y, ys !! i = Some y /\ f (k + Z.of_nat i, x) = Ok y.
Proof.
  induction xs as [| x xs IH]; intros k ys; cbn [enumerate_from for_each].
  - split.
    + intros H. inversion H. split; [reflexivity |].
      intros i x Hx. rewrite lookup_nil in Hx. discriminate.
    + intros [Hlen _]. destruct ys; [reflexivity | discriminate].
  - unfold bind. split.
    + destruct (f (k, x)) as [y |] eqn:Hy; [| discriminate].
      destruct (for_each f (enumerate_from (k + 1) xs)) as [ys' |] eqn:Hys;
        [| discriminate].
      intros H. inversion H. subst ys. clear H.
      apply IH in Hys. destruct Hys as [Hlen Hat].
      split; [simpl; rewrite Hlen; reflexivity |].
      intros [| i] x' Hx'; simpl in Hx'.
      * inversion Hx'. subst x'. exists y. split; [reflexivity |].
        replace (k + Z.of_nat 0) with k by lia. exact Hy.
      * destruct (Hat i x' Hx') as (y' & Hy' & Hf).
        exists y'. split; [exact Hy' |].
        replace (k + Z.of_nat (S i)) with (k + 1 + Z.of_nat i) by lia.
        exact Hf.
    + intros [Hlen Hat].
      destruct ys as [| y ys]; [discriminate |].
      destruct (Hat 0%nat x eq_refl) as (y0 & Hy0 & Hf).
      simpl in Hy0. inversion Hy0. subst y0.
      replace (k + Z.of_nat 0) with k in Hf by lia. rewrite Hf.
      assert (Hrest : for_each f (enumerate_from (k + 1) xs) = Ok ys).
      { apply IH. split; [simpl in Hlen; lia |].
        intros i x' Hx'.
        destruct (Hat (S i) x' Hx') as (y' & Hy' & Hf').
        exists y'. split; [exact Hy' |].
        replace (k + 1 + Z.of_nat i) with (k + Z.of_nat (S i)) by lia.
        exact Hf'. }
      rewrite Hrest. reflexivity.
Qed.

Lemma generated_images_Ok (cookies0 : pyval) (images : list pyval)
    (gs : list GeneratedImage) :
  for_each (generated_image cookies0) (enumerate images) = Ok gs
  <-> numbered_from_0 cookies0 images gs.
Proof.
  unfold enumerate, numbered_from_0. rewrite for_each_enumerate_from.
  split; intros [Hlen Hat]; (split; [exact Hlen |]);
    intros i image Hi; destruct (Hat i image Hi) as (g & Hg & Hbuilt);
    exists g; (split; [exact Hg |]).
  - apply generated_image_Ok. exact Hbuilt.
  - apply generated_image_Ok in Hbuilt. exact Hbuilt.
Qed.

Lemma extract_candidate_parts (cookies0 : pyval) (candidate : pyval) :
  extract_candidate cookies0 candidate
  = (web ← web_part candidate;
     generated ← generated_part cookies0 candidate;
     r ← getpath candidate [0];
     t ← getpath candidate [1; 0];
     Ok (mkCandidate r t web generated)).
Proof. reflexivity. Qed.

Lemma web_part_Ok (candidate : pyval) (ws : list WebImage) :
  web_part candidate = Ok ws <-> web_images_of candidate ws.
Proof.
  unfold web_part, web_images_of, present, empty. split.
  - intros H. apply bind_Ok in H. destruct H as (c4 & Hc4 & H).
    destruct (truthy c4) eqn:Ht.
    + right. split; [exists c4; auto |].
      apply bind_Ok in H. destruct H as (images & Hi & H).
      exists images. split; [exact Hi |].
      apply (for_each_Ok_rel _ _ _ _ web_image_Ok). exact H.
    + left. inversion H. split; [exists c4; auto | reflexivity].
  - intros [((c4 & Hc4 & Ht) & ->) | ((c4 & Hc4 & Ht) & images & Hi & Hall)];
      apply bind_Ok; exists c4; (split; [exact Hc4 |]); rewrite Ht.
    + reflexivity.
    + apply bind_Ok. exists images. split; [exact Hi |].
      apply (for_each_Ok_rel _ _ _ _ web_image_Ok). exact Hall.
Qed.

Lemma generated_part_Ok (cookies0 : pyval) (candidate : pyval)
    (gs : list GeneratedImage) :
  generated_part cookies0 candidate = Ok gs
  <-> generated_images_of cookies0 candidate gs.
Proof.
  unfold generated_part, generated_images_of, present, empty. split.
  - intros H. apply bind_Ok in H. destruct H as (c12 & H12 & H).
    destruct (truthy c12) eqn:Ht12;
      [| left; inversion H; split; [exists c12; auto | reflexivity]].
    right. apply bind_Ok in H. destruct H as (c127 & H127 & H).
    destruct (truthy c127) eqn:Ht127;
      [| left; inversion H; split; [exists c12; auto |];
         split; [exists c127; auto | reflexivity]].
    right. apply bind_Ok in H. destruct H as (c1270 & H1270 & H).
    destruct (truthy c1270) eqn:Ht1270;
      [| left; inversion H; split; [exists c12; auto |];
         split; [exists c127; auto |];
         split; [exists c1270; auto | reflexivity]].
    right. split; [exists c12; auto |]. split; [exists c127; auto |].
    split; [exists c1270; auto |].
    apply bind_Ok in H. destruct H as (images & Hi & H).
    exists images. split; [exact Hi |].
    apply generated_images_Ok. exact H.
  - intros [((c12 & H12 & Ht12) & ->)
           | [((c12 & H12 & Ht12) & (c127 & H127 & Ht127) & ->)
             | [((c12 & H12 & Ht12) & (c127 & H127 & Ht127)
                 & (c1270 & H1270 & Ht1270) & ->)
               | ((c12 & H12 & Ht12) & (c127 & H127 & Ht127)
                  & (c1270 & H1270 & Ht1270) & images & Hi & Hall)]]];
      apply bind_Ok; exists c12; (split; [exact H12 |]); rewrite Ht12;
      try reflexivity;
      apply bind_Ok; exists c127; (split; [exact H127 |]); rewrite Ht127;
      try reflexivity;
      apply bind_Ok; exists c1270; (split; [exact H1270 |]); rewrite Ht1270;
      try reflexivity.
    apply bind_Ok. exists images. split; [exact Hi |].
    apply generated_images_Ok. exact Hall.
Qed.

(** The extractor returns a candidate exactly when the candidate is the
    one the description gives for the entry. *)
Lemma extract_candidate_Ok (cookies0 : pyval) (entry : pyval) (c : Candidate) :
  extract_candidate cookies0 entry = Ok c <-> candidate_of cookies0 entry c.
Proof.
  rewrite extract_candidate_parts. unfold candidate_of.
  destruct c as [r t ws gs]. simpl rcid. simpl text. simpl web_images.
  simpl generated_images. split.
  - intros H.
    apply bind_Ok in H. destruct H as (ws' & Hw & H).
    apply bind_Ok in H. destruct H as (gs' & Hg & H).
    apply bind_Ok in H. destruct H as (r' & Hr & H).
    apply bind_Ok in H. destruct H as (t' & Ht & H).
    inversion H. subst.
    split; [exact Hr |]. split; [exact Ht |].
    split; [apply web_part_Ok; exact Hw |].
    apply generated_part_Ok. exact Hg.
  - intros (Hr & Ht & Hw & Hg).
    apply bind_Ok. exists ws. split; [apply web_part_Ok; exact Hw |].
    apply bind_Ok. exists gs. split; [apply generated_part_Ok; exact Hg |].
    apply bind_Ok. exists r. split; [exact Hr |].
    apply bind_Ok. exists t. split; [exact Ht | reflexivity].
Qed.

(** An entry whose index 4 does not exist is rejected with the exception
    of that lookup: [candidate[4]] is the first thing evaluated. *)
Lemma extract_candidate_missing_4 (cookies0 : pyval) (entry : pyval) (e : exn) :
  getpath entry [4] = Err e -> extract_candidate cookies0 entry = Err e.
Proof.
  intros H. rewrite extract_candidate_parts. unfold web_part.
  rewrite H. reflexivity.
Qed.

(** An entry whose index 12 does not exist is rejected as well, by that
    lookup when the web images did not raise before. *)
Lemma extract_candidate_missing_12 (cookies0 : pyval) (entry : pyval) (e : exn) :
  getpath entry [12] = Err e ->
  exists e', extract_candidate cookies0 entry = Err e'
             /\ (forall ws, web_part entry = Ok ws -> e' = e).
Proof.
  intros H. rewrite extract_candidate_parts.
  destruct (web_part entry) as [ws | e0].
  - exists e. split.
    + unfold generated_part. rewrite H. reflexivity.
    + reflexivity.
  - exists e0. split; [reflexivity | discriminate].
Qed.

Lemma getitem_short (l : list pyval) (i : nat) :
  (length l <= i)%nat -> getitem (VList l) (Z.of_nat i) = raise IndexError "".
Proof.
  intros H. unfold getitem. rewrite seq_index_nat.
  rewrite (proj2 (lookup_ge_None l i) H). reflexivity.
Qed.

End ExtractorFacts.

(** ** Which exceptions leave the pipeline *)

Section ErrorFacts.

Context {RT : Runtime}.

Lemma bind_Err {A B} (m : result A) (k : A -> result B) (e : exn) :
  (x ← m; k x) = Err e -> m = Err e \/ exists a, m = Ok a /\ k a = Err e.
Proof.
  unfold mbind, result_bind, bind. destruct m as [a | e'].
  - intros H. right. exists a. split; [reflexivity | exact H].
  - intros H. left. inversion H. reflexivity.
Qed.

Lemma getitem_raises (v : pyval) (i : Z) (e : exn) :
  getitem v i = Err e -> interpreter_raised e.
Proof.
  unfold interpreter_raised, getitem, raise.
  destruct v as [| b | z | m e' | s | l | kv];
    try (intros H; inversion H; simpl; tauto).
  - destruct (seq_index (chars s) i); intros H; inversion H; simpl; tauto.
  - destruct (seq_index l i); intros H; inversion H; simpl; tauto.
Qed.

Lemma getpath_raises (path : list Z) (v : pyval) (e : exn) :
  getpath v path = Err e -> interpreter_raised e.
Proof.
  revert v. induction path as [| i path IH]; intros v; simpl.
  - discriminate.
  - intros H. apply bind_Err in H. destruct H as [H | (x & _ & H)].
    + eapply getitem_raises. exact H.
    + eapply IH. exact H.
Qed.

Lemma iter_raises (v : pyval) (e : exn) :
  iter v = Err e -> interpreter_raised e.
Proof.
  unfold interpreter_raised, iter, raise.
  destruct v; intros H; inversion H; simpl; tauto.
Qed.

Lemma for_each_raises {A B} (f : A -> result B) (xs : list A) (e : exn) :
  (forall x e', f x = Err e' -> interpreter_raised e') ->
  for_each f xs = Err e -> interpreter_raised e.
Proof.
  intros Hf. induction xs as [| x xs IH]; simpl; [discriminate |].
  unfold bind. destruct (f x) as [y | e'] eqn:Hx.
  - destruct (for_each f xs) as [ys | e''].
    + discriminate.
    + intros H. inversion H. subst. apply IH. reflexivity.
  - intros H. inversion H. subst. eapply Hf. exact Hx.
Qed.

(** Peel one [x ← m; k] off a hypothesis that says the chain raised. *)
Ltac raised_in H :=
  let x := fresh "x" in
  let Hx := fresh "Hx" in
  apply bind_Err in H; destruct H as [H | (x & Hx & H)];
  [ first [ eapply getpath_raises; exact H
          | eapply getitem_raises; exact H
          | eapply iter_raises; exact H
          | idtac ]
  | idtac ].

Lemma web_image_raises (image : pyval) (e : exn) :
  web_image image = Err e -> interpreter_raised e.
Proof.
  unfold web_image. intros H. do 3 raised_in H. discriminate.
Qed.

Lemma generated_image_raises (cookies0 : pyval) (p : Z * pyval) (e : exn) :
  generated_image cookies0 p = Err e -> interpreter_raised e.
Proof.
  unfold generated_image. intros H. do 3 raised_in H. discriminate.
Qed.

Lemma web_part_raises (candidate : pyval) (e : exn) :
  web_part candidate = Err e -> interpreter_raised e.
Proof.
  unfold web_part. intros H. raised_in H.
  destruct (truthy x); [| discriminate].
  raised_in H.
  - raised_in H. eapply iter_raises. exact H.
  - eapply for_each_raises; [| exact H]. apply web_image_raises.
Qed.

Lemma generated_part_raises (cookies0 : pyval) (candidate : pyval) (e : exn) :
  generated_part cookies0 candidate = Err e -> interpreter_raised e.
Proof.
  unfold generated_part. intros H. raised_in H.
  destruct (truthy x); [| discriminate].
  raised_in H. destruct (truthy x0); [| discriminate].
  raised_in H. destruct (truthy x1); [| discriminate].
  raised_in H.
  - raised_in H. eapply iter_raises. exact H.
  - eapply for_each_raises; [| exact H]. apply generated_image_raises.
Qed.

Lemma extract_candidate_raises (cookies0 : pyval) (candidate : pyval) (e : exn) :
  extract_candidate cookies0 candidate = Err e -> interpreter_raised e.
Proof.
  rewrite extract_candidate_parts. intros H.
  raised_in H; [eapply web_part_raises; exact H |].
  raised_in H; [eapply generated_part_raises; exact H |].
  do 2 raised_in H. discriminate.
Qed.

Lemma build_output_unfold (cookies0 : pyval) (body : pyval) :
  build_output cookies0 body
  = match build_attempt cookies0 body with
    | Ok o => Ok o
    | Err e =>
        if exn_class_eqb IndexError (exn_cls e)
        then Err (Raised APIError data_structure_invalid)
        else Err e
    end.
Proof. reflexivity. Qed.

Lemma build_attempt_raises (cookies0 : pyval) (body : pyval) (e : exn) :
  build_attempt cookies0 body = Err e ->
  interpreter_raised e
  \/ (e = Raised GeminiError no_data_returned
      /\ (x ← getitem body 4; iter x) = Ok []).
Proof.
  unfold build_attempt. intros H.
  apply bind_Err in H. destruct H as [H | (entries & Hentries & H)].
  { left. raised_in H. eapply iter_raises. exact H. }
  apply bind_Err in H. destruct H as [H | (found & Hfound & H)].
  { left. eapply for_each_raises; [| exact H]. apply extract_candidate_raises. }
  destruct found as [| c found].
  - right. inversion H. split; [reflexivity |].
    apply for_each_Ok in Hfound. inversion Hfound. subst. exact Hentries.
  - left. raised_in H. discriminate.
Qed.

(** A true value has something to iterate over. *)
Lemma iter_truthy_nonempty (v : pyval) (items : list pyval) :
  truthy v = true -> iter v = Ok items -> items <> [].
Proof.
  destruct v as [| b | z | m e | s | l | kv]; simpl; try discriminate.
  - destruct s; simpl; intros Ht Hi; [discriminate Ht |].
    inversion Hi. discriminate.
  - destruct l; simpl; intros Ht Hi; [discriminate Ht |].
    inversion Hi. discriminate.
  - destruct kv; simpl; intros Ht Hi; [discriminate Ht |].
    inversion Hi. discriminate.
Qed.

Lemma build_output_Ok (cookies0 : pyval) (body : pyval) (o : GeminiOutput) :
  build_output cookies0 body = Ok o ->
  candidates o <> [] /\ getitem body 1 = Ok (metadata o) /\ chosen o = 0.
Proof.
  rewrite build_output_unfold.
  destruct (build_attempt cookies0 body) as [o' | e] eqn:Hrun.
  - intros H. inversion H. subst o'. clear H.
    unfold build_attempt in Hrun.
    apply bind_Ok in Hrun. destruct Hrun as (entries & _ & Hrun).
    apply bind_Ok in Hrun. destruct Hrun as (found & _ & Hrun).
    destruct found as [| c found]; [discriminate |].
    apply bind_Ok in Hrun. destruct Hrun as (m & Hm & Hrun).
    inversion Hrun. subst o. simpl. auto.
  - destruct (exn_class_eqb IndexError (exn_cls e)); discriminate.
Qed.

Lemma build_output_Err (cookies0 : pyval) (body : pyval) (e : exn) :
  build_output cookies0 body = Err e ->
  exn_cls e <> IndexError
  /\ (candidate_bearing body -> exn_cls e <> GeminiError).
Proof.
  rewrite build_output_unfold.
  destruct (build_attempt cookies0 body) as [o' | e'] eqn:Hrun; [discriminate |].
  apply build_attempt_raises in Hrun.
  destruct (exn_class_eqb IndexError (exn_cls e')) eqn:Hcls.
  - intros H. inversion H. simpl. split; [discriminate | intros _; discriminate].
  - intros H. inversion H. subst e'. clear H. split.
    + intros Hidx. rewrite Hidx in Hcls. discriminate.
    + intros (b4 & Hb4 & Ht) Hg.
      destruct Hrun as [[Hi | [Hk | Hty]] | [_ Hempty]]; try congruence.
      apply bind_Ok in Hempty. destruct Hempty as (b4' & Hb4' & Hiter).
      rewrite Hb4 in Hb4'. inversion Hb4'. subst b4'.
      apply (iter_truthy_nonempty b4 [] Ht Hiter). reflexivity.
Qed.

(** What the two [try] blocks together let through: a body the decoder
    returns has candidate data, so [GeminiError] never leaves them, nor
    does [IndexError], and an output they return has a candidate. *)
Lemma pipeline_outcomes (cookies0 : pyval) (text : string) :
  (forall o, (body ← decode_body text; build_output cookies0 body) = Ok o ->
             candidates o <> [])
  /\ (forall e, (body ← decode_body text; build_output cookies0 body) = Err e ->
                exn_cls e <> IndexError /\ exn_cls e <> GeminiError).
Proof.
  split.
  - intros o H. apply bind_Ok in H. destruct H as (body & _ & H).
    apply build_output_Ok in H. tauto.
  - intros e H. apply bind_Err in H. destruct H as [H | (body & Hbody & H)].
    + rewrite decode_body_unfold in H.
      destruct (decode_attempt text); [discriminate |].
      inversion H. simpl. split; discriminate.
    + apply build_output_Err in H. destruct H as [Hidx Hg].
      split; [exact Hidx |]. apply Hg.
      rewrite decode_body_unfold in Hbody.
      destruct (decode_attempt text) as [b |] eqn:Hd; [| discriminate].
      inversion Hbody. subst b.
      apply decode_attempt_Ok in Hd.
      destruct Hd as (_ & _ & _ & _ & Hbearing & _). exact Hbearing.
Qed.

End ErrorFacts.

(** C3, as the code has it.  For every candidate entry the extractor
    either builds a candidate or raises [IndexError], [KeyError] or
    [TypeError].  It builds the candidate [c] exactly when [c] has
    [rcid = entry[0]] and [text = entry[1][0]]; its web images are one
    [WebImage(url=image[0][0][0], title=image[2], alt=image[0][4])] per
    element of [entry[4]], in order, when [entry[4]] is present, and the
    empty list when [entry[4]] exists and is [None] or empty; its
    generated images are the empty list when [entry[12]], [entry[12][7]]
    or [entry[12][7][0]] exists and is [None] or empty, and otherwise one
    per element [image] of [entry[12][7][0]], the one at position [i],
    counted from 0, being [GeneratedImage(url=image[0][3][3],
    title="[Generated image {image[3][6]}]", alt=image[3][5][i],
    cookies=self.cookies)].  An entry that has no index 4, or no index
    12, is not given empty sequences: no candidate is built, the lookup
    raises, and an entry list that starts with a list of fewer than five
    elements ends the call with [APIError("Failed to parse response
    body. Data structure is invalid.")]. *)
Theorem extract_candidate_fields `{RT : Runtime} (cookies0 : pyval)
    (entry : pyval) :
  (forall c, extract_candidate cookies0 entry = Ok c
             <-> candidate_of cookies0 entry c)
  /\ ((exists c, extract_candidate cookies0 entry = Ok c)
      \/ (exists e, extract_candidate cookies0 entry = Err e
                    /\ interpreter_raised e))
  /\ (forall c, extract_candidate cookies0 entry = Ok c ->
        getitem entry 0 = Ok (rcid c)
        /\ (empty (getpath entry [4]) -> web_images c = [])
        /\ (generated_images c <> [] ->
            present (getpath entry [12]) /\ present (getpath entry [12; 7])
            /\ present (getpath entry [12; 7; 0]))
        /\ Forall (fun g => gi_cookies g = cookies0) (generated_images c))
  /\ (forall e, getpath entry [4] = Err e ->
        extract_candidate cookies0 entry = Err e)
  /\ (forall e, getpath entry [12] = Err e ->
        exists e', extract_candidate cookies0 entry = Err e'
                   /\ (forall ws, web_part entry = Ok ws -> e' = e))
  /\ (forall l, entry = VList l -> (length l < 5)%nat ->
        extract_candidate cookies0 entry = Err (Raised IndexError "")
        /\ forall body rest,
             (x ← getitem body 4; iter x) = Ok (entry :: rest) ->
             build_output cookies0 body
             = Err (Raised APIError data_structure_invalid)).
Proof.
  split; [intros c; apply extract_candidate_Ok |].
  split.
  { destruct (extract_candidate cookies0 entry) as [c | e] eqn:Hrun.
    - left. exists c. reflexivity.
    - right. exists e. split; [reflexivity |].
      eapply extract_candidate_raises. exact Hrun. }
  split.
  { intros c Hrun. apply extract_candidate_Ok in Hrun.
    destruct Hrun as (Hr & _ & Hw & Hg).
    split.
    { simpl in Hr. unfold mbind, result_bind, bind in Hr.
      destruct (getitem entry 0); [exact Hr | discriminate]. }
    split.
    { intros (v & Hv & Hf).
      destruct Hw as [(_ & Hnil) | ((v' & Hv' & Ht) & _)]; [exact Hnil |].
      rewrite Hv in Hv'. inversion Hv'. subst v'. congruence. }
    split.
    { intros Hne.
      destruct Hg as [(_ & Hnil) | [(_ & _ & Hnil) | [(_ & _ & _ & Hnil) | H]]];
        try contradiction.
      destruct H as (H12 & H127 & H1270 & _). auto. }
    destruct Hg as [(_ & Hnil) | [(_ & _ & Hnil) | [(_ & _ & _ & Hnil) | H]]];
      try (rewrite Hnil; constructor).
    destruct H as (_ & _ & _ & images & _ & Hlen & Hat).
    apply Forall_lookup_2. intros i g Hg.
    assert (Hi : (i < length images)%nat).
    { rewrite <- Hlen. eapply lookup_lt_Some. exact Hg. }
    destruct (lookup_lt_is_Some_2 images i Hi) as (image & Himage).
    destruct (Hat i image Himage) as (g' & Hg' & _ & _ & _ & Hk).
    rewrite Hg in Hg'. inversion Hg'. subst g'. exact Hk. }
  split; [intros e; apply extract_candidate_missing_4 |].
  split; [intros e; apply extract_candidate_missing_12 |].
  intros l -> Hlen.
  assert (Hrun : extract_candidate cookies0 (VList l) = Err (Raised IndexError "")).
  { apply extract_candidate_missing_4. cbn [getpath].
    change 4 with (Z.of_nat 4). rewrite getitem_short by lia. reflexivity. }
  split; [exact Hrun |].
  intros body rest Hentries.
  rewrite build_output_unfold. unfold build_attempt.
  rewrite Hentries. cbn [mbind result_bind bind for_each].
  rewrite Hrun. reflexivity.
Qed.

Lemma extract_candidate_fields_witness :
  extract_candidate (RT := Fixture.runtime) Fixture.client_cookies
    Fixture.gallery_entry
  = Ok Fixture.gallery_candidate
  /\ candidate_of (RT := Fixture.runtime) Fixture.client_cookies
       Fixture.gallery_entry Fixture.gallery_candidate
  /\ (gi_alt <$> generated_images Fixture.gallery_candidate)
     = [VStr "alt 0"; VStr "alt 1"]
  /\ candidate_of (RT := Fixture.runtime) Fixture.client_cookies
       Fixture.rich_entry Fixture.rich_candidate.
Proof.
  destruct (extract_candidate_fields (RT := Fixture.runtime)
              Fixture.client_cookies Fixture.gallery_entry)
    as (Hbuilt & _).
  assert (Hrun : extract_candidate (RT := Fixture.runtime)
                   Fixture.client_cookies Fixture.gallery_entry
                 = Ok Fixture.gallery_candidate)
    by (vm_compute; reflexivity).
  split; [exact Hrun |].
  split; [apply Hbuilt; exact Hrun |].
  split; [reflexivity |].
  apply (extract_candidate_fields (RT := Fixture.runtime)
           Fixture.client_cookies Fixture.rich_entry).
  vm_compute. reflexivity.
Defined.

(** C3 as stated gives every entry a candidate, with an empty sequence of
    web images when [entry[4]] is absent.  The entry [["rc_0", ["first"]]]
    has its id and its text and no index 4: the extractor raises
    [IndexError], no candidate is built for it, and a body holding it
    ends the call with [APIError].  The same happens to an entry that has
    [None] at index 4 and stops there: its web images are the empty list,
    but [entry[12]] raises. *)
Lemma entry_without_index_4_gets_no_candidate :
  getpath Fixture.two_element_entry [0] = Ok (VStr "rc_0")
  /\ getpath Fixture.two_element_entry [1; 0] = Ok (VStr "first")
  /\ absent (getpath Fixture.two_element_entry [4])
  /\ extract_candidate (RT := Fixture.runtime) Fixture.client_cookies
       Fixture.two_element_entry
     = Err (Raised IndexError "")
  /\ ~ (exists c, extract_candidate (RT := Fixture.runtime)
                    Fixture.client_cookies Fixture.two_element_entry = Ok c
                  /\ web_images c = [])
  /\ build_output (RT := Fixture.runtime) Fixture.client_cookies
       Fixture.short_value
     = Err (Raised APIError data_structure_invalid)
  /\ web_part Fixture.five_element_entry = Ok []
  /\ absent (getpath Fixture.five_element_entry [12])
  /\ extract_candidate (RT := Fixture.runtime) Fixture.client_cookies
       Fixture.five_element_entry
     = Err (Raised IndexError "").
Proof.
  split; [reflexivity |]. split; [reflexivity |].
  split; [left; eexists; reflexivity |].
  split; [reflexivity |].
  split; [intros (c & Hrun & _); discriminate Hrun |].
  split; [reflexivity |].
  split; [reflexivity |].
  split; [left; eexists; reflexivity |].
  reflexivity.
Qed.

(** ** The turn *)

Section TurnFacts.

Context {RT : Runtime}.

(** Whatever the retry loop returns was returned by one of its calls. *)
Lemma retry_Ok (P : GeminiOutput -> Prop)
    (again : Gemini -> World -> option outcome) (n : nat) :
  (forall g w g' w' o, again g w = Some (g', w', Ok o) -> P o) ->
  forall g w g' w' o, retry again n g w = Some (g', w', Ok o) -> P o.
Proof.
  intros Hagain. induction n as [| n IH]; intros g w g' w' o; cbn [retry].
  - discriminate.
  - destruct (_get_auto_cookies true g w) as [g1 [c | e]]; [| discriminate].
    destruct (_get_session None (with_cookies g1 c)) as [hs | e]; [| discriminate].
    destruct (again (with_session (with_cookies g1 c) hs) w)
      as [[[g3 w3] [o3 | e3]] |] eqn:Hcall; [| | discriminate].
    + intros H. inversion H. subst. eapply Hagain. exact Hcall.
    + apply IH.
Qed.

(** An output that [generate_content] returns has a candidate. *)
Lemma generate_content_Ok_nonempty (fuel : nat) :
  forall prompt chat0 g w g' w' o,
    generate_content fuel prompt chat0 g w = Some (g', w', Ok o) ->
    candidates o <> [].
Proof.
  induction fuel as [| fuel IH]; intros prompt chat0 g w g' w' o;
    cbn [generate_content].
  - discriminate.
  - destruct (translated g prompt) as [prompt' | e]; [| discriminate].
    destruct (post (session g) _ w) as [w1 [| status_code text]]; [discriminate |].
    destruct (negb (status_code =? 200)); [discriminate |].
    destruct (pipeline_outcomes (cookies g) text) as [Hok _].
    destruct (body ← decode_body text; build_output (cookies g) body)
      as [generated_content | e] eqn:Hrun; [| discriminate].
    destruct (negb (output_truthy generated_content)).
    + intros H.
      apply (retry_Ok (fun o => candidates o <> [])
               (generate_content fuel prompt' chat0) 2
               (fun g0 w0 g0' w0' o0 => IH prompt' chat0 g0 w0 g0' w0' o0)
               _ _ _ _ _ H).
    + intros H. inversion H. subst. apply Hok. reflexivity.
Qed.


(** When every output with a candidate counts as true, the retry loop is
    never entered: the call makes exactly one POST and leaves the client
    as it was, whatever the response. *)
Lemma generate_content_single_attempt (fuel : nat) (prompt prompt' : pyval)
    (chat0 : option GeminiSession) (g : Gemini) (w : World) :
  (forall o, candidates o <> [] -> output_truthy o = true) ->
  translated g prompt = Ok prompt' ->
  exists r,
    generate_content (S fuel) prompt chat0 g w
    = Some (g,
            (post (session g)
               (mkRequest (SNlM0e g) prompt' (metadata_get <$> chat0)) w).1,
            r).
Proof.
  intros Htruthy Htr. cbn [generate_content]. rewrite Htr.
  destruct (post (session g) _ w) as [w1 [| status_code text]]; cbn [fst].
  - eexists. reflexivity.
  - destruct (negb (status_code =? 200)); [eexists; reflexivity |].
    destruct (pipeline_outcomes (cookies g) text) as [Hok _].
    destruct (body ← decode_body text; build_output (cookies g) body)
      as [generated_content | e] eqn:Hrun; [| eexists; reflexivity].
    rewrite (Htruthy generated_content (Hok _ eq_refl)). cbn [negb].
    eexists. reflexivity.
Qed.

(** [send_message] hands the session to [generate_content] and neither
    of them assigns to it: the session after the call is the session
    before it, whether the call returns or raises. *)
Lemma send_message_keeps_session (fuel : nat) (prompt : pyval) (p p' : Program)
    (r : result GeminiOutput) :
  send_message fuel prompt p = Some (p', r) -> chat p' = chat p.
Proof.
  unfold send_message.
  destruct (generate_content fuel prompt (Some (chat p)) (gemini p) (world p))
    as [[[g w] r'] |]; [| discriminate].
  intros H. inversion H. reflexivity.
Qed.




(** With a call that returns whenever the answers still pending are
    fewer than [bound], and never adds to them, the retry loop returns as
    well. *)
Lemma retry_returns (again : Gemini -> World -> option outcome)
    (bound n : nat) :
  (forall g w, (length (pending w) < bound)%nat ->
     exists g' w' r, again g w = Some (g', w', r)
                     /\ (length (pending w') <= length (pending w))%nat) ->
  forall g w, (length (pending w) < bound)%nat ->
    exists g' w' r, retry again n g w = Some (g', w', r)
                    /\ (length (pending w') <= length (pending w))%nat.
Proof.
  intros Hagain. induction n as [| n IH]; intros g w Hw; cbn [retry].
  - do 3 eexists. split; [reflexivity | lia].
  - destruct (_get_auto_cookies true g w) as [g1 [c | e]];
      [| do 3 eexists; split; [reflexivity | lia]].
    destruct (_get_session None (with_cookies g1 c)) as [hs | e];
      [| do 3 eexists; split; [reflexivity | lia]].
    destruct (Hagain (with_session (with_cookies g1 c) hs) w Hw)
      as (g3 & w3 & r & Hcall & Hle).
    rewrite Hcall. destruct r as [o | e].
    + do 3 eexists. split; [reflexivity | exact Hle].
    + destruct (IH g3 w3) as (g' & w' & r' & Hrest & Hle'); [lia |].
      exists g', w', r'. split; [exact Hrest | lia].
Qed.

(** [generate_content] returns or raises: every POST consumes one of the
    answers still pending, and with none left the POST raises, so a call
    given more fuel than there are answers comes to an end. *)
Lemma generate_content_returns (fuel : nat) :
  forall prompt chat0 g w,
    (length (pending w) < fuel)%nat ->
    exists g' w' r,
      generate_content fuel prompt chat0 g w = Some (g', w', r)
      /\ (length (pending w') <= length (pending w))%nat.
Proof.
  induction fuel as [| fuel IH]; intros prompt chat0 g w Hw;
    cbn [generate_content]; [lia |].
  destruct (translated g prompt) as [prompt' | e];
    [| do 3 eexists; split; [reflexivity | lia]].
  unfold post.
  destruct (pending w) as [| [| status_code text] rest] eqn:Hp.
  - do 3 eexists. split; [reflexivity | simpl; lia].
  - do 3 eexists. split; [reflexivity | simpl; lia].
  - destruct (negb (status_code =? 200));
      [do 3 eexists; split; [reflexivity | simpl; lia] |].
    destruct (body ← decode_body text; build_output (cookies g) body)
      as [generated_content | e];
      [| do 3 eexists; split; [reflexivity | simpl; lia]].
    destruct (negb (output_truthy generated_content));
      [| do 3 eexists; split; [reflexivity | simpl; lia]].
    simpl in Hw.
    destruct (retry_returns (generate_content fuel prompt' chat0) fuel 2
                (fun g0 w0 H0 => IH prompt' chat0 g0 w0 H0) g
                (mkWorld rest
                   ((session g,
                     mkRequest (SNlM0e g) prompt' (metadata_get <$> chat0))
                      :: sent w)
                   (env_cookies w) (browser_cookies w)))
      as (g' & w' & r & Hrun & Hle); [simpl; lia |].
    exists g', w', r. split; [exact Hrun | simpl in Hle; simpl; lia].
Qed.

(** More fuel does not change what a call returns. *)
Lemma retry_extends (again again' : Gemini -> World -> option outcome)
    (n : nat) :
  (forall g w out, again g w = Some out -> again' g w = Some out) ->
  forall g w out, retry again n g w = Some out -> retry again' n g w = Some out.
Proof.
  intros Hext. induction n as [| n IH]; intros g w out; cbn [retry].
  - intros H. exact H.
  - destruct (_get_auto_cookies true g w) as [g1 [c | e]]; [| intros H; exact H].
    destruct (_get_session None (with_cookies g1 c)) as [hs | e];
      [| intros H; exact H].
    destruct (again (with_session (with_cookies g1 c) hs) w)
      as [[[g3 w3] r] |] eqn:Hcall; [| discriminate].
    rewrite (Hext _ _ _ Hcall). destruct r as [o | e].
    + intros H. exact H.
    + apply IH.
Qed.

Lemma generate_content_more_fuel (fuel : nat) :
  forall fuel' prompt chat0 g w out,
    (fuel <= fuel')%nat ->
    generate_content fuel prompt chat0 g w = Some out ->
    generate_content fuel' prompt chat0 g w = Some out.
Proof.
  induction fuel as [| fuel IH]; intros fuel' prompt chat0 g w out Hle;
    cbn [generate_content]; [discriminate |].
  destruct fuel' as [| fuel']; [lia |]. cbn [generate_content].
  destruct (translated g prompt) as [prompt' | e]; [| intros H; exact H].
  destruct (post (session g) _ w) as [w1 [| status_code text]];
    [intros H; exact H |].
  destruct (negb (status_code =? 200)); [intros H; exact H |].
  destruct (body ← decode_body text; build_output (cookies g) body)
    as [generated_content | e]; [| intros H; exact H].
  destruct (negb (output_truthy generated_content)); [| intros H; exact H].
  apply retry_extends. intros g0 w0 out0. apply IH. lia.
Qed.

(** Every call has one outcome, the same for every amount of fuel above
    the number of answers pending. *)
Lemma generate_content_outcome (prompt : pyval) (chat0 : option GeminiSession)
    (g : Gemini) (w : World) :
  exists g' w' r,
    (length (pending w') <= length (pending w))%nat
    /\ forall fuel, (length (pending w) < fuel)%nat ->
         generate_content fuel prompt chat0 g w = Some (g', w', r).
Proof.
  destruct (generate_content_returns (S (length (pending w))) prompt chat0 g w)
    as (g' & w' & r & Hrun & Hle); [lia |].
  exists g', w', r. split; [exact Hle |].
  intros fuel Hfuel.
  apply (generate_content_more_fuel (S (length (pending w)))); [lia | exact Hrun].
Qed.


End TurnFacts.




(** C1, on the code.  The server answers twice with the two candidates
    [rc_0] and [rc_1].  [send_message("a")] returns the output and leaves
    the session as new: no output stored, all three slots [None].
    [choose_candidate(1)] then raises [ValueError("No previous
    gemini_output data found ...")], and the request of
    [send_message("b")] carries the metadata [[None, None, None]], so its
    reply candidate id is not that of candidate 1. *)
Theorem send_message_does_not_record_output :
  let answers := [HttpResponse 200 (Fixture.framed Fixture.two_text);
                  HttpResponse 200 (Fixture.framed Fixture.two_text)] in
  exists p1 p2,
    send_message (RT := Fixture.runtime) 1 (VStr "a") (Fixture.start answers)
    = Some (p1, Ok Fixture.two_output)
    /\ chat p1 = fresh_session
    /\ on_chat (choose_candidate (RT := Fixture.runtime) 1) p1
       = (p1, Err (Raised ValueError no_previous_output))
    /\ send_message (RT := Fixture.runtime) 1 (VStr "b") p1
       = Some (p2, Ok Fixture.two_output)
    /\ (snd <$> head (sent (world p2)))
       = Some (mkRequest (VStr "token") (VStr "b") (Some [VNone; VNone; VNone]))
    /\ rcid_get (chat p2) = Ok VNone
    /\ (rcid <$> Fixture.two_candidates !! 1%nat) = Some (VStr "rc_1").
Proof.
  intros answers. eexists. eexists.
  split; [vm_compute; reflexivity |].
  split; [reflexivity |].
  split; [vm_compute; reflexivity |].
  split; [vm_compute; reflexivity |].
  split; [reflexivity |].
  split; reflexivity.
Qed.

(** The same conversation when the caller records the output by hand,
    [session.gemini_output = session.send_message("a")]: the request of
    the second message carries candidate 1's id. *)
Example recorded_output_threads_choice :
  let answers := [HttpResponse 200 (Fixture.framed Fixture.two_text);
                  HttpResponse 200 (Fixture.framed Fixture.two_text)] in
  exists p1 p1' p1'' p2,
    send_message (RT := Fixture.runtime) 1 (VStr "a") (Fixture.start answers)
    = Some (p1, Ok Fixture.two_output)
    /\ on_chat (setattr_gemini_output (Some Fixture.two_output)) p1 = (p1', Ok tt)
    /\ on_chat (choose_candidate (RT := Fixture.runtime) 1) p1'
       = (p1'', Ok (set_chosen Fixture.two_output 1))
    /\ send_message (RT := Fixture.runtime) 1 (VStr "b") p1''
       = Some (p2, Ok Fixture.two_output)
    /\ (snd <$> head (sent (world p2)))
       = Some (mkRequest (VStr "token") (VStr "b")
                 (Some [VStr "c_1"; VStr "r_1"; VStr "rc_1"])).
Proof.
  intros answers. do 4 eexists.
  split; [vm_compute; reflexivity |].
  split; [vm_compute; reflexivity |].
  split; [vm_compute; reflexivity |].
  split; [vm_compute; reflexivity |].
  reflexivity.
Qed.

(** ** Kinds of error *)

(** C9, as the code has it.  Every failure of the decoder is the one
    [APIError("Failed to parse candidates. ...")]; an [IndexError] met
    while the candidates are extracted is turned into an [APIError] and
    never leaves as such; an output that is returned, by the extractor or
    by the whole call, has at least one candidate, so nothing is turned
    into an empty output.  The caller's mistakes (metadata longer than 3,
    no output stored, index at least the number of candidates) are all
    [ValueError], told apart by their three different messages, and
    [ValueError] is not [APIError]. *)
Theorem error_kinds_of_the_core `{RT : Runtime} :
  (forall text e, decode_body text = Err e ->
     e = Raised APIError failed_to_parse_candidates)
  /\ (forall cookies0 body e, build_attempt cookies0 body = Err e ->
        exn_cls e = IndexError ->
        build_output cookies0 body = Err (Raised APIError data_structure_invalid))
  /\ (forall cookies0 body e, build_output cookies0 body = Err e ->
        exn_cls e <> IndexError)
  /\ (forall cookies0 body o, build_output cookies0 body = Ok o ->
        candidates o <> [])
  /\ (forall fuel prompt chat0 g w g' w' o,
        generate_content fuel prompt chat0 g w = Some (g', w', Ok o) ->
        candidates o <> [])
  /\ (forall s value n, len value = Ok n -> (3 < n)%nat ->
        (metadata_set value s).2
        = Err (Raised ValueError "metadata cannot exceed 3 elements"))
  /\ (forall s index e,
        (gemini_output s = None
         \/ exists o, gemini_output s = Some o
                      /\ Z.of_nat (length (candidates o)) <= index) ->
        (choose_candidate index s).2 = Err e ->
        exn_cls e = ValueError
        /\ (exn_msg e = no_previous_output \/ exn_msg e = index_exceeds index))
  /\ (forall index,
        no_previous_output <> index_exceeds index
        /\ no_previous_output <> "metadata cannot exceed 3 elements"
        /\ index_exceeds index <> "metadata cannot exceed 3 elements")
  /\ APIError <> ValueError.
Proof.
  repeat apply conj.
  - intros text e. rewrite decode_body_unfold.
    destruct (decode_attempt text); [discriminate |].
    intros H. inversion H. reflexivity.
  - intros cookies0 body e Hrun Hcls. rewrite build_output_unfold, Hrun, Hcls.
    reflexivity.
  - intros cookies0 body e H. apply build_output_Err in H. tauto.
  - intros cookies0 body o H. apply build_output_Ok in H. tauto.
  - intros fuel prompt chat0 g w g' w' o.
    apply generate_content_Ok_nonempty.
  - intros s value n Hlen Hn.
    unfold metadata_set, mbind, method_mbind, method_bind, lift.
    rewrite Hlen.
    destruct (Nat.ltb_spec 3 n) as [_ | Hle]; [reflexivity | lia].
  - intros s index e Hpre. unfold choose_candidate.
    destruct Hpre as [Hnone | (o & Hout & Hge)].
    + rewrite Hnone. simpl. intros H. inversion H. simpl. auto.
    + rewrite Hout. destruct (output_truthy o); simpl negb; cbv iota.
      * destruct (Z.geb_spec index (Z.of_nat (length (candidates o))))
          as [_ | Hlt]; [| lia].
        simpl. intros H. inversion H. simpl. auto.
      * simpl. intros H. inversion H. simpl. auto.
  - intros index. unfold no_previous_output, index_exceeds.
    repeat apply conj; simpl; discriminate.
  - discriminate.
Qed.

Lemma error_kinds_of_the_core_witness :
  candidates Fixture.two_output <> []
  /\ build_output (RT := Fixture.runtime) Fixture.client_cookies
       Fixture.short_value
     = Err (Raised APIError data_structure_invalid)
  /\ exn_cls (Raised ValueError (index_exceeds (RT := Fixture.runtime) 2))
     = ValueError.
Proof.
  destruct (error_kinds_of_the_core (RT := Fixture.runtime))
    as (_ & Hindex & _ & Hout & _ & _ & Hchoose & _).
  split; [| split].
  - apply (Hout Fixture.client_cookies Fixture.two_value). vm_compute. reflexivity.
  - apply (Hindex Fixture.client_cookies Fixture.short_value (Raised IndexError "")).
    + vm_compute. reflexivity.
    + reflexivity.
  - apply (Hchoose Fixture.recorded 2).
    + right. exists Fixture.two_output. split; [reflexivity | simpl; lia].
    + reflexivity.
Defined.

(** C9 as stated fails on the code in three ways.  The three mistakes of
    the caller raise one and the same class.  A response that is empty at
    both locations and a response that is no JSON at all raise one and
    the same exception, class and message.  And a body whose candidate
    entry is a number makes the call end with the interpreter's own
    [TypeError]. *)
Lemma errors_are_not_distinct_kinds :
  (exists e1 e2 e3,
     (metadata_set (VList [VStr "a"; VStr "b"; VStr "c"; VStr "d"])
        fresh_session).2 = Err e1
     /\ (choose_candidate (RT := Fixture.runtime) 0 fresh_session).2 = Err e2
     /\ (choose_candidate (RT := Fixture.runtime) 2 Fixture.recorded).2 = Err e3
     /\ exn_cls e1 = exn_cls e2 /\ exn_cls e2 = exn_cls e3)
  /\ decode_body (RT := Fixture.runtime) Fixture.both_empty
     = decode_body (RT := Fixture.runtime) Fixture.not_json
  /\ (exists p,
        send_message (RT := Fixture.runtime) 1 (VStr "a")
          (Fixture.start [HttpResponse 200 (Fixture.framed Fixture.scalar_text)])
        = Some (p, Err (Raised TypeError ""))).
Proof.
  split; [| split].
  - do 3 eexists. repeat split; reflexivity.
  - vm_compute. reflexivity.
  - eexists. vm_compute. reflexivity.
Qed.

(** ** Links *)

Section LinkFacts.

(** Induction on a value with the hypothesis for every element of a
    list. *)
Lemma pyval_nested_ind (P : pyval -> Prop) :
  P VNone ->
  (forall b, P (VBool b)) ->
  (forall z, P (VInt z)) ->
  (forall m e, P (VFloat m e)) ->
  (forall s, P (VStr s)) ->
  (forall l, Forall P l -> P (VList l)) ->
  (forall kv, P (VDict kv)) ->
  forall v, P v.
Proof.
  intros Hnone Hbool Hint Hfloat Hstr Hlist Hdict.
  fix IH 1. intros v.
  destruct v as [| b | z | m e | s | l | kv];
    [ exact Hnone | apply Hbool | apply Hint | apply Hfloat | apply Hstr
    | | apply Hdict ].
  apply Hlist. induction l as [| x l IHl]; constructor; [apply IH | exact IHl].
Qed.

Lemma extract_links_cons (item : pyval) (rest : list pyval) :
  _extract_links (VList (item :: rest))
  = (match item with
     | VList _ => _extract_links item
     | VStr s => if is_link s then [s] else []
     | _ => []
     end ++ _extract_links (VList rest))%list.
Proof.
  destruct item as [| b | z | m e | s | l | kv]; try reflexivity.
  simpl. destruct (is_link s); reflexivity.
Qed.

Lemma extract_links_app (a b : list pyval) :
  _extract_links (VList (a ++ b))
  = (_extract_links (VList a) ++ _extract_links (VList b))%list.
Proof.
  induction a as [| item a IH].
  - reflexivity.
  - change ((item :: a) ++ b)%list with (item :: (a ++ b))%list.
    rewrite !extract_links_cons, IH, app_assoc. reflexivity.
Qed.

Lemma item_of_cons (s : string) (item : pyval) (rest : list pyval) :
  item_of s (VList (item :: rest))
  <-> item = VStr s \/ (exists inner, item = VList inner /\ item_of s item)
      \/ item_of s (VList rest).
Proof.
  split.
  - intros H. inversion H as [items Hin | items inner Hin Hinner]; subst.
    + destruct Hin as [-> | Hin]; [left; reflexivity |].
      right. right. apply item_here. exact Hin.
    + destruct Hin as [-> | Hin].
      * right. left. exists inner. split; [reflexivity | exact Hinner].
      * right. right. eapply item_deeper; eassumption.
  - intros [-> | [(inner & -> & Hinner) | Hrest]].
    + apply item_here. left. reflexivity.
    + eapply item_deeper; [left; reflexivity | exact Hinner].
    + inversion Hrest as [items Hin | items inner Hin Hinner]; subst.
      * apply item_here. right. exact Hin.
      * eapply item_deeper; [right; exact Hin | exact Hinner].
Qed.

End LinkFacts.

(** X1. [_extract_links(data)] returns exactly the strings that occur as
    items of [data] or of a list nested in it at any depth, start with
    "http" and do not contain "favicon".  Nothing is taken from a value
    that is not a list: a [str] or a [dict] given as [data], or a [dict]
    inside it, contributes no link. *)
Theorem extract_links_exact (data : pyval) (s : string) :
  In s (_extract_links data)
  <-> item_of s data /\ String.prefix "http" s = true
      /\ contains "favicon" s = false.
Proof.
  revert s. induction data as [| b | z | m e | s0 | l IHl | kv]
    using pyval_nested_ind; intros s;
    try (split; [intros [] | intros [H _]; inversion H]).
  induction IHl as [| item rest Hitem _ IHrest].
  - split; [intros [] |]. intros [H _].
    inversion H as [items Hin | items inner Hin _]; subst; destruct Hin.
  - rewrite extract_links_cons, in_app_iff, IHrest, item_of_cons.
    assert (Hq : forall t, is_link t = true
                 <-> String.prefix "http" t = true /\ contains "favicon" t = false).
    { intros t. unfold is_link. rewrite andb_true_iff, negb_true_iff. tauto. }
    split.
    + intros [Hhere | (Hrest & Hp & Hf)]; [| tauto].
      destruct item as [| b | z | m e | t | inner | kv]; try destruct Hhere.
      * destruct (is_link t) eqn:Ht; [| destruct Hhere].
        destruct Hhere as [-> | []]. apply Hq in Ht. tauto.
      * apply Hitem in Hhere. destruct Hhere as (Hin & Hp & Hf).
        split; [| tauto]. right. left. exists inner. tauto.
    + intros ([-> | [(inner & -> & Hinner) | Hrest]] & Hp & Hf).
      * left. assert (Ht : is_link s = true) by (apply Hq; tauto).
        rewrite Ht. left. reflexivity.
      * left. apply Hitem. tauto.
      * right. tauto.
Qed.

Lemma extract_links_exact_witness :
  In "http://a.example/x"
     (_extract_links
        (VList [VStr "title"; VList [VInt 1; VList [VStr "http://a.example/x"]]])).
Proof.
  apply (extract_links_exact
           (VList [VStr "title"; VList [VInt 1; VList [VStr "http://a.example/x"]]])
           "http://a.example/x").
  split; [| split; reflexivity].
  eapply item_deeper; [right; left; reflexivity |].
  eapply item_deeper; [right; left; reflexivity |].
  apply item_here. left. reflexivity.
Defined.

(** X2. The links come out in the order of the data, depth first: the
    links of a concatenation are the links of its first part followed by
    those of its second, a nested list contributes its own links at its
    place, a string that passes the test contributes itself, and any
    other item contributes nothing. *)
Theorem extract_links_in_order (a b inner : list pyval) (s : string)
    (other : pyval) :
  _extract_links (VList (a ++ b))
  = (_extract_links (VList a) ++ _extract_links (VList b))%list
  /\ _extract_links (VList (a ++ VList inner :: b))
     = (_extract_links (VList a) ++ _extract_links (VList inner)
        ++ _extract_links (VList b))%list
  /\ _extract_links (VList (a ++ VStr s :: b))
     = (_extract_links (VList a) ++ (if is_link s then [s] else [])
        ++ _extract_links (VList b))%list
  /\ ((forall l, other <> VList l) -> (forall t, other <> VStr t) ->
      _extract_links (VList (a ++ other :: b))
      = (_extract_links (VList a) ++ _extract_links (VList b))%list).
Proof.
  repeat apply conj.
  - apply extract_links_app.
  - rewrite extract_links_app, extract_links_cons. reflexivity.
  - rewrite extract_links_app, extract_links_cons. reflexivity.
  - intros Hl Hs. rewrite extract_links_app, extract_links_cons.
    destruct other as [| b0 | z | m e | t | l | kv]; try reflexivity.
    + exfalso. apply (Hs t). reflexivity.
    + exfalso. apply (Hl l). reflexivity.
Qed.

Lemma extract_links_in_order_witness :
  _extract_links
    (VList ([VStr "http://1"] ++ VDict [("k", VStr "http://2")] :: [VStr "http://3"]))
  = ["http://1"; "http://3"].
Proof.
  destruct (extract_links_in_order [VStr "http://1"] [VStr "http://3"] []
              "" (VDict [("k", VStr "http://2")])) as (_ & _ & _ & H).
  rewrite H.
  - reflexivity.
  - intros l. discriminate.
  - intros t. discriminate.
Defined.

(** ** Credentials *)

(** X3. [_get_session(session)] returns a session that is given as it
    is, whatever the cookies.  Without one it makes a new session exactly
    when the cookies are a [dict] with the key "__Secure-1PSID"; it
    raises [ValueError] when the cookies are empty or [None], [KeyError]
    when they are a non-empty [dict] without that key, and [TypeError]
    when they are any other true value, a [str] for instance. *)
Theorem get_session_outcomes (g : Gemini) :
  (forall hs, _get_session (Some hs) g = Ok hs)
  /\ ((exists hs, _get_session None g = Ok hs)
      <-> exists kv v, cookies g = VDict kv
                       /\ dict_get kv "__Secure-1PSID" = Some v)
  /\ (truthy (cookies g) = false ->
      _get_session None g
      = Err (Raised ValueError "'cookies' dictionary is empty."))
  /\ (forall kv, cookies g = VDict kv -> kv <> [] ->
      dict_get kv "__Secure-1PSID" = None ->
      _get_session None g = Err (Raised KeyError ""))
  /\ (truthy (cookies g) = true -> (forall kv, cookies g <> VDict kv) ->
      _get_session None g = Err (Raised TypeError "")).
Proof.
  split; [| split; [| split; [| split]]].
  - reflexivity.
  - unfold _get_session, getitem_str, mbind, result_bind, bind. split.
    + intros (hs & H).
      destruct (truthy (cookies g)); simpl in H; [| discriminate].
      destruct (cookies g) as [| b | z | m e | s | l | kv]; try discriminate.
      destruct (dict_get kv "__Secure-1PSID") as [v |] eqn:Hv; [| discriminate].
      exists kv, v. split; [reflexivity | exact Hv].
    + intros (kv & v & Hc & Hv). rewrite Hc. simpl truthy.
      destruct kv as [| p kv]; [simpl in Hv; discriminate Hv |].
      simpl negb. cbv iota. rewrite Hv. eexists. reflexivity.
  - intros Hf. unfold _get_session. rewrite Hf. reflexivity.
  - intros kv Hc Hne Hv. unfold _get_session, getitem_str. rewrite Hc.
    destruct kv as [| p kv]; [contradiction |].
    simpl truthy. simpl negb. cbv iota. rewrite Hv. reflexivity.
  - intros Ht Hnd. unfold _get_session, getitem_str. rewrite Ht. simpl negb.
    cbv iota.
    destruct (cookies g) as [| b | z | m e | s | l | kv]; try reflexivity.
    exfalso. apply (Hnd kv). reflexivity.
Qed.

Lemma get_session_outcomes_witness :
  _get_session None
    (mkGemini (mkHttpSession [] VNone) (VStr "{}") VNone None None VNone)
  = Err (Raised TypeError "").
Proof.
  destruct (get_session_outcomes
              (mkGemini (mkHttpSession [] VNone) (VStr "{}") VNone None None VNone))
    as (_ & _ & _ & _ & H).
  apply H.
  - reflexivity.
  - intros kv. discriminate.
Defined.

(** X4. [_get_auto_cookies] never returns empty cookies.  A non-empty
    environment variable [GEMINI_COOKIES_DICT] is returned as the string
    it is, without the browser being read and without the client being
    touched.  Otherwise, with [auto_cookies] false it raises [Exception]
    and leaves the client alone, and with [auto_cookies] true what the
    browser yields is assigned to [self.cookies] before it is tested, so
    an empty result both replaces the client's cookies and raises. *)
Theorem get_auto_cookies_outcomes (auto_cookies : bool) (g : Gemini) (w : World) :
  (forall g' c, _get_auto_cookies auto_cookies g w = (g', Ok c) ->
                truthy c = true)
  /\ (forall e, env_cookies w = Some e -> e <> EmptyString ->
        _get_auto_cookies auto_cookies g w = (g, Ok (VStr e)))
  /\ ((env_cookies w = None \/ env_cookies w = Some EmptyString) ->
      auto_cookies = false ->
      exists msg, _get_auto_cookies auto_cookies g w
                  = (g, Err (Raised PyException msg)))
  /\ (forall extracted,
        (env_cookies w = None \/ env_cookies w = Some EmptyString) ->
        auto_cookies = true ->
        browser_cookies w = Ok extracted ->
        cookies (_get_auto_cookies auto_cookies g w).1 = extracted
        /\ (truthy extracted = false ->
            exists msg, (_get_auto_cookies auto_cookies g w).2
                        = Err (Raised PyException msg))
        /\ (truthy extracted = true ->
            (_get_auto_cookies auto_cookies g w).2 = Ok extracted)).
Proof.
  assert (Hempty : forall e, e <> EmptyString -> truthy (VStr e) = true).
  { intros e He. simpl. destruct e; [contradiction | reflexivity]. }
  repeat apply conj.
  - intros g' c. unfold _get_auto_cookies.
    destruct (env_cookies w) as [e |].
    + destruct (truthy (VStr e)) eqn:He.
      * intros H. inversion H. subst. exact He.
      * destruct auto_cookies; [| discriminate].
        destruct (browser_cookies w) as [x |]; [| discriminate].
        destruct (truthy x) eqn:Hx; [| discriminate].
        intros H. inversion H. subst. exact Hx.
    + destruct auto_cookies; [| discriminate].
      destruct (browser_cookies w) as [x |]; [| discriminate].
      destruct (truthy x) eqn:Hx; [| discriminate].
      intros H. inversion H. subst. exact Hx.
  - intros e He Hne. unfold _get_auto_cookies. rewrite He, (Hempty e Hne).
    reflexivity.
  - intros Henv ->. unfold _get_auto_cookies.
    destruct Henv as [-> | ->]; eexists; reflexivity.
  - intros extracted Henv -> Hb. unfold _get_auto_cookies. rewrite Hb.
    destruct Henv as [-> | ->]; simpl;
      destruct (truthy extracted); simpl;
      (split; [reflexivity |]); split; intros H; try discriminate;
      try reflexivity; eexists; reflexivity.
Qed.

Lemma get_auto_cookies_outcomes_witness :
  _get_auto_cookies true Fixture.client
    (mkWorld [] [] (Some "{'__Secure-1PSID': 'x'}") (Err (Raised PyException "")))
  = (Fixture.client, Ok (VStr "{'__Secure-1PSID': 'x'}")).
Proof.
  destruct (get_auto_cookies_outcomes true Fixture.client
              (mkWorld [] [] (Some "{'__Secure-1PSID': 'x'}")
                 (Err (Raised PyException "")))) as (_ & H & _).
  apply H; [reflexivity | discriminate].
Defined.

(** X5. With [GEMINI_COOKIES_DICT] set, the retry loop of
    [generate_content] cannot retry: [_get_auto_cookies(True)] returns
    the variable's string, the client's cookies become that string, and
    [_get_session(None)] then indexes the string with "__Secure-1PSID",
    so the loop ends with [TypeError] before it calls [generate_content]
    again, whatever number of rounds is left. *)
Theorem retry_with_env_cookies_raises
    (again : Gemini -> World -> option outcome) (n : nat) (g : Gemini)
    (w : World) (e : string) :
  env_cookies w = Some e ->
  e <> EmptyString ->
  retry again (S n) g w
  = Some (with_cookies g (VStr e), w, Err (Raised TypeError "")).
Proof.
  intros He Hne. cbn [retry].
  destruct (get_auto_cookies_outcomes true g w) as (_ & Henv & _).
  rewrite (Henv e He Hne).
  assert (Hs : _get_session None (with_cookies g (VStr e))
               = Err (Raised TypeError "")).
  { unfold _get_session, with_cookies. simpl cookies.
    destruct e; [contradiction | reflexivity]. }
  rewrite Hs. reflexivity.
Qed.

Lemma retry_with_env_cookies_raises_witness :
  retry (fun g w => None) 2 Fixture.client
    (mkWorld [] [] (Some "{'__Secure-1PSID': 'x'}") (Ok Fixture.client_cookies))
  = Some (with_cookies Fixture.client (VStr "{'__Secure-1PSID': 'x'}"),
          mkWorld [] [] (Some "{'__Secure-1PSID': 'x'}") (Ok Fixture.client_cookies),
          Err (Raised TypeError "")).
Proof.
  apply (retry_with_env_cookies_raises
           (fun g w => None) 1 Fixture.client
           (mkWorld [] [] (Some "{'__Secure-1PSID': 'x'}")
              (Ok Fixture.client_cookies))
           "{'__Secure-1PSID': 'x'}").
  - reflexivity.
  - discriminate.
Defined.

(** ** More on the session *)

(** X6. [GeminiSession(gemini, metadata, cid, rid, rcid)] with a
    metadata list of at most three elements, or none, always succeeds and
    stores no output; each slot holds the id given for it when that id is
    true, otherwise the element of [metadata] at its position, otherwise
    [None].  So an id overrides the metadata, and an id that is [None] or
    the empty string is ignored. *)
Theorem init_ids_override_metadata (metadata0 : pyval) (md : list pyval)
    (cid0 rid0 rcid0 : pyval) :
  (metadata0 = VList md \/ (metadata0 = VNone /\ md = [])) ->
  (length md <= 3)%nat ->
  exists s,
    GeminiSession_init metadata0 cid0 rid0 rcid0 = (s, Ok tt)
    /\ gemini_output s = None
    /\ three_slots s
    /\ cid s = Ok (if truthy cid0 then cid0 else default VNone (md !! 0%nat))
    /\ rid s = Ok (if truthy rid0 then rid0 else default VNone (md !! 1%nat))
    /\ rcid_get s
       = Ok (if truthy rcid0 then rcid0 else default VNone (md !! 2%nat)).
Proof.
  intros Hmd Hlen.
  assert (Hcases : md = [] \/ (exists a, md = [a]) \/ (exists a b, md = [a; b])
                   \/ (exists a b c, md = [a; b; c])).
  { destruct md as [| a [| b [| c [| d md]]]]; simpl in Hlen; try lia; eauto 8. }
  unfold GeminiSession_init, cid, rid, rcid_get.
  destruct (truthy cid0) eqn:Hc, (truthy rid0) eqn:Hr, (truthy rcid0) eqn:Hrc;
    destruct Hmd as [-> | [-> ->]];
    try (destruct Hcases as [-> | [(a & ->) | [(a & b & ->) | (a & b & c & ->)]]]);
    eexists; repeat split; reflexivity.
Qed.

Lemma init_ids_override_metadata_witness :
  exists s,
    GeminiSession_init (VList [VStr "c_1"; VStr "r_1"]) (VStr "c_9") (VStr "")
      VNone = (s, Ok tt)
    /\ _metadata s = [VStr "c_9"; VStr "r_1"; VNone].
Proof.
  destruct (init_ids_override_metadata (VList [VStr "c_1"; VStr "r_1"])
              [VStr "c_1"; VStr "r_1"] (VStr "c_9") (VStr "") VNone)
    as (s & Hrun & _).
  - left. reflexivity.
  - simpl. lia.
  - exists s. split; [exact Hrun |].
    vm_compute in Hrun. inversion Hrun. reflexivity.
Defined.

(** X7. On a session with its three slots, each of the setters [cid],
    [rid] and [rcid] succeeds, the getter of the same name then returns
    the value set, the two other ids and the stored output stay as they
    were, and two setters of different ids give the same session in
    either order. *)
Theorem id_setters_are_independent (s : GeminiSession) (a b c : pyval) :
  three_slots s ->
  (exists s1, cid_set a s = (s1, Ok tt) /\ cid s1 = Ok a
              /\ rid s1 = rid s /\ rcid_get s1 = rcid_get s
              /\ gemini_output s1 = gemini_output s)
  /\ (exists s2, rid_set b s = (s2, Ok tt) /\ rid s2 = Ok b
                 /\ cid s2 = cid s /\ rcid_get s2 = rcid_get s
                 /\ gemini_output s2 = gemini_output s)
  /\ (exists s3, rcid_set c s = (s3, Ok tt) /\ rcid_get s3 = Ok c
                 /\ cid s3 = cid s /\ rid s3 = rid s
                 /\ gemini_output s3 = gemini_output s)
  /\ (cid_set a;; rid_set b) s = (rid_set b;; cid_set a) s
  /\ (cid_set a;; rcid_set c) s = (rcid_set c;; cid_set a) s
  /\ (rid_set b;; rcid_set c) s = (rcid_set c;; rid_set b) s.
Proof.
  intros Hs. destruct s as [md out]. unfold three_slots in Hs. simpl in Hs.
  destruct md as [| x [| y [| z [| t md]]]]; simpl in Hs; try lia.
  repeat apply conj; try reflexivity; eexists; repeat split; reflexivity.
Qed.

Lemma id_setters_are_independent_witness :
  (cid_set (VStr "c");; rcid_set (VStr "rc")) fresh_session
  = (mkSession [VStr "c"; VNone; VStr "rc"] None, Ok tt).
Proof.
  destruct (id_setters_are_independent fresh_session (VStr "c") VNone (VStr "rc"))
    as (_ & _ & _ & _ & H & _).
  - reflexivity.
  - rewrite H. reflexivity.
Defined.

(** X8. [choose_candidate(index)] with [index] below [-len(candidates)]
    passes the guard, assigns [chosen = index] on the stored output and
    only then fails with [IndexError] when the candidate is looked up:
    the metadata is as before, but the stored output is left with a
    [chosen] that denotes no candidate. *)
Theorem choose_candidate_below_range `{RT : Runtime} (s : GeminiSession)
    (o : GeminiOutput) (index : Z) :
  gemini_output s = Some o ->
  output_truthy o = true ->
  index < - Z.of_nat (length (candidates o)) ->
  choose_candidate index s
  = (mkSession (_metadata s) (Some (set_chosen o index)),
     Err (Raised IndexError ""))
  /\ GeminiOutput_rcid (set_chosen o index) = Err (Raised IndexError "").
Proof.
  intros Hout Htrue Hlow.
  assert (Hidx : seq_index (candidates o) index = None).
  { unfold seq_index.
    destruct (Z.ltb_spec index 0) as [_ | Hge]; [| lia].
    destruct (Z.leb_spec 0 (index + Z.of_nat (length (candidates o))))
      as [Hnn | _]; [lia | reflexivity]. }
  assert (Hr : GeminiOutput_rcid (set_chosen o index) = Err (Raised IndexError "")).
  { unfold GeminiOutput_rcid. simpl. rewrite Hidx. reflexivity. }
  split; [| exact Hr].
  unfold choose_candidate. rewrite Hout, Htrue. simpl negb. cbv iota.
  destruct (Z.geb_spec index (Z.of_nat (length (candidates o)))) as [Hge | _];
    [lia |].
  unfold mbind, method_mbind, method_bind, modify, lift. rewrite Hr. reflexivity.
Qed.

Lemma choose_candidate_below_range_witness :
  choose_candidate (RT := Fixture.runtime) (-3) Fixture.recorded
  = (mkSession (_metadata Fixture.recorded)
       (Some (set_chosen Fixture.two_output (-3))),
     Err (Raised IndexError "")).
Proof.
  apply (choose_candidate_below_range (RT := Fixture.runtime) Fixture.recorded
           Fixture.two_output (-3)).
  - reflexivity.
  - reflexivity.
  - simpl. lia.
Defined.

Lemma metadata_set_rejects (s : GeminiSession) (value : pyval) (n : nat) :
  len value = Ok n ->
  (3 < n)%nat ->
  metadata_set value s
  = (s, Err (Raised ValueError "metadata cannot exceed 3 elements")).
Proof.
  intros Hlen Hn.
  unfold metadata_set, mbind, method_mbind, method_bind, lift.
  rewrite Hlen.
  destruct (Nat.ltb_spec 3 n) as [_ | Hle]; [reflexivity | lia].
Qed.

(** X9. Assigning to [gemini_output] an output whose metadata the setter
    rejects, because it has more than three elements or because it is
    not a sequence at all ([None], as when [body[1]] is null), raises the
    setter's exception after the output has been stored: the session
    keeps its old metadata and holds the new output. *)
Theorem setattr_gemini_output_stores_before_failing (s : GeminiSession)
    (o : GeminiOutput) :
  (forall n, len (metadata o) = Ok n -> (3 < n)%nat ->
     setattr_gemini_output (Some o) s
     = (mkSession (_metadata s) (Some o),
        Err (Raised ValueError "metadata cannot exceed 3 elements")))
  /\ (forall e, len (metadata o) = Err e ->
        setattr_gemini_output (Some o) s
        = (mkSession (_metadata s) (Some o), Err e)).
Proof.
  split.
  - intros n Hlen Hn.
    unfold setattr_gemini_output, mbind, method_mbind, method_bind, modify.
    rewrite (metadata_set_rejects (mkSession (_metadata s) (Some o))
               (metadata o) n Hlen Hn).
    reflexivity.
  - intros e Hlen.
    unfold setattr_gemini_output, metadata_set, mbind, method_mbind,
      method_bind, modify, lift.
    rewrite Hlen. reflexivity.
Qed.

Lemma setattr_gemini_output_stores_before_failing_witness :
  setattr_gemini_output
    (Some (mkGeminiOutput VNone Fixture.two_candidates 0)) fresh_session
  = (mkSession [VNone; VNone; VNone]
       (Some (mkGeminiOutput VNone Fixture.two_candidates 0)),
     Err (Raised TypeError "")).
Proof.
  apply (setattr_gemini_output_stores_before_failing fresh_session
           (mkGeminiOutput VNone Fixture.two_candidates 0)).
  reflexivity.
Defined.

(** X10. Choosing twice is choosing once: after [choose_candidate(i)]
    and then [choose_candidate(j)], both indices denoting candidates, the
    session and the returned output are those of [choose_candidate(j)]
    alone; in particular repeating a choice changes nothing. *)
Theorem choose_candidate_last_choice_wins `{RT : Runtime} (s : GeminiSession)
    (o : GeminiOutput) (i j : nat) :
  gemini_output s = Some o ->
  (forall k, output_truthy (set_chosen o k) = true) ->
  output_truthy o = true ->
  three_slots s ->
  (i < length (candidates o))%nat ->
  (j < length (candidates o))%nat ->
  choose_candidate (Z.of_nat j) (choose_candidate (Z.of_nat i) s).1
  = choose_candidate (Z.of_nat j) s
  /\ (choose_candidate (Z.of_nat j) s).2 = Ok (set_chosen o (Z.of_nat j)).
Proof.
  intros Hout Hall Htrue Hs Hi Hj.
  destruct (lookup_lt_is_Some_2 (candidates o) i Hi) as [ci Hci].
  destruct (lookup_lt_is_Some_2 (candidates o) j Hj) as [cj Hcj].
  assert (H1 : choose_candidate (Z.of_nat i) s
               = (mkSession (<[2%nat := rcid ci]> (_metadata s))
                    (Some (set_chosen o (Z.of_nat i))),
                  Ok (set_chosen o (Z.of_nat i)))).
  { apply choose_candidate_accepted; try assumption; [lia |].
    apply seq_index_nonneg. exact Hci. }
  assert (H2 : choose_candidate (Z.of_nat j) s
               = (mkSession (<[2%nat := rcid cj]> (_metadata s))
                    (Some (set_chosen o (Z.of_nat j))),
                  Ok (set_chosen o (Z.of_nat j)))).
  { apply choose_candidate_accepted; try assumption; [lia |].
    apply seq_index_nonneg. exact Hcj. }
  rewrite H1, H2. split; [| reflexivity]. simpl fst.
  rewrite (choose_candidate_accepted _ (set_chosen o (Z.of_nat i))
             (Z.of_nat j) cj).
  - simpl. rewrite list_insert_insert_eq. reflexivity.
  - reflexivity.
  - apply Hall.
  - simpl. lia.
  - simpl. apply seq_index_nonneg. exact Hcj.
  - unfold three_slots in *. simpl. rewrite length_insert. exact Hs.
Qed.

Lemma choose_candidate_last_choice_wins_witness :
  choose_candidate (RT := Fixture.runtime) 0
    (choose_candidate (RT := Fixture.runtime) 1 Fixture.recorded).1
  = choose_candidate (RT := Fixture.runtime) 0 Fixture.recorded.
Proof.
  apply (choose_candidate_last_choice_wins (RT := Fixture.runtime)
           Fixture.recorded Fixture.two_output 1 0); try reflexivity.
  - simpl. lia.
  - simpl. lia.
Defined.

(** ** More on the decoder and the turn *)

Section TurnExtras.

Context {RT : Runtime}.

Lemma framed_json_line (t1 t2 : string) (i : Z) :
  split_newline t1 !! 2%nat = split_newline t2 !! 2%nat ->
  framed_json t1 i = framed_json t2 i.
Proof.
  intros H. unfold framed_json. change 2 with (Z.of_nat 2).
  rewrite !seq_index_nat, H. reflexivity.
Qed.

(** The log of requests only grows. *)
Lemma retry_sent_grows (again : Gemini -> World -> option outcome) (n : nat) :
  (forall g w g' w' r, again g w = Some (g', w', r) ->
     exists later, sent w' = (later ++ sent w)%list) ->
  forall g w g' w' r, retry again n g w = Some (g', w', r) ->
    exists later, sent w' = (later ++ sent w)%list.
Proof.
  intros Hagain. induction n as [| n IH]; intros g w g' w' r; cbn [retry].
  - intros H. inversion H. exists []. reflexivity.
  - destruct (_get_auto_cookies true g w) as [g1 [c | e]];
      [| intros H; inversion H; exists []; reflexivity].
    destruct (_get_session None (with_cookies g1 c)) as [hs | e];
      [| intros H; inversion H; exists []; reflexivity].
    destruct (again (with_session (with_cookies g1 c) hs) w)
      as [[[g3 w3] [o3 | e3]] |] eqn:Hcall; [| | discriminate].
    + intros H. inversion H. subst. eapply Hagain. exact Hcall.
    + intros H. apply IH in H. destruct H as (l2 & H2).
      apply Hagain in Hcall. destruct Hcall as (l1 & H1).
      exists (l2 ++ l1)%list. rewrite H2, H1, app_assoc. reflexivity.
Qed.

Lemma generate_content_sent_grows (fuel : nat) :
  forall prompt chat0 g w g' w' r,
    generate_content fuel prompt chat0 g w = Some (g', w', r) ->
    exists later, sent w' = (later ++ sent w)%list.
Proof.
  induction fuel as [| fuel IH]; intros prompt chat0 g w g' w' r;
    cbn [generate_content].
  - discriminate.
  - destruct (translated g prompt) as [prompt' | e];
      [| intros H; inversion H; exists []; reflexivity].
    unfold post.
    set (entry := (session g,
                   mkRequest (SNlM0e g) prompt' (metadata_get <$> chat0))).
    destruct (pending w) as [| [| status_code text] rest].
    + intros H. inversion H. exists [entry]. reflexivity.
    + intros H. inversion H. exists [entry]. reflexivity.
    + destruct (negb (status_code =? 200));
        [intros H; inversion H; exists [entry]; reflexivity |].
      destruct (body ← decode_body text; build_output (cookies g) body)
        as [generated_content | e];
        [| intros H; inversion H; exists [entry]; reflexivity].
      destruct (negb (output_truthy generated_content));
        [| intros H; inversion H; exists [entry]; reflexivity].
      intros H.
      apply (retry_sent_grows (generate_content fuel prompt' chat0) 2
               (fun g0 w0 g0' w0' r0 => IH prompt' chat0 g0 w0 g0' w0' r0))
        in H.
      destruct H as (later & H). simpl in H.
      exists (later ++ [entry])%list. rewrite H, <- app_assoc. reflexivity.
Qed.

End TurnExtras.

(** X11. Only the line at index 2 of the response text matters to the
    decoder: two texts that agree on that line decode alike, whatever
    stands on the other lines and however many lines there are, and a
    text with fewer than three lines is rejected with
    [APIError("Failed to parse candidates. ...")]. *)
Theorem decode_body_depends_on_line_2_only `{RT : Runtime} (t1 t2 : string) :
  (split_newline t1 !! 2%nat = split_newline t2 !! 2%nat ->
   decode_body t1 = decode_body t2)
  /\ ((length (split_newline t1) <= 2)%nat ->
      decode_body t1 = Err (Raised APIError failed_to_parse_candidates)).
Proof.
  split.
  - intros H. unfold decode_body, decode_attempt.
    rewrite (framed_json_line t1 t2 0 H), (framed_json_line t1 t2 4 H).
    reflexivity.
  - intros Hlen. rewrite decode_body_unfold.
    assert (H0 : framed_json t1 0 = Err (Raised IndexError "")).
    { unfold framed_json. change 2 with (Z.of_nat 2). rewrite seq_index_nat.
      rewrite (lookup_ge_None_2 (split_newline t1) 2 Hlen). reflexivity. }
    unfold decode_attempt. rewrite H0. reflexivity.
Qed.

Lemma decode_body_depends_on_line_2_only_witness :
  decode_body (RT := Sample.runtime) Sample.other_framing
  = decode_body (RT := Sample.runtime) (Fixture.framed Fixture.two_text).
Proof.
  apply (decode_body_depends_on_line_2_only (RT := Sample.runtime)
           Sample.other_framing (Fixture.framed Fixture.two_text)).
  vm_compute. reflexivity.
Defined.

(** X12. The two shapes of a response decode alike: a body found at
    element [[4][2]] of the envelope, because the one at [[0][2]] has
    nothing at index 4, is returned just as when it stands at [[0][2]]
    itself, and so the output built from the two responses is the same.
    When the body at [[0][2]] has candidate data, element [[4][2]] is not
    looked at. *)
Theorem second_shape_decodes_like_first `{RT : Runtime} (t1 t2 : string)
    (line1 line2 : string) (outer1 outer2 first body : pyval) :
  split_newline t1 !! 2%nat = Some line1 ->
  json_loads line1 = Some outer1 ->
  from_envelope outer1 0 body ->
  split_newline t2 !! 2%nat = Some line2 ->
  json_loads line2 = Some outer2 ->
  from_envelope outer2 0 first ->
  empty_at_4 first ->
  from_envelope outer2 4 body ->
  candidate_bearing body ->
  decode_body t1 = Ok body
  /\ decode_body t2 = Ok body
  /\ forall cookies0,
       (b ← decode_body t1; build_output cookies0 b)
       = (b ← decode_body t2; build_output cookies0 b).
Proof.
  intros Hl1 Ho1 Hp1 Hl2 Ho2 Hp2 He2 Hs2 Hb.
  assert (H1 : decode_body t1 = Ok body).
  { rewrite decode_body_unfold.
    assert (H : decode_attempt t1 = Ok body).
    { apply decode_attempt_Ok. exists line1, outer1. auto. }
    rewrite H. reflexivity. }
  assert (H2 : decode_body t2 = Ok body).
  { rewrite decode_body_unfold.
    assert (H : decode_attempt t2 = Ok body).
    { apply decode_attempt_Ok. exists line2, outer2.
      split; [exact Hl2 |]. split; [exact Ho2 |]. split; [exact Hb |].
      right. exists first. auto. }
    rewrite H. reflexivity. }
  split; [exact H1 |]. split; [exact H2 |].
  intros cookies0. rewrite H1, H2. reflexivity.
Qed.

Lemma second_shape_decodes_like_first_witness :
  decode_body (RT := Sample.runtime) Sample.second_shape = Ok Fixture.two_value.
Proof.
  apply (second_shape_decodes_like_first (RT := Sample.runtime)
           (Fixture.framed Fixture.two_text) Sample.second_shape
           (Fixture.envelope Fixture.two_text)
           (Fixture.envelope_both Fixture.empty_text Fixture.two_text)
           (Fixture.envelope_value Fixture.two_text)
           (Fixture.envelope_both_value Fixture.empty_text Fixture.two_text)
           Fixture.empty_value Fixture.two_value).
  - reflexivity.
  - vm_compute. reflexivity.
  - exists Fixture.two_text. split; [reflexivity | vm_compute; reflexivity].
  - reflexivity.
  - vm_compute. reflexivity.
  - exists Fixture.empty_text. split; [reflexivity | vm_compute; reflexivity].
  - eexists. split; reflexivity.
  - exists Fixture.two_text. split; [reflexivity | vm_compute; reflexivity].
  - eexists. split; reflexivity.
Defined.

(** X13. An output that is built has one candidate for each element of
    [body[4]], in the same order, each built from its element as the
    extractor builds it; its metadata is [body[1]] as it stands, and its
    chosen index is 0. *)
Theorem build_output_one_candidate_per_entry `{RT : Runtime}
    (cookies0 : pyval) (body : pyval) (o : GeminiOutput) :
  build_output cookies0 body = Ok o ->
  exists b4 entries,
    getitem body 4 = Ok b4
    /\ iter b4 = Ok entries
    /\ Forall2 (candidate_of cookies0) entries (candidates o)
    /\ length (candidates o) = length entries
    /\ getitem body 1 = Ok (metadata o)
    /\ chosen o = 0.
Proof.
  rewrite build_output_unfold.
  destruct (build_attempt cookies0 body) as [o' | e] eqn:Hrun;
    [| destruct (exn_class_eqb IndexError (exn_cls e)); discriminate].
  intros H. inversion H. subst o'. clear H.
  unfold build_attempt in Hrun.
  apply bind_Ok in Hrun. destruct Hrun as (entries & Hentries & Hrun).
  apply bind_Ok in Hentries. destruct Hentries as (b4 & Hb4 & Hiter).
  apply bind_Ok in Hrun. destruct Hrun as (found & Hfound & Hrun).
  destruct found as [| c found]; [discriminate |].
  apply bind_Ok in Hrun. destruct Hrun as (m & Hm & Hrun).
  inversion Hrun. subst o. simpl.
  apply (for_each_Ok_rel _ _ _ _ (extract_candidate_Ok cookies0)) in Hfound.
  exists b4, entries. repeat split; try assumption.
  symmetry. apply (Forall2_length _ _ _ Hfound).
Qed.

Lemma build_output_one_candidate_per_entry_witness :
  exists b4 entries,
    getitem Fixture.two_value 4 = Ok b4
    /\ iter b4 = Ok entries
    /\ Forall2 (candidate_of (RT := Fixture.runtime) Fixture.client_cookies)
         entries Fixture.two_candidates.
Proof.
  destruct (build_output_one_candidate_per_entry (RT := Fixture.runtime)
              Fixture.client_cookies Fixture.two_value Fixture.two_output)
    as (b4 & entries & H4 & Hi & Hall & _).
  - vm_compute. reflexivity.
  - exists b4, entries. auto.
Defined.

(** X14. A call whose POST raises ends with [TimeoutError], and a call
    answered with a status other than 200 ends with
    [APIError("Request failed with status code ...")] without the body
    being decoded, even when the body is a proper response.  In both
    cases one request is made, the client is not touched and nothing is
    retried. *)
Theorem transport_failures_end_the_call `{RT : Runtime} (fuel : nat)
    (prompt prompt' : pyval) (chat0 : option GeminiSession) (g : Gemini)
    (w : World) (rest : list Response) :
  translated g prompt = Ok prompt' ->
  let logged :=
    (session g, mkRequest (SNlM0e g) prompt' (metadata_get <$> chat0))
      :: sent w in
  (pending w = PostRaises :: rest ->
   generate_content (S fuel) prompt chat0 g w
   = Some (g, mkWorld rest logged (env_cookies w) (browser_cookies w),
           Err (Raised TimeoutError request_timed_out)))
  /\ (forall status_code text,
        pending w = HttpResponse status_code text :: rest ->
        status_code <> 200 ->
        generate_content (S fuel) prompt chat0 g w
        = Some (g, mkWorld rest logged (env_cookies w) (browser_cookies w),
                Err (Raised APIError
                       ("Request failed with status code "
                        ++ py_format (VInt status_code))))).
Proof.
  intros Htr logged. split.
  - intros Hp. cbn [generate_content]. rewrite Htr. unfold post. rewrite Hp.
    reflexivity.
  - intros status_code text Hp Hne. cbn [generate_content]. rewrite Htr.
    unfold post. rewrite Hp.
    destruct (Z.eqb_spec status_code 200) as [Heq | _]; [contradiction |].
    reflexivity.
Qed.

Lemma transport_failures_end_the_call_witness :
  exists w',
    generate_content (RT := Fixture.runtime) 1 (VStr "a") None Fixture.client
      (Fixture.serving [HttpResponse 503 (Fixture.framed Fixture.two_text)])
    = Some (Fixture.client, w',
            Err (Raised APIError "Request failed with status code 503")).
Proof.
  destruct (transport_failures_end_the_call (RT := Fixture.runtime) 0
              (VStr "a") (VStr "a") None Fixture.client
              (Fixture.serving [HttpResponse 503 (Fixture.framed Fixture.two_text)])
              []) as (_ & H).
  - reflexivity.
  - eexists. apply (H 503 (Fixture.framed Fixture.two_text)).
    + reflexivity.
    + discriminate.
Defined.

(** The request of a call is logged on top of what was logged before. *)
Lemma generate_content_logs_request `{RT : Runtime} (fuel : nat)
    (prompt prompt' : pyval) (chat0 : option GeminiSession) (g g' : Gemini)
    (w w' : World) (r : result GeminiOutput) :
  translated g prompt = Ok prompt' ->
  generate_content fuel prompt chat0 g w = Some (g', w', r) ->
  exists later,
    sent w'
    = (later
       ++ (session g,
           mkRequest (SNlM0e g) prompt'
             (metadata_get <$> chat0))
       :: sent w)%list.
Proof.
  intros Htr.
  destruct fuel as [| fuel]; cbn [generate_content]; [discriminate |].
  rewrite Htr. unfold post.
  set (entry := (session g,
                 mkRequest (SNlM0e g) prompt' (metadata_get <$> chat0))).
  destruct (pending w) as [| [| status_code text] rest].
  - intros H. inversion H. exists []. reflexivity.
  - intros H. inversion H. exists []. reflexivity.
  - destruct (negb (status_code =? 200));
      [intros H; inversion H; exists []; reflexivity |].
    destruct (body ← decode_body text; build_output (cookies g) body)
      as [generated_content | e];
      [| intros H; inversion H; exists []; reflexivity].
    destruct (negb (output_truthy generated_content));
      [| intros H; inversion H; exists []; reflexivity].
    intros H.
    apply (retry_sent_grows (generate_content fuel prompt' chat0) 2
             (fun g0 w0 g0' w0' r0 =>
                generate_content_sent_grows fuel prompt' chat0 g0 w0 g0' w0' r0))
      in H.
    destruct H as (later & H). simpl in H. exists later. exact H.
Qed.


(** X15. Every call whose prompt passes the translation step comes to
    an end, with one outcome for every amount of fuel above the number of
    answers pending, and has made a request with the client's token, the
    prompt, and the metadata list the session has at that moment, or
    [None] when no session is given; requests logged earlier are never
    removed, whatever the outcome and however often the call retries. *)
Theorem generate_content_sends_session_metadata `{RT : Runtime}
    (prompt prompt' : pyval) (chat0 : option GeminiSession) (g : Gemini)
    (w : World) :
  translated g prompt = Ok prompt' ->
  exists g' w' r later,
    (forall fuel, (length (pending w) < fuel)%nat ->
       generate_content fuel prompt chat0 g w = Some (g', w', r))
    /\ sent w'
       = (later
          ++ (session g,
              mkRequest (SNlM0e g) prompt'
                (match chat0 with
                 | Some s => Some (_metadata s)
                 | None => None
                 end))
          :: sent w)%list.
Proof.
  intros Htr.
  destruct (generate_content_outcome prompt chat0 g w)
    as (g' & w' & r & _ & Hrun).
  destruct (generate_content_logs_request (S (length (pending w))) prompt
              prompt' chat0 g g' w w' r Htr (Hrun _ (Nat.lt_succ_diag_r _)))
    as (later & Hsent).
  exists g', w', r, later. split; [exact Hrun |].
  rewrite Hsent. destruct chat0 as [s |]; reflexivity.
Qed.

(** With an output class whose instances count as false the call goes
    through the retry loop: two more requests follow the first one, which
    carries the metadata of the session. *)
Lemma generate_content_sends_session_metadata_witness :
  exists g' w' r later,
    generate_content (RT := Fixture.falsy_runtime) 2 (VStr "b")
      (Some Fixture.recorded) Fixture.client
      (Fixture.serving [HttpResponse 200 (Fixture.framed Fixture.two_text)])
    = Some (g', w', r)
    /\ sent w'
       = (later
          ++ [(session Fixture.client,
               mkRequest (VStr "token") (VStr "b")
                 (Some [VStr "c_1"; VStr "r_1"; VStr "rc_0"]))])%list
    /\ length later = 2%nat.
Proof.
  destruct (generate_content_sends_session_metadata
              (RT := Fixture.falsy_runtime)
              (VStr "b") (VStr "b") (Some Fixture.recorded) Fixture.client
              (Fixture.serving
                 [HttpResponse 200 (Fixture.framed Fixture.two_text)]))
    as (g' & w' & r & later & Hrun & Hsent).
  - reflexivity.
  - exists g', w', r, later.
    assert (Hrun2 := Hrun 2%nat ltac:(simpl; lia)).
    split; [exact Hrun2 |]. split; [exact Hsent |].
    vm_compute in Hrun2. inversion Hrun2. subst g' w' r. clear Hrun2 Hrun.
    apply (f_equal (@length _)) in Hsent.
    rewrite length_app in Hsent. simpl in Hsent. lia.
Defined.

(** X16. When every output that has a candidate counts as true, as an
    object without [__bool__] and [__len__] does, [generate_content]
    makes exactly one POST and returns or raises on its answer: the
    client keeps its cookies and its HTTP session, and the retry loop is
    never entered. *)
Theorem generate_content_makes_one_attempt `{RT : Runtime} (fuel : nat)
    (prompt prompt' : pyval) (chat0 : option GeminiSession) (g : Gemini)
    (w : World) :
  (forall o, candidates o <> [] -> output_truthy o = true) ->
  translated g prompt = Ok prompt' ->
  exists r,
    generate_content (S fuel) prompt chat0 g w
    = Some (g,
            mkWorld (tail (pending w))
              ((session g, mkRequest (SNlM0e g) prompt' (metadata_get <$> chat0))
                 :: sent w)
              (env_cookies w) (browser_cookies w),
            r).
Proof.
  intros Htruthy Htr. cbn [generate_content]. rewrite Htr. unfold post.
  destruct (pending w) as [| [| status_code text] rest]; simpl tail.
  - eexists. reflexivity.
  - eexists. reflexivity.
  - destruct (negb (status_code =? 200)); [eexists; reflexivity |].
    destruct (pipeline_outcomes (cookies g) text) as [Hok _].
    destruct (body ← decode_body text; build_output (cookies g) body)
      as [generated_content | e] eqn:Hrun; [| eexists; reflexivity].
    rewrite (Htruthy generated_content (Hok _ eq_refl)). cbn [negb].
    eexists. reflexivity.
Qed.

Lemma generate_content_makes_one_attempt_witness :
  exists r,
    generate_content (RT := Fixture.runtime) 5 (VStr "a") None Fixture.client
      (Fixture.serving [HttpResponse 200 Fixture.both_empty;
                        HttpResponse 200 (Fixture.framed Fixture.two_text)])
    = Some (Fixture.client,
            mkWorld [HttpResponse 200 (Fixture.framed Fixture.two_text)]
              [(session Fixture.client,
                mkRequest (VStr "token") (VStr "a") None)]
              None (Ok Fixture.client_cookies),
            r).
Proof.
  apply (generate_content_makes_one_attempt (RT := Fixture.runtime) 4
           (VStr "a") (VStr "a") None Fixture.client
           (Fixture.serving [HttpResponse 200 Fixture.both_empty;
                             HttpResponse 200 (Fixture.framed Fixture.two_text)])).
  - reflexivity.
  - reflexivity.
Defined.

(** ** Tokens *)

Section TokenFacts.

Lemma append_String (c : ascii) (a b : string) :
  String c a ++ b = String c (a ++ b).
Proof. reflexivity. Qed.

Lemma free_of_String (c x : ascii) (s : string) :
  free_of c (String x s) <-> x <> c /\ free_of c s.
Proof.
  unfold free_of. simpl. split.
  - intros H. split; [intros -> | intros Hin]; apply H; auto.
  - intros [Hx Hs] [-> | Hin]; [apply Hx; reflexivity | apply Hs; exact Hin].
Qed.

Lemma free_of_empty (c : ascii) : free_of c EmptyString.
Proof. intros []. Qed.

Lemma run_until_quote_app (found post : string) :
  free_of quote found ->
  run_until_quote (found ++ String quote post) = Some found.
Proof.
  induction found as [| x found IH]; intros Hf; simpl.
  - reflexivity.
  - apply free_of_String in Hf. destruct Hf as [Hx Hf].
    destruct (Ascii.eqb_spec x quote) as [-> | _]; [congruence |].
    rewrite (IH Hf). reflexivity.
Qed.

Lemma run_until_quote_inv (s found : string) :
  run_until_quote s = Some found ->
  (exists post, s = found ++ String quote post) /\ free_of quote found.
Proof.
  revert found. induction s as [| c s IH]; intros found; simpl; [discriminate |].
  destruct (Ascii.eqb_spec c quote) as [-> | Hq].
  - intros H. inversion H. split; [exists s; reflexivity | apply free_of_empty].
  - destruct (run_until_quote s) as [inner |]; simpl; [| discriminate].
    intros H. inversion H. subst found.
    destruct (IH inner eq_refl) as [[post Hp] Hf].
    split; [exists post; rewrite append_String, <- Hp; reflexivity |].
    apply free_of_String. auto.
Qed.

Lemma lazy_until_quote_app (found post : string) :
  free_of quote found -> free_of newline found ->
  lazy_until_quote (found ++ String quote post) = Some found.
Proof.
  induction found as [| x found IH]; intros Hq Hn; simpl.
  - reflexivity.
  - apply free_of_String in Hq. destruct Hq as [Hxq Hq].
    apply free_of_String in Hn. destruct Hn as [Hxn Hn].
    destruct (Ascii.eqb_spec x quote) as [-> | _]; [congruence |].
    destruct (Ascii.eqb_spec x newline) as [-> | _]; [congruence |].
    rewrite (IH Hq Hn). reflexivity.
Qed.

Lemma lazy_until_quote_inv (s found : string) :
  lazy_until_quote s = Some found ->
  (exists post, s = found ++ String quote post)
  /\ free_of quote found /\ free_of newline found.
Proof.
  revert found. induction s as [| c s IH]; intros found; simpl; [discriminate |].
  destruct (Ascii.eqb_spec c quote) as [-> | Hq].
  - intros H. inversion H.
    split; [exists s; reflexivity | split; apply free_of_empty].
  - destruct (Ascii.eqb_spec c newline) as [-> | Hn]; [discriminate |].
    destruct (lazy_until_quote s) as [inner |]; simpl; [| discriminate].
    intros H. inversion H. subst found.
    destruct (IH inner eq_refl) as [[post Hp] [Hfq Hfn]].
    split; [exists post; rewrite append_String, <- Hp; reflexivity |].
    split; apply free_of_String; auto.
Qed.

Lemma some_until_quote_app (found post : string) :
  found <> EmptyString -> free_of quote found ->
  some_until_quote (found ++ String quote post) = Some found.
Proof.
  intros Hne Hf. unfold some_until_quote. rewrite (run_until_quote_app _ _ Hf).
  destruct found; [contradiction | reflexivity].
Qed.

Lemma some_until_quote_inv (s found : string) :
  some_until_quote s = Some found ->
  (exists post, s = found ++ String quote post) /\ free_of quote found
  /\ found <> EmptyString.
Proof.
  unfold some_until_quote.
  destruct (run_until_quote s) as [[| x inner] |] eqn:Hrun; try discriminate.
  intros H. inversion H. subst found.
  apply run_until_quote_inv in Hrun. destruct Hrun as [Hp Hf].
  split; [exact Hp |]. split; [exact Hf | discriminate].
Qed.

Lemma strip_prefix_app (p rest : string) : strip_prefix p (p ++ rest) = Some rest.
Proof.
  induction p as [| a p IH]; simpl; [reflexivity |].
  rewrite Ascii.eqb_refl. exact IH.
Qed.

Lemma strip_prefix_inv (p s rest : string) :
  strip_prefix p s = Some rest -> s = p ++ rest.
Proof.
  revert s. induction p as [| a p IH]; intros s; simpl.
  - intros H. inversion H. reflexivity.
  - destruct s as [| b s]; [discriminate |].
    destruct (Ascii.eqb_spec a b) as [-> | Hne]; [| discriminate].
    intros H. apply IH in H. rewrite H. reflexivity.
Qed.

(** A match that is found stands somewhere in the text. *)
Lemma search_group_Some (p : string) (group : string -> option string)
    (text found : string) :
  search_group p group text = Some found ->
  exists pre rest, text = pre ++ p ++ rest /\ group rest = Some found.
Proof.
  induction text as [| c text IH]; cbn [search_group].
  - destruct (strip_prefix p EmptyString) as [rest |] eqn:Hs; [| discriminate].
    destruct (group rest) eqn:Hg; [| discriminate].
    intros H. inversion H. subst. apply strip_prefix_inv in Hs.
    exists EmptyString, rest. split; [exact Hs | exact Hg].
  - destruct (strip_prefix p (String c text)) as [rest |] eqn:Hs.
    + destruct (group rest) eqn:Hg.
      * intros H. inversion H. subst. apply strip_prefix_inv in Hs.
        exists EmptyString, rest. split; [exact Hs | exact Hg].
      * intros H. apply IH in H. destruct H as (pre & rest' & -> & Hg').
        exists (String c pre), rest'. split; [reflexivity | exact Hg'].
    + intros H. apply IH in H. destruct H as (pre & rest' & -> & Hg').
      exists (String c pre), rest'. split; [reflexivity | exact Hg'].
Qed.

(** A text in which the pattern matches somewhere gives a match. *)
Lemma search_group_finds (p : string) (group : string -> option string)
    (pre rest found : string) :
  group rest = Some found ->
  exists found', search_group p group (pre ++ p ++ rest) = Some found'.
Proof.
  intros Hg.
  assert (Hhere : forall text, text = p ++ rest ->
            search_group p group text = Some found).
  { intros text ->.
    pose proof (strip_prefix_app p rest) as Hs.
    destruct (p ++ rest) eqn:Ht; cbn [search_group]; rewrite Hs, Hg; reflexivity. }
  induction pre as [| c pre IH].
  - exists found. apply Hhere. reflexivity.
  - rewrite append_String. cbn [search_group].
    destruct (match strip_prefix p (String c (pre ++ p ++ rest)) with
              | Some r => group r
              | None => None
              end) as [early |]; [exists early; reflexivity | exact IH].
Qed.

End TokenFacts.

(** X17. [_get_snim0e] raises [Exception] for every status other than
    200, whatever the page.  With status 200, a value it returns stands
    in the page between the literal text of the pattern and a double
    quote and contains neither a double quote nor a newline; and it
    returns a value whenever the page has that literal text followed on
    the same line by a double quote. *)
Theorem get_snim0e_token `{RT : Runtime} (status_code : Z) (text : string) :
  (status_code <> 200 ->
   exists msg, _get_snim0e status_code text = Err (Raised PyException msg))
  /\ (forall found, _get_snim0e status_code text = Ok found ->
        status_code = 200
        /\ (exists pre post,
              text = pre ++ snim0e_literal ++ found ++ String quote post)
        /\ free_of quote found /\ free_of newline found)
  /\ (forall pre found post,
        status_code = 200 ->
        text = pre ++ snim0e_literal ++ found ++ String quote post ->
        free_of quote found -> free_of newline found ->
        exists found', _get_snim0e status_code text = Ok found').
Proof.
  unfold _get_snim0e. split; [| split].
  - intros Hne. destruct (Z.eqb_spec status_code 200) as [Heq | _];
      [contradiction |].
    eexists. reflexivity.
  - intros found. destruct (Z.eqb_spec status_code 200) as [Heq | _];
      [| discriminate].
    simpl negb. cbv iota.
    destruct (search_group snim0e_literal lazy_until_quote text) as [t |] eqn:Hs;
      [| discriminate].
    intros H. inversion H. subst t.
    apply search_group_Some in Hs. destruct Hs as (pre & rest & Htext & Hg).
    apply lazy_until_quote_inv in Hg. destruct Hg as [[post Hrest] [Hfq Hfn]].
    split; [exact Heq |]. split; [| split; assumption].
    exists pre, post. rewrite Htext, Hrest. reflexivity.
  - intros pre found post -> -> Hfq Hfn. simpl negb. cbv iota.
    destruct (search_group_finds snim0e_literal lazy_until_quote pre
                (found ++ String quote post) found) as [found' Hf].
    + apply lazy_until_quote_app; assumption.
    + rewrite Hf. exists found'. reflexivity.
Qed.

Lemma get_snim0e_token_witness :
  exists found',
    _get_snim0e (RT := Fixture.runtime) 200
      ("<script>" ++ snim0e_literal ++ "AB-12:xyz" ++ String quote ",x</script>")
    = Ok found'.
Proof.
  destruct (get_snim0e_token (RT := Fixture.runtime) 200
              ("<script>" ++ snim0e_literal ++ "AB-12:xyz"
               ++ String quote ",x</script>")) as (_ & _ & H).
  apply (H "<script>" "AB-12:xyz" ",x</script>"); try reflexivity.
  - unfold free_of. simpl. intros H0.
    repeat (destruct H0 as [H0 | H0]; [discriminate H0 |]). exact H0.
  - unfold free_of. simpl. intros H0.
    repeat (destruct H0 as [H0 | H0]; [discriminate H0 |]). exact H0.
Defined.

(** X18. [get_nonce_value] raises [Exception], with one and the same
    message, for every status other than 200 and for a page without a
    match.  A value it returns is not empty, contains no double quote,
    and stands in the page between the literal text of the pattern and a
    double quote; and it returns a value whenever the page has that
    literal text followed by at least one character other than a double
    quote and then a double quote. *)
Theorem get_nonce_value_token (status_code : Z) (text : string) :
  (forall e, get_nonce_value status_code text = Err e ->
     e = Raised PyException
           "Nonce token value not found or response status is not 200.")
  /\ (status_code <> 200 -> exists e, get_nonce_value status_code text = Err e)
  /\ (forall found, get_nonce_value status_code text = Ok found ->
        status_code = 200
        /\ found <> EmptyString
        /\ free_of quote found
        /\ exists pre post,
             text = pre ++ nonce_literal ++ found ++ String quote post)
  /\ (forall pre found post,
        status_code = 200 ->
        text = pre ++ nonce_literal ++ found ++ String quote post ->
        found <> EmptyString -> free_of quote found ->
        exists found', get_nonce_value status_code text = Ok found').
Proof.
  unfold get_nonce_value. split; [| split; [| split]].
  - intros e. destruct (status_code =? 200).
    + destruct (search_group nonce_literal some_until_quote text);
        [discriminate |].
      intros H. inversion H. reflexivity.
    + intros H. inversion H. reflexivity.
  - intros Hne. destruct (Z.eqb_spec status_code 200) as [Heq | _];
      [contradiction |].
    eexists. reflexivity.
  - intros found. destruct (Z.eqb_spec status_code 200) as [Heq | _];
      [| discriminate].
    destruct (search_group nonce_literal some_until_quote text) as [t |] eqn:Hs;
      [| discriminate].
    intros H. inversion H. subst t.
    apply search_group_Some in Hs. destruct Hs as (pre & rest & Htext & Hg).
    apply some_until_quote_inv in Hg.
    destruct Hg as ([post Hrest] & Hfq & Hne).
    split; [exact Heq |]. split; [exact Hne |]. split; [exact Hfq |].
    exists pre, post. rewrite Htext, Hrest. reflexivity.
  - intros pre found post -> -> Hne Hfq. cbn [Z.eqb Pos.eqb].
    destruct (search_group_finds nonce_literal some_until_quote pre
                (found ++ String quote post) found) as [found' Hf].
    + apply some_until_quote_app; assumption.
    + rewrite Hf. exists found'. reflexivity.
Qed.

Lemma get_nonce_value_token_witness :
  exists found',
    get_nonce_value 200
      ("<script " ++ nonce_literal ++ "n0nce" ++ String quote ">") = Ok found'.
Proof.
  destruct (get_nonce_value_token 200
              ("<script " ++ nonce_literal ++ "n0nce" ++ String quote ">"))
    as (_ & _ & _ & H).
  apply (H "<script " "n0nce" ">"); try reflexivity.
  - discriminate.
  - unfold free_of. simpl. intros H0.
    repeat (destruct H0 as [H0 | H0]; [discriminate H0 |]). exact H0.
Defined.

(** ** The cookies of GeminiClient *)

Section ClientCookieFacts.

Lemma dict_get_jar_set (j : list (string * pyval)) (k k' : string) (v : pyval) :
  dict_get (jar_set j k v) k'
  = if String.eqb k' k then Some v else dict_get j k'.
Proof.
  induction j as [| [k0 v0] j IH]; simpl.
  - reflexivity.
  - destruct (String.eqb_spec k k0) as [-> | Hne]; simpl.
    + destruct (String.eqb k' k0); reflexivity.
    + rewrite IH. destruct (String.eqb_spec k' k0) as [-> | Hne'].
      * destruct (String.eqb_spec k0 k) as [Heq | _]; [congruence | reflexivity].
      * reflexivity.
Qed.

Lemma dict_get_not_in (kv : list (string * pyval)) (k : string) :
  ~ In k (map fst kv) -> dict_get kv k = None.
Proof.
  induction kv as [| [k0 v0] kv IH]; simpl; [reflexivity |].
  intros Hnot. destruct (String.eqb_spec k k0) as [-> | _].
  - exfalso. apply Hnot. left. reflexivity.
  - apply IH. intros Hin. apply Hnot. right. exact Hin.
Qed.

Lemma set_true_values_lookup (kv jar : list (string * pyval)) (k : string) :
  List.NoDup (map fst kv) ->
  dict_get (set_true_values jar kv) k
  = match dict_get kv k with
    | Some v => if truthy v then Some v else dict_get jar k
    | None => dict_get jar k
    end.
Proof.
  revert jar. induction kv as [| [k0 v0] kv IH]; intros jar Hnd.
  - reflexivity.
  - inversion Hnd as [| ? ? Hnotin Hnd']. subst.
    unfold set_true_values in *. cbn [fold_left fst snd].
    rewrite (IH _ Hnd'). cbn [dict_get].
    destruct (String.eqb_spec k k0) as [-> | Hne].
    + rewrite (dict_get_not_in kv k0 Hnotin).
      destruct (truthy v0); [| reflexivity].
      rewrite dict_get_jar_set, String.eqb_refl. reflexivity.
    + assert (Hj : dict_get (if truthy v0 then jar_set jar k0 v0 else jar) k
                   = dict_get jar k).
      { destruct (truthy v0); [| reflexivity].
        rewrite dict_get_jar_set.
        destruct (String.eqb_spec k k0); [contradiction | reflexivity]. }
      rewrite Hj. reflexivity.
Qed.

Lemma for_each_fails {A B} (f : A -> result B) (xs : list A) (x : A) (e : exn) :
  In x xs ->
  (forall y e', f y = Err e' -> e' = e) ->
  (exists e', f x = Err e') ->
  for_each f xs = Err e.
Proof.
  intros Hin Hall [e' Hx]. induction xs as [| a xs IH]; [destruct Hin |].
  simpl. unfold bind. destruct (f a) as [b | ea] eqn:Ha.
  - destruct Hin as [-> | Hin]; [congruence |].
    rewrite (IH Hin). reflexivity.
  - rewrite (Hall a ea Ha). reflexivity.
Qed.

Lemma first_browser_skips (skipped later : list browser)
    (cj : list (string * pyval)) :
  Forall (fun b => match b with
                   | Ok pairs => (length (dict_of_pairs pairs) < 5)%nat
                   | Err _ => True
                   end) skipped ->
  (5 <= length (dict_of_pairs cj))%nat ->
  first_browser_with_cookies (skipped ++ Ok cj :: later)
  = Some (dict_of_pairs cj).
Proof.
  intros Hskip Hcj. induction Hskip as [| b skipped Hb _ IH];
    cbn [app first_browser_with_cookies].
  - destruct (Nat.leb_spec 5 (length (dict_of_pairs cj))); [reflexivity | lia].
  - destruct b as [pairs | e]; [| exact IH].
    destruct (Nat.leb_spec 5 (length (dict_of_pairs pairs))); [lia | exact IH].
Qed.

Lemma first_browser_none (browsers : list browser) :
  Forall (fun b => match b with
                   | Ok pairs => (length (dict_of_pairs pairs) < 5)%nat
                   | Err _ => True
                   end) browsers ->
  first_browser_with_cookies browsers = None.
Proof.
  intros H. induction H as [| b browsers Hb _ IH];
    cbn [first_browser_with_cookies]; [reflexivity |].
  destruct b as [pairs | e]; [| exact IH].
  destruct (Nat.leb_spec 5 (length (dict_of_pairs pairs))); [lia | exact IH].
Qed.

Lemma first_browser_found (browsers : list browser)
    (found : list (string * pyval)) :
  first_browser_with_cookies browsers = Some found ->
  (5 <= length found)%nat /\ truthy (VDict found) = true.
Proof.
  induction browsers as [| b browsers IH]; cbn [first_browser_with_cookies];
    [discriminate |].
  destruct b as [pairs | e]; [| exact IH].
  destruct (Nat.leb_spec 5 (length (dict_of_pairs pairs))) as [Hge | _];
    [| exact IH].
  intros H. inversion H. subst found. split; [exact Hge |].
  simpl. destruct (dict_of_pairs pairs); [simpl in Hge; lia | reflexivity].
Qed.

Lemma get_cookies_from_browser_truthy (browsers : list browser)
    (cookies0 cookies1 : pyval) (r : result unit) :
  _get_cookies_from_browser browsers cookies0 = (cookies1, r) ->
  (r = Ok tt <-> truthy cookies1 = true).
Proof.
  unfold _get_cookies_from_browser.
  destruct (truthy (match first_browser_with_cookies browsers with
                    | Some found_cookies => VDict found_cookies
                    | None => cookies0
                    end)) eqn:Ht; simpl; intros H; inversion H; subst;
    rewrite Ht; split; intros H0; try reflexivity; discriminate.
Qed.

End ClientCookieFacts.

(** X19. [_get_cookies_from_browser] takes the cookies of the first
    browser, in the order of [SUPPORTED_BROWSERS], that yields at least
    five different names: browsers before it that raise or yield fewer
    are passed over, browsers after it are not used, and what the slot
    held before is replaced.  When no browser qualifies the slot is left
    as it is, and the call raises [ValueError] exactly when the slot is
    empty. *)
Theorem get_cookies_from_browser_first_match (skipped later : list browser)
    (cj : list (string * pyval)) (cookies0 : pyval) :
  Forall (fun b => match b with
                   | Ok pairs => (length (dict_of_pairs pairs) < 5)%nat
                   | Err _ => True
                   end) skipped ->
  ((5 <= length (dict_of_pairs cj))%nat ->
   _get_cookies_from_browser (skipped ++ Ok cj :: later) cookies0
   = (VDict (dict_of_pairs cj), Ok tt))
  /\ _get_cookies_from_browser skipped cookies0
     = (cookies0,
        if truthy cookies0 then Ok tt
        else Err (Raised ValueError failed_to_get_cookies)).
Proof.
  intros Hskip. split.
  - intros Hcj. unfold _get_cookies_from_browser.
    rewrite (first_browser_skips skipped later cj Hskip Hcj).
    destruct (first_browser_found (skipped ++ Ok cj :: later) (dict_of_pairs cj)
                (first_browser_skips skipped later cj Hskip Hcj)) as [_ Ht].
    rewrite Ht. reflexivity.
  - unfold _get_cookies_from_browser. rewrite (first_browser_none skipped Hskip).
    destruct (truthy cookies0); reflexivity.
Qed.

Lemma get_cookies_from_browser_first_match_witness :
  _get_cookies_from_browser
    [Err (Raised PyException "no such browser");
     Ok [("a", VStr "1"); ("a", VStr "2"); ("b", VStr "3"); ("c", VStr "4");
         ("d", VStr "5")];
     Ok [("a", VStr "1"); ("b", VStr "2"); ("c", VStr "3"); ("d", VStr "4");
         ("e", VStr "5")];
     Ok []]
    (VDict [])
  = (VDict [("a", VStr "1"); ("b", VStr "2"); ("c", VStr "3"); ("d", VStr "4");
            ("e", VStr "5")], Ok tt).
Proof.
  destruct (get_cookies_from_browser_first_match
              [Err (Raised PyException "no such browser");
               Ok [("a", VStr "1"); ("a", VStr "2"); ("b", VStr "3");
                   ("c", VStr "4"); ("d", VStr "5")]]
              [Ok []]
              [("a", VStr "1"); ("b", VStr "2"); ("c", VStr "3"); ("d", VStr "4");
               ("e", VStr "5")]
              (VDict [])) as [H _].
  - repeat constructor; simpl; lia.
  - apply H. simpl. lia.
Defined.

(** X20. When [_get_cookies] returns, the slot [cookies] is set and not
    empty.  Cookies that are there already are kept: no browser is read
    and nothing is assigned.  With empty cookies, [auto_cookies=False]
    does not prevent the browsers from being read: the cookies after the
    call, and whether it returns or raises, are the same as with
    [auto_cookies=True]; what differs is that the flag [auto_cookies] of
    the client is set, and the message of the [Exception], which with
    [True] is "Failed to extract cookies from browser.". *)
Theorem get_cookies_outcomes (auto_cookies : bool) (browsers : list browser)
    (c : GeminiClient) :
  (forall c', _get_cookies auto_cookies browsers c = (c', Ok tt) ->
     exists ck, gc_cookies c' = Some ck /\ truthy ck = true)
  /\ (forall ck, gc_cookies c = Some ck -> truthy ck = true ->
        _get_cookies auto_cookies browsers c = (c, Ok tt))
  /\ (truthy (default (VDict []) (gc_cookies c)) = false ->
      gc_cookies (_get_cookies false browsers c).1
      = gc_cookies (_get_cookies true browsers c).1
      /\ ((_get_cookies false browsers c).2 = Ok tt
          <-> (_get_cookies true browsers c).2 = Ok tt)
      /\ gc_auto_cookies (_get_cookies false browsers c).1 = true
      /\ gc_auto_cookies (_get_cookies true browsers c).1 = gc_auto_cookies c
      /\ (forall e, (_get_cookies true browsers c).2 = Err e ->
            e = Raised PyException failed_to_extract)
      /\ (forall e, (_get_cookies false browsers c).2 = Err e ->
            e = Raised PyException cookies_must_be_provided)).
Proof.
  split; [| split].
  - intros c'. unfold _get_cookies.
    destruct (truthy (default (VDict []) (gc_cookies c))) eqn:H0.
    + intros H. inversion H. subst. eexists. split; [reflexivity | exact H0].
    + destruct (_get_cookies_from_browser browsers (default (VDict []) (gc_cookies c)))
        as [cookies1 r] eqn:Hb. simpl fst.
      destruct auto_cookies.
      * destruct r as [[] | e]; [| discriminate].
        destruct (truthy cookies1) eqn:H1; simpl; [| discriminate].
        intros H. inversion H. subst. eexists. split; [reflexivity | exact H1].
      * destruct (truthy cookies1) eqn:H1; simpl; [| discriminate].
        intros H. inversion H. subst. eexists. split; [reflexivity | exact H1].
  - intros ck Hck Ht. unfold _get_cookies. rewrite Hck. simpl default.
    rewrite Ht. destruct c as [ck0 a s]. simpl in *. subst. reflexivity.
  - intros H0. unfold _get_cookies. rewrite H0.
    destruct (_get_cookies_from_browser browsers (default (VDict []) (gc_cookies c)))
      as [cookies1 r] eqn:Hb. simpl fst.
    pose proof (get_cookies_from_browser_truthy _ _ _ _ Hb) as Hr.
    destruct r as [[] | e]; destruct (truthy cookies1) eqn:H1; simpl.
    + repeat split; intros; try reflexivity; discriminate.
    + exfalso. destruct Hr as [Hr _]. specialize (Hr eq_refl). discriminate.
    + exfalso. destruct Hr as [_ Hr]. specialize (Hr eq_refl). discriminate.
    + repeat split; intros; try discriminate; try reflexivity.
      * match goal with H : _ = Err _ |- _ => inversion H; reflexivity end.
      * match goal with H : _ = Err _ |- _ => inversion H; reflexivity end.
Qed.

Lemma get_cookies_outcomes_witness :
  _get_cookies false [Err (Raised PyException "locked")]
    (mkGeminiClient (Some (VDict [("__Secure-1PSID", VStr "x")])) false None)
  = (mkGeminiClient (Some (VDict [("__Secure-1PSID", VStr "x")])) false None,
     Ok tt).
Proof.
  destruct (get_cookies_outcomes false [Err (Raised PyException "locked")]
              (mkGeminiClient (Some (VDict [("__Secure-1PSID", VStr "x")]))
                 false None)) as (_ & H & _).
  apply (H (VDict [("__Secure-1PSID", VStr "x")])); reflexivity.
Defined.

(** X21. [_update_cookies] on a client that has cookies, a [dict]
    without repeated keys, and a session.  With no list given, every
    cookie whose value is true is then in the session's jar with that
    value; a cookie whose value is empty or [None] is skipped, and every
    other name in the jar keeps what it had; the client's own cookies
    stay as they are and the call returns.  With a list that names a
    cookie the client does not have, the call raises [KeyError] and the
    jar is untouched. *)
Theorem update_cookies_sets_true_values (browsers : list browser)
    (c : GeminiClient) (kv jar : list (string * pyval)) :
  gc_cookies c = Some (VDict kv) ->
  kv <> [] ->
  List.NoDup (map fst kv) ->
  gc_session c = Some jar ->
  (exists jar',
     _update_cookies None browsers c
     = (mkGeminiClient (gc_cookies c) (gc_auto_cookies c) (Some jar'), Ok tt)
     /\ forall k,
          dict_get jar' k
          = match dict_get kv k with
            | Some v => if truthy v then Some v else dict_get jar k
            | None => dict_get jar k
            end)
  /\ (forall names k,
        In k names -> dict_get kv k = None ->
        _update_cookies (Some names) browsers c = (c, Err (Raised KeyError ""))).
Proof.
  intros Hck Hne Hnd Hs.
  assert (Ht : truthy (VDict kv) = true).
  { simpl. destruct kv; [contradiction | reflexivity]. }
  assert (Hget : _get_cookies true browsers c = (c, Ok tt)).
  { unfold _get_cookies. rewrite Hck. simpl default. rewrite Ht.
    destruct c as [ck a s]. simpl in *. subst. reflexivity. }
  split.
  - exists (set_true_values jar kv). split.
    + unfold _update_cookies. rewrite Hget, Hck. simpl. rewrite Hs. reflexivity.
    + intros k. apply set_true_values_lookup. exact Hnd.
  - intros names k Hin Hk. unfold _update_cookies. rewrite Hget, Hck.
    simpl default. unfold cookies_to_update.
    assert (Hfail : for_each (fun k0 => v ← getitem_str (VDict kv) k0; Ok (k0, v))
                      names = Err (Raised KeyError "")).
    { apply (for_each_fails _ names k); [exact Hin | |].
      - intros y e'. unfold getitem_str, mbind, result_bind, bind, raise.
        destruct (dict_get kv y); [discriminate |].
        intros H. inversion H. reflexivity.
      - exists (Raised KeyError ""). unfold getitem_str. rewrite Hk. reflexivity. }
    rewrite Hfail. reflexivity.
Qed.

Lemma update_cookies_sets_true_values_witness :
  exists jar',
    _update_cookies None []
      (mkGeminiClient
         (Some (VDict [("__Secure-1PSID", VStr "new"); ("NID", VStr "")]))
         false
         (Some [("NID", VStr "old"); ("__Secure-1PSID", VStr "old")]))
    = (mkGeminiClient
         (Some (VDict [("__Secure-1PSID", VStr "new"); ("NID", VStr "")]))
         false (Some jar'), Ok tt)
    /\ dict_get jar' "__Secure-1PSID" = Some (VStr "new")
    /\ dict_get jar' "NID" = Some (VStr "old").
Proof.
  destruct (update_cookies_sets_true_values []
              (mkGeminiClient
                 (Some (VDict [("__Secure-1PSID", VStr "new"); ("NID", VStr "")]))
                 false
                 (Some [("NID", VStr "old"); ("__Secure-1PSID", VStr "old")]))
              [("__Secure-1PSID", VStr "new"); ("NID", VStr "")]
              [("NID", VStr "old"); ("__Secure-1PSID", VStr "old")])
    as [(jar' & Hrun & Hjar) _].
  - reflexivity.
  - discriminate.
  - repeat constructor; simpl; intros H;
      repeat (destruct H as [H | H]; [discriminate H |]); exact H.
  - reflexivity.
  - exists jar'. split; [exact Hrun |]. split; rewrite Hjar; reflexivity.
Defined.

(** ** From a recorded output to the next request *)

(** X22. When the caller records an output on the session by assigning
    it to [gemini_output] and then chooses candidate [i], the next
    [generate_content] with that session comes to an end, and its request
    carries the metadata of the recorded output in its first slots and
    the id of candidate [i] in slot 2. *)
Theorem recorded_choice_reaches_next_request `{RT : Runtime}
    (s : GeminiSession) (o : GeminiOutput) (md : list pyval) (first : Candidate)
    (i : nat) (c : Candidate) (prompt prompt' : pyval)
    (g : Gemini) (w : World) :
  three_slots s ->
  metadata o = VList md ->
  (length md <= 3)%nat ->
  seq_index (candidates o) (chosen o) = Some first ->
  output_truthy o = true ->
  candidates o !! i = Some c ->
  translated g prompt = Ok prompt' ->
  exists s1 s2,
    setattr_gemini_output (Some o) s = (s1, Ok tt)
    /\ choose_candidate (Z.of_nat i) s1 = (s2, Ok (set_chosen o (Z.of_nat i)))
    /\ exists g' w' r later,
         (forall fuel, (length (pending w) < fuel)%nat ->
            generate_content fuel prompt (Some s2) g w = Some (g', w', r))
         /\ sent w'
            = (later
               ++ (session g,
                   mkRequest (SNlM0e g) prompt'
                     (Some (<[2%nat := rcid c]>
                              (md ++ drop (length md) (_metadata s)))))
               :: sent w)%list.
Proof.
  intros Hs Hmd Hlen Hfirst Htrue Hc Htr.
  set (base := (md ++ drop (length md) (_metadata s))%list).
  assert (Hbase : length base = 3%nat).
  { unfold base. unfold three_slots in Hs.
    rewrite prefix_overwrite_length; lia. }
  set (s1 := mkSession (<[2%nat := rcid first]> base) (Some o)).
  assert (H1 : setattr_gemini_output (Some o) s = (s1, Ok tt)).
  { unfold setattr_gemini_output, mbind, method_mbind, method_bind, modify, lift.
    rewrite Hmd, metadata_set_list.
    destruct (Nat.ltb_spec 3 (length md)) as [Hgt | _]; [lia |].
    unfold GeminiOutput_rcid. rewrite Hfirst. unfold rcid_set.
    rewrite set_slot_in_range by (simpl; fold base; lia).
    reflexivity. }
  assert (Hs1 : three_slots s1).
  { unfold three_slots, s1. simpl. rewrite length_insert. exact Hbase. }
  pose proof (lookup_lt_Some _ _ _ Hc) as Hi.
  set (s2 := mkSession (<[2%nat := rcid c]> (_metadata s1))
               (Some (set_chosen o (Z.of_nat i)))).
  assert (H2 : choose_candidate (Z.of_nat i) s1
               = (s2, Ok (set_chosen o (Z.of_nat i)))).
  { apply choose_candidate_accepted; try assumption; try reflexivity; [lia |].
    apply seq_index_nonneg. exact Hc. }
  exists s1, s2.
  split; [exact H1 |]. split; [exact H2 |].
  destruct (generate_content_outcome prompt (Some s2) g w)
    as (g' & w' & r & _ & Hrun).
  destruct (generate_content_logs_request (S (length (pending w))) prompt
              prompt' (Some s2) g g' w w' r Htr
              (Hrun _ (Nat.lt_succ_diag_r _)))
    as (later & Hsent).
  exists g', w', r, later. split; [exact Hrun |].
  rewrite Hsent. simpl. unfold s1. simpl.
  rewrite list_insert_insert_eq. reflexivity.
Qed.

Lemma recorded_choice_reaches_next_request_witness :
  exists s1 s2 w',
    setattr_gemini_output (Some Fixture.two_output) fresh_session = (s1, Ok tt)
    /\ choose_candidate (RT := Fixture.runtime) 1 s1
       = (s2, Ok (set_chosen Fixture.two_output 1))
    /\ generate_content (RT := Fixture.runtime) 2 (VStr "b") (Some s2)
         Fixture.client
         (Fixture.serving [HttpResponse 200 (Fixture.framed Fixture.two_text)])
       = Some (Fixture.client, w', Ok Fixture.two_output)
    /\ sent w'
       = [(session Fixture.client,
           mkRequest (VStr "token") (VStr "b")
             (Some [VStr "c_1"; VStr "r_1"; VStr "rc_1"]))].
Proof.
  destruct (recorded_choice_reaches_next_request (RT := Fixture.runtime)
              fresh_session Fixture.two_output [VStr "c_1"; VStr "r_1"]
              (mkCandidate (VStr "rc_0") (VStr "first") [] [])
              1 (mkCandidate (VStr "rc_1") (VStr "second") [] [])
              (VStr "b") (VStr "b") Fixture.client
              (Fixture.serving
                 [HttpResponse 200 (Fixture.framed Fixture.two_text)]))
    as (s1 & s2 & H1 & H2 & g' & w' & r & later & Hrun & Hsent);
    try reflexivity.
  - simpl. lia.
  - exists s1, s2, w'.
    split; [exact H1 |]. split; [exact H2 |].
    vm_compute in H1. inversion H1. subst s1. clear H1.
    vm_compute in H2. inversion H2. subst s2. clear H2.
    assert (Hrun2 := Hrun 2%nat ltac:(simpl; lia)). clear Hrun.
    assert (Hg : g' = Fixture.client /\ r = Ok Fixture.two_output
                 /\ length (sent w') = 1%nat).
    { vm_compute in Hrun2. inversion Hrun2. subst g' w' r.
      split; [reflexivity |]. split; reflexivity. }
    destruct Hg as (-> & -> & Hone).
    split; [exact Hrun2 |].
    simpl in Hsent. rewrite Hsent in Hone. rewrite length_app in Hone.
    simpl in Hone. destruct later as [| x later]; [| simpl in Hone; lia].
    exact Hsent.
Defined.
